(** * mt_metadata: identity-keyed collections, the Station/Run tree and the
      EMTF XML transcoder

    A shallow embedding of

    - [mt_metadata/utils/list_dict.py]            (class [ListDict]),
    - [mt_metadata/timeseries/run.py]             (class [Run]),
    - [mt_metadata/timeseries/station.py]         (class [Station]),
    - [mt_metadata/transfer_functions/io/emtfxml/emtfxml.py]
                                                  (class [EMTFXML] and the
                                                  module functions),

    followed by the properties proved about them.

    Conventions.  A Python value that may be [None] is an [option]; a Python
    [str] is a [string] (ASCII text, [lower] maps [A-Z] to [a-z]); a Python
    float is a rational [Q]; a call that may raise returns a [result]; a
    method that mutates [self] returns the new [self]; where a property
    speaks of diagnostics, the method also returns the log records it
    emitted. *)

From Stdlib Require Import List String Ascii Bool Arith ZArith QArith Lia.
From Stdlib Require Import DecimalString OrdersEx RelationClasses.
From Stdlib Require Import Sorted Permutation Lqa.
Import ListNotations.

Set Implicit Arguments.

#[local] Open Scope string_scope.
#[local] Open Scope list_scope.

(* ================================================================= *)
(** ** Python values, exceptions and logging *)

(** The exceptions the modelled code raises. *)
Inductive PyError : Type :=
| TypeError
| KeyError
| ValueError
| AttributeError.

(** A computation that returns normally or raises. *)
Inductive result (A : Type) : Type :=
| Ok (a : A)
| Raise (e : PyError).

Arguments Ok {A} a.
Arguments Raise {A} e.

Definition bind {A B : Type} (m : result A) (k : A -> result B) : result B :=
  match m with
  | Ok a => k a
  | Raise e => Raise e
  end.

Notation "x <- m ;; k" := (bind m (fun x => k))
  (at level 61, m at next level, right associativity).

(** [try: body except exc: handler] *)
Definition try_except {A : Type} (body : result A) (exc : PyError)
  (handler : result A) : result A :=
  match body with
  | Ok a => Ok a
  | Raise e => if match e, exc with
                  | TypeError, TypeError | KeyError, KeyError
                  | ValueError, ValueError
                  | AttributeError, AttributeError => true
                  | _, _ => false
                  end
               then handler else Raise e
  end.

Inductive LogLevel : Type := DEBUG | WARNING | ERROR.

Record LogRecord : Type := mkLog { level : LogLevel; message : string }.

(** A value used as a dictionary key or as an identifier: [None] or a [str]. *)
Definition pykey : Type := option string.

Definition pykey_eqb (a b : pykey) : bool :=
  match a, b with
  | None, None => true
  | Some x, Some y => String.eqb x y
  | _, _ => false
  end.

(** [str(v)] for such a value. *)
Definition str_of_pykey (k : pykey) : string :=
  match k with
  | None => "None"
  | Some s => s
  end.

(** [str(n)] for a non-negative [int]. *)
Definition str_of_nat (n : nat) : string :=
  NilZero.string_of_uint (Nat.to_uint n).

(** [str(i)] for an [int]. *)
Definition str_of_int (i : Z) : string :=
  NilZero.string_of_int (Z.to_int i).

(** [s.lower()], [s.upper()] and [s.capitalize()] on ASCII text. *)
Definition lower_ascii (c : ascii) : ascii :=
  let n := nat_of_ascii c in
  if (65 <=? n)%nat && (n <=? 90)%nat then ascii_of_nat (n + 32) else c.

Definition upper_ascii (c : ascii) : ascii :=
  let n := nat_of_ascii c in
  if (97 <=? n)%nat && (n <=? 122)%nat then ascii_of_nat (n - 32) else c.

Fixpoint lower (s : string) : string :=
  match s with
  | EmptyString => EmptyString
  | String c s' => String (lower_ascii c) (lower s')
  end.

Fixpoint upper (s : string) : string :=
  match s with
  | EmptyString => EmptyString
  | String c s' => String (upper_ascii c) (upper s')
  end.

Definition capitalize (s : string) : string :=
  match s with
  | EmptyString => EmptyString
  | String c s' => String (upper_ascii c) (lower s')
  end.

(** [x in xs] for a list of strings. *)
Definition str_in (x : string) (xs : list string) : bool :=
  existsb (String.eqb x) xs.

(** [x in xs] where [x] may be [None] and [xs] holds strings only. *)
Definition opt_str_in (x : option string) (xs : list string) : bool :=
  match x with
  | None => false
  | Some s => str_in s xs
  end.

(** Python's [<] on [str]: lexicographic order on the characters. *)
Definition str_ltb (a b : string) : bool :=
  match String_as_OT.compare a b with
  | Lt => true
  | _ => false
  end.

(** [min(xs)] and [max(xs)] of a non-empty list of strings (the first of
    several equal extremes is kept, as Python does). *)
Fixpoint str_min_from (m : string) (xs : list string) : string :=
  match xs with
  | [] => m
  | x :: xs' => str_min_from (if str_ltb x m then x else m) xs'
  end.

Fixpoint str_max_from (m : string) (xs : list string) : string :=
  match xs with
  | [] => m
  | x :: xs' => str_max_from (if str_ltb m x then x else m) xs'
  end.

(** The attributes [ListDict] looks for on the objects it stores
    ([hasattr(obj, "id")], [hasattr(obj, "component")]): [None] when the
    object has no such attribute, [Some v] when it has one with value [v]
    (which may itself be Python's [None]). *)
Class PyObject (V : Type) : Type := {
  attr_id : V -> option pykey;
  attr_component : V -> option pykey
}.

(* ================================================================= *)
(** ** [ListDict] (mt_metadata/utils/list_dict.py) *)

Module ListDict.

(** What [__getitem__], [__setitem__] and [remove] dispatch on with
    [isinstance]: a [str], an [int], or something else (here [None]). *)
Inductive index : Type :=
  | IStr (s : string)
  | IInt (i : Z)
  | INone.

Definition index_of_pykey (k : pykey) : index :=
  match k with
  | Some s => IStr s
  | None => INone
  end.

Section WithValues.
Context {V : Type} `{PyObject V}.

(** [self._home]: an [OrderedDict], as its items in insertion order. *)
Definition t : Type := list (pykey * V).

Definition empty : t := [].

Definition keys (d : t) : list pykey := map fst d.
Definition values (d : t) : list V := map snd d.
Definition items (d : t) : list (pykey * V) := d.
Definition len (d : t) : nat := List.length d.

(** [key in self._home] *)
Definition contains (k : pykey) (d : t) : bool :=
  existsb (pykey_eqb k) (keys d).

(** [self._home[key]] *)
Fixpoint home_get (k : pykey) (d : t) : result V :=
  match d with
  | [] => Raise KeyError
  | (k', v) :: d' => if pykey_eqb k k' then Ok v else home_get k d'
  end.

(** [self._home[key] = value]: an existing key keeps its position, a
    new key goes to the end. *)
Fixpoint home_set (k : pykey) (v : V) (d : t) : t :=
  match d with
  | [] => [(k, v)]
  | (k', v') :: d' =>
      if pykey_eqb k k' then (k', v) :: d' else (k', v') :: home_set k v d'
  end.

(** [self._home.__delitem__(key)] *)
Fixpoint home_del (k : pykey) (d : t) : result t :=
  match d with
  | [] => Raise KeyError
  | (k', v') :: d' =>
      if pykey_eqb k k' then Ok d'
      else d'' <- home_del k d' ;; Ok ((k', v') :: d'')
  end.

Definition _get_key_from_index (d : t) (i : Z) : result pykey :=
  if (i <? 0)%Z then Raise KeyError
  else match nth_error (keys d) (Z.to_nat i) with
       | Some k => Ok k
       | None => Raise KeyError
       end.

Fixpoint index_from (k : pykey) (ks : list pykey) (n : nat) : result nat :=
  match ks with
  | [] => Raise KeyError
  | k' :: ks' => if pykey_eqb k' k then Ok n else index_from k ks' (S n)
  end.

Definition _get_index_from_key (d : t) (k : pykey) : result nat :=
  index_from k (keys d) 0.

Definition _get_key_from_object (obj : V) : result pykey :=
  match attr_id obj with
  | Some v => Ok v
  | None =>
      match attr_component obj with
      | Some v => Ok v
      | None => Raise TypeError
      end
  end.

Definition __getitem__ (d : t) (value : index) : result V :=
  match value with
  | IStr s => try_except (home_get (Some s) d) KeyError (Raise KeyError)
  | IInt i => key <- _get_key_from_index d i ;; home_get key d
  | INone => Raise TypeError
  end.

Definition __setitem__ (d : t) (idx : index) (value : V) : result t :=
  match idx with
  | IStr s => Ok (home_set (Some s) value d)
  | IInt i =>
      key <- try_except (_get_key_from_index d i) KeyError
               (try_except (_get_key_from_object value) TypeError
                  (Ok (Some (str_of_int i)))) ;;
      Ok (home_set key value d)
  | INone => Ok d
  end.

Definition append (d : t) (obj : V) : result t :=
  key <- try_except (_get_key_from_object obj) TypeError
           (Ok (Some (str_of_nat (List.length (keys d))))) ;;
  Ok (home_set key obj d).

Definition remove (d : t) (key : index) : result t :=
  match key with
  | IStr s => home_del (Some s) d
  | IInt i => k <- _get_key_from_index d i ;; home_del k d
  | INone => Raise TypeError
  end.

(** [extend], for [other] a [ListDict] (the only operand the callers
    modelled here pass). *)
Definition extend (d other : t) : t :=
  fold_left (fun acc kv => home_set (fst kv) (snd kv) acc) (items other) d.

End WithValues.

Arguments t V : clear implicits.

End ListDict.

(* ================================================================= *)
(** ** Metadata records shared by the entities *)

(** The right operand of [a + b], as [isinstance(other, T)] sees it. *)
Inductive operand (T : Type) : Type :=
| IsInstance (x : T)
| NotInstance (type_name : string).

Arguments IsInstance {T} x.
Arguments NotInstance {T} type_name.

(** Modelled from the spec: [TimePeriod] (mt_metadata.timeseries.TimePeriod
    is not among the sources here): every entity carries a [time_period{start, end}]
    whose bounds are ISO time strings, with a fixed sentinel meaning
    "not yet set". *)
Module TimePeriod.
Record t : Type := mk { start : string; end_ : string }.

Definition sentinel : string := "1980-01-01T00:00:00+00:00".

Definition default : t := mk sentinel sentinel.

Definition set_start (v : string) (tp : t) : t := mk v (end_ tp).
Definition set_end (v : string) (tp : t) : t := mk (start tp) v.
End TimePeriod.

(** Modelled from the spec: the sensor / data-logger metadata block
    ([Instrument], not among the sources here): id, name, manufacturer and type. *)
Module Instrument.
Record t : Type := mk {
    id : option string;
    name : option string;
    manufacturer : option string;
    type : option string
  }.

Definition default : t := mk None None None None.
End Instrument.

(** Modelled from the spec: a channel's [location] (x, y, z). *)
Module Location.
Record t : Type := mk { x : option Q; y : option Q; z : option Q }.

Definition default : t := mk None None None.
End Location.

(** Modelled from the spec: an [Electrode] terminal of an electric channel,
    with its own identity and the coordinates ([x, y, z] and [x2, y2, z2])
    the transcoder reads and writes. *)
Module Electrode.
Record t : Type := mk {
    id : option string;
    manufacturer : option string;
    type : option string;
    x : option Q; y : option Q; z : option Q;
    x2 : option Q; y2 : option Q; z2 : option Q
  }.

Definition default : t := mk None None None None None None None None None.
End Electrode.

(* ================================================================= *)
(** ** Channels: [Electric], [Magnetic], [Auxiliary] *)

Module Channel.

(** The class of the object, as [isinstance] sees it. *)
Inductive cls : Type := Electric | Magnetic | Auxiliary.

Definition cls_eqb (a b : cls) : bool :=
  match a, b with
  | Electric, Electric | Magnetic, Magnetic | Auxiliary, Auxiliary => true
  | _, _ => false
  end.

(** One record for the three classes.  [sensor] is an attribute of
    [Magnetic] objects, [dipole_length], [positive] and [negative] of
    [Electric] objects (transfer_functions/tf/electric.py); reading them
    on another class raises [AttributeError] (see the [get_] functions). *)
Record t : Type := mk {
    class : cls;
    component : option string;
    time_period : TimePeriod.t;
    location : Location.t;
    measurement_azimuth : option Q;
    translated_azimuth : option Q;
    sensor : Instrument.t;
    dipole_length : option Q;
    positive : Electrode.t;
    negative : Electrode.t
  }.

(** [Electric()], [Magnetic()], [Auxiliary()]: constructed empty. *)
Definition new (k : cls) : t :=
  mk k None TimePeriod.default Location.default None None
     Instrument.default None Electrode.default Electrode.default.

Definition set_component (v : option string) (c : t) : t :=
  mk (class c) v (time_period c) (location c) (measurement_azimuth c)
     (translated_azimuth c) (sensor c) (dipole_length c) (positive c)
     (negative c).

Definition set_time_period (v : TimePeriod.t) (c : t) : t :=
  mk (class c) (component c) v (location c) (measurement_azimuth c)
     (translated_azimuth c) (sensor c) (dipole_length c) (positive c)
     (negative c).

Definition set_location (v : Location.t) (c : t) : t :=
  mk (class c) (component c) (time_period c) v (measurement_azimuth c)
     (translated_azimuth c) (sensor c) (dipole_length c) (positive c)
     (negative c).

Definition set_measurement_azimuth (v : option Q) (c : t) : t :=
  mk (class c) (component c) (time_period c) (location c) v
     (translated_azimuth c) (sensor c) (dipole_length c) (positive c)
     (negative c).

Definition set_translated_azimuth (v : option Q) (c : t) : t :=
  mk (class c) (component c) (time_period c) (location c)
     (measurement_azimuth c) v (sensor c) (dipole_length c) (positive c)
     (negative c).

Definition set_sensor (v : Instrument.t) (c : t) : t :=
  mk (class c) (component c) (time_period c) (location c)
     (measurement_azimuth c) (translated_azimuth c) v (dipole_length c)
     (positive c) (negative c).

Definition set_dipole_length (v : option Q) (c : t) : t :=
  mk (class c) (component c) (time_period c) (location c)
     (measurement_azimuth c) (translated_azimuth c) (sensor c) v
     (positive c) (negative c).

Definition set_positive (v : Electrode.t) (c : t) : t :=
  mk (class c) (component c) (time_period c) (location c)
     (measurement_azimuth c) (translated_azimuth c) (sensor c)
     (dipole_length c) v (negative c).

Definition set_negative (v : Electrode.t) (c : t) : t :=
  mk (class c) (component c) (time_period c) (location c)
     (measurement_azimuth c) (translated_azimuth c) (sensor c)
     (dipole_length c) (positive c) v.

(** [c.sensor] *)
Definition get_sensor (c : t) : result Instrument.t :=
  match class c with
  | Magnetic => Ok (sensor c)
  | _ => Raise AttributeError
  end.

(** [c.dipole_length], [c.positive], [c.negative] *)
Definition get_dipole_length (c : t) : result (option Q) :=
  match class c with
  | Electric => Ok (dipole_length c)
  | _ => Raise AttributeError
  end.

Definition get_positive (c : t) : result Electrode.t :=
  match class c with
  | Electric => Ok (positive c)
  | _ => Raise AttributeError
  end.

Definition get_negative (c : t) : result Electrode.t :=
  match class c with
  | Electric => Ok (negative c)
  | _ => Raise AttributeError
  end.

End Channel.

(** A channel has a [component] and no [id] (tests/test_list_dict.py,
    [TestListDictFromChannel]). *)
#[export] Instance Channel_PyObject : PyObject Channel.t := {
  attr_id := fun _ => None;
  attr_component := fun c => Some (Channel.component c)
}.

(** [xs[i] = v] on a Python list, for an index in range. *)
Fixpoint list_set {A : Type} (xs : list A) (i : nat) (v : A) : list A :=
  match xs, i with
  | [], _ => []
  | _ :: xs', O => v :: xs'
  | x :: xs', S i' => x :: list_set xs' i' v
  end.

(** [xs.index(v)]: position of the first element equal to [v]. *)
Fixpoint list_index (v : pykey) (xs : list pykey) : option nat :=
  match xs with
  | [] => None
  | x :: xs' =>
      if pykey_eqb x v then Some O
      else match list_index v xs' with
           | Some n => Some (S n)
           | None => None
           end
  end.

(* ================================================================= *)
(** ** [Run] (mt_metadata/timeseries/run.py) *)

Module Run.

Record t : Type := mk {
    id : pykey;
    sample_rate : option Q;
    time_period : TimePeriod.t;
    data_logger : Instrument.t;
    channels : list Channel.t
  }.

(** [Run()]: constructed empty. *)
Definition new : t :=
  mk None (Some 0%Q) TimePeriod.default Instrument.default [].

Definition set_id (v : pykey) (r : t) : t :=
  mk v (sample_rate r) (time_period r) (data_logger r) (channels r).

Definition set_sample_rate (v : option Q) (r : t) : t :=
  mk (id r) v (time_period r) (data_logger r) (channels r).

Definition set_time_period (v : TimePeriod.t) (r : t) : t :=
  mk (id r) (sample_rate r) v (data_logger r) (channels r).

Definition set_data_logger (v : Instrument.t) (r : t) : t :=
  mk (id r) (sample_rate r) (time_period r) v (channels r).

Definition set_channels (v : list Channel.t) (r : t) : t :=
  mk (id r) (sample_rate r) (time_period r) (data_logger r) v.

Definition __len__ (r : t) : nat := List.length (channels r).

(** [self.channels.extend(other.channels)] on the Python list. *)
Definition __add__ (self : t) (other : operand t) : result t :=
  match other with
  | IsInstance o => Ok (set_channels (channels self ++ channels o) self)
  | NotInstance _ => Raise TypeError
  end.

Definition channels_recorded_all (r : t) : list pykey :=
  map Channel.component (channels r).

(** [dict([(c.component, c) for c in self.channels])]: a later pair with
    the same key replaces the value of the earlier one. *)
Definition channels_dict (r : t) : list (pykey * Channel.t) :=
  fold_left (fun acc c => ListDict.home_set (Channel.component c) c acc)
    (channels r) [].

Definition has_channel (r : t) (component : pykey) : bool :=
  existsb (fun k => pykey_eqb k component) (channels_recorded_all r).

Definition channel_index (r : t) (component : pykey) : option nat :=
  if has_channel r component
  then list_index component (channels_recorded_all r)
  else None.

(** Returns [None] on a miss.  The lookup in [channels_dict] cannot miss
    once [has_channel] holds, so its [KeyError] branch is dead. *)
Definition get_channel (r : t) (component : pykey) : option Channel.t :=
  if has_channel r component
  then match ListDict.home_get component (channels_dict r) with
       | Ok c => Some c
       | Raise _ => None
       end
  else None.

(** Returns the run and the log records emitted (none). *)
Definition add_channel (r : t) (channel_obj : Channel.t)
  : t * list LogRecord :=
  match channel_index r (Channel.component channel_obj) with
  | Some index =>
      (set_channels (list_set (channels r) index channel_obj) r, [])
  | None => (set_channels (channels r ++ [channel_obj]) r, [])
  end.

Definition update_time_period (r : t) : t :=
  let start := map (fun c => TimePeriod.start (Channel.time_period c))
                   (channels r) in
  let end_ := map (fun c => TimePeriod.end_ (Channel.time_period c))
                  (channels r) in
  let tp := time_period r in
  let tp1 :=
    match start with
    | [] => tp
    | x :: xs =>
        if String.eqb (TimePeriod.start tp) TimePeriod.sentinel
        then TimePeriod.set_start (str_min_from x xs) tp
        else if str_ltb (str_min_from x xs) (TimePeriod.start tp)
             then TimePeriod.set_start (str_min_from x xs) tp
             else tp
    end in
  let tp2 :=
    match end_ with
    | [] => tp1
    | x :: xs =>
        if String.eqb (TimePeriod.end_ tp1) TimePeriod.sentinel
        then TimePeriod.set_end (str_max_from x xs) tp1
        else if str_ltb (TimePeriod.end_ tp1) (str_max_from x xs)
             then TimePeriod.set_end (str_max_from x xs) tp1
             else tp1
    end in
  set_time_period tp2 r.

(** The named accessors.  [name] is the accessor's name, [k] the class
    its setter checks with [isinstance]. *)
Inductive accessor : Type := ex | ey | hx | hy | hz | temperature.

Definition accessor_name (a : accessor) : string :=
  match a with
  | ex => "ex" | ey => "ey" | hx => "hx" | hy => "hy" | hz => "hz"
  | temperature => "temperature"
  end.

Definition accessor_class (a : accessor) : Channel.cls :=
  match a with
  | ex | ey => Channel.Electric
  | hx | hy | hz => Channel.Magnetic
  | temperature => Channel.Auxiliary
  end.

(** The property getters: [return self.get_channel("ex")] and so on. *)
Definition getter (a : accessor) (r : t) : option Channel.t :=
  get_channel r (Some (accessor_name a)).

(** The setters of [ex], [ey], [hx], [hy] and [hz]. *)
Definition component_setter (a : accessor) (r : t) (value : Channel.t)
  : result t :=
  if negb (Channel.cls_eqb (Channel.class value) (accessor_class a))
  then Raise ValueError
  else
    match Channel.component value with
    | None => Ok (fst (add_channel r value))
    | Some comp =>
        if negb (str_in (lower comp) [accessor_name a])
        then Raise ValueError
        else Ok (fst (add_channel r value))
    end.

(** The setter of [temperature]: it calls [value.component.lower()]
    without the [None] test of the other five. *)
Definition temperature_setter (r : t) (value : Channel.t) : result t :=
  if negb (Channel.cls_eqb (Channel.class value) Channel.Auxiliary)
  then Raise ValueError
  else
    match Channel.component value with
    | None => Raise AttributeError
    | Some comp =>
        if negb (str_in (lower comp) ["temperature"])
        then Raise ValueError
        else Ok (fst (add_channel r value))
    end.

Definition setter (a : accessor) (r : t) (value : Channel.t) : result t :=
  match a with
  | temperature => temperature_setter r value
  | _ => component_setter a r value
  end.

End Run.

(** A run has an [id] (and no [component]). *)
#[export] Instance Run_PyObject : PyObject Run.t := {
  attr_id := fun r => Some (Run.id r);
  attr_component := fun _ => None
}.

(* ================================================================= *)
(** ** [Station] (mt_metadata/timeseries/station.py) *)

Module Station.

Record t : Type := mk {
    id : pykey;
    fdsn_id : option string;
    data_type : option string;
    comments : option string;
    channels_recorded : list (option string);
    time_period : TimePeriod.t;
    runs : ListDict.t Run.t
  }.

(** [Station()]: constructed empty. *)
Definition new : t :=
  mk None None None None [] TimePeriod.default ListDict.empty.

Definition set_id (v : pykey) (s : t) : t :=
  mk v (fdsn_id s) (data_type s) (comments s) (channels_recorded s)
     (time_period s) (runs s).

Definition set_fdsn_id (v : option string) (s : t) : t :=
  mk (id s) v (data_type s) (comments s) (channels_recorded s)
     (time_period s) (runs s).

Definition set_data_type (v : option string) (s : t) : t :=
  mk (id s) (fdsn_id s) v (comments s) (channels_recorded s)
     (time_period s) (runs s).

Definition set_comments (v : option string) (s : t) : t :=
  mk (id s) (fdsn_id s) (data_type s) v (channels_recorded s)
     (time_period s) (runs s).

Definition set_channels_recorded (v : list (option string)) (s : t) : t :=
  mk (id s) (fdsn_id s) (data_type s) (comments s) v (time_period s)
     (runs s).

Definition set_time_period (v : TimePeriod.t) (s : t) : t :=
  mk (id s) (fdsn_id s) (data_type s) (comments s) (channels_recorded s)
     v (runs s).

Definition set_runs (v : ListDict.t Run.t) (s : t) : t :=
  mk (id s) (fdsn_id s) (data_type s) (comments s) (channels_recorded s)
     (time_period s) v.

(** [self.runs.extend(other.runs)] on the [ListDict]. *)
Definition __add__ (self : t) (other : operand t) : result t :=
  match other with
  | IsInstance o => Ok (set_runs (ListDict.extend (runs self) (runs o)) self)
  | NotInstance _ => Raise TypeError
  end.

Definition __len__ (s : t) : nat := ListDict.len (runs s).

Definition run_list (s : t) : list pykey := ListDict.keys (runs s).

Definition has_run (s : t) (run_id : pykey) : bool :=
  existsb (fun k => pykey_eqb k run_id) (run_list s).

Definition run_index (s : t) (run_id : pykey) : option nat :=
  if has_run s run_id then list_index run_id (run_list s) else None.

Section WithBase.

(** [Base.update(self, other)], the generic merge of the attribute
    values of [other] into [self] (mt_metadata.base.Base is not among the
    sources here): the new value of [self]. *)
Variable Base_update : Run.t -> Run.t -> Run.t.

(** Returns the station and the log records emitted.  [run_obj] is a
    [Run] by its type, so the [isinstance] test passes.  The stored run
    is mutated in place by [update]; here the item under its key gets
    the merged value. *)
Definition add_run (s : t) (run_obj : Run.t)
  : result (t * list LogRecord) :=
  if has_run s (Run.id run_obj)
  then
    existing <- ListDict.__getitem__ (runs s)
                  (ListDict.index_of_pykey (Run.id run_obj)) ;;
    Ok (set_runs (ListDict.home_set (Run.id run_obj)
                    (Base_update existing run_obj) (runs s)) s,
        [mkLog WARNING
           ("Station " ++ str_of_pykey (Run.id run_obj)
            ++ " already exists, updating metadata")])
  else
    runs' <- ListDict.append (runs s) run_obj ;;
    Ok (set_runs runs' s, []).

End WithBase.

Definition get_run (s : t) (run_id : pykey)
  : result (option Run.t * list LogRecord) :=
  if has_run s run_id
  then r <- ListDict.__getitem__ (runs s) (ListDict.index_of_pykey run_id) ;;
       Ok (Some r, [])
  else Ok (None, [mkLog WARNING
                    ("Could not find " ++ str_of_pykey run_id
                     ++ " in runs.")]).

Definition remove_run (s : t) (run_id : pykey)
  : result (t * list LogRecord) :=
  if has_run s run_id
  then runs' <- ListDict.remove (runs s) (ListDict.index_of_pykey run_id) ;;
       Ok (set_runs runs' s, [])
  else Ok (s, [mkLog WARNING
                 ("Could not find " ++ str_of_pykey run_id
                  ++ " to remove.")]).

Definition update_time_period (s : t) : t :=
  let start := map (fun r => TimePeriod.start (Run.time_period r))
                   (ListDict.values (runs s)) in
  let end_ := map (fun r => TimePeriod.end_ (Run.time_period r))
                  (ListDict.values (runs s)) in
  let tp := time_period s in
  let tp1 :=
    match start with
    | [] => tp
    | x :: xs =>
        if String.eqb (TimePeriod.start tp) TimePeriod.sentinel
        then TimePeriod.set_start (str_min_from x xs) tp
        else if str_ltb (str_min_from x xs) (TimePeriod.start tp)
             then TimePeriod.set_start (str_min_from x xs) tp
             else tp
    end in
  let tp2 :=
    match end_ with
    | [] => tp1
    | x :: xs =>
        if String.eqb (TimePeriod.end_ tp1) TimePeriod.sentinel
        then TimePeriod.set_end (str_max_from x xs) tp1
        else if str_ltb (TimePeriod.end_ tp1) (str_max_from x xs)
             then TimePeriod.set_end (str_max_from x xs) tp1
             else tp1
    end in
  set_time_period tp2 s.

End Station.

(** Modelled from the spec: [Base.update] (mt_metadata.base.Base is not
    among the sources here), for a run: the fields of the stored child are overwritten
    field by field with those of the new child; the channel list is not one
    of the schema's fields and stays. *)
Definition Base_update_overwrite (self other : Run.t) : Run.t :=
  Run.mk (Run.id other) (Run.sample_rate other) (Run.time_period other)
         (Run.data_logger other) (Run.channels self).

(* ================================================================= *)
(** ** More string and number helpers used by the transcoder *)

(** [s.count(c)] for a one-character [c]. *)
Fixpoint count_char (c : ascii) (s : string) : nat :=
  match s with
  | EmptyString => O
  | String a s' => (if Ascii.eqb a c then 1 else 0) + count_char c s'
  end.

(** [s.split(sep)] for a one-character separator. *)
Fixpoint split_on (sep : ascii) (s : string) : list string :=
  match s with
  | EmptyString => [EmptyString]
  | String a s' =>
      if Ascii.eqb a sep then EmptyString :: split_on sep s'
      else match split_on sep s' with
           | [] => [String a EmptyString]
           | tok :: toks => String a tok :: toks
           end
  end.

(** [s.split(sep, 1)] for a string that holds [sep]: the text before the
    first separator and the text after it. *)
Fixpoint split_first (sep : ascii) (s : string) : string * string :=
  match s with
  | EmptyString => (EmptyString, EmptyString)
  | String a s' =>
      if Ascii.eqb a sep then (EmptyString, s')
      else let (k, v) := split_first sep s' in (String a k, v)
  end.

Definition is_space (a : ascii) : bool :=
  let n := nat_of_ascii a in
  (n =? 32)%nat || ((9 <=? n)%nat && (n <=? 13)%nat).

Fixpoint lstrip (s : string) : string :=
  match s with
  | EmptyString => EmptyString
  | String a s' => if is_space a then lstrip s' else s
  end.

Fixpoint string_rev (s : string) : string :=
  match s with
  | EmptyString => EmptyString
  | String a s' => string_rev s' ++ String a EmptyString
  end.

(** [s.strip()] *)
Definition strip (s : string) : string :=
  string_rev (lstrip (string_rev (lstrip s))).

(** [sep.join(xs)] *)
Fixpoint join (sep : string) (xs : list string) : string :=
  match xs with
  | [] => EmptyString
  | [x] => x
  | x :: xs' => x ++ sep ++ join sep xs'
  end.

(** [a.min()] and [a.max()] of a float array; numpy raises [ValueError] on
    an empty one. *)
Definition array_min (a : list Q) : result Q :=
  match a with
  | [] => Raise ValueError
  | x :: xs => Ok (fold_left (fun m y => if Qle_bool m y then m else y) xs x)
  end.

Definition array_max (a : list Q) : result Q :=
  match a with
  | [] => Raise ValueError
  | x :: xs => Ok (fold_left (fun m y => if Qle_bool y m then m else y) xs x)
  end.

(** A complex entry of a transfer-function array. *)
Record complex : Type := mkC { re : Q; im : Q }.

(** A (flattened) numpy array of such entries. *)
Definition ndarray : Type := list complex.

(** [np.all(a == 0.0)] *)
Definition all_zero (a : ndarray) : bool :=
  forallb (fun c => Qeq_bool (re c) 0 && Qeq_bool (im c) 0) a.

(** [v in [0, None]] for a sampling rate. *)
Definition in_zero_or_none (v : option Q) : bool :=
  match v with
  | None => true
  | Some q => Qeq_bool q 0
  end.

(** The first element satisfying [p] is replaced by its image. *)
Fixpoint update_first {A : Type} (p : A -> bool) (f : A -> A) (xs : list A)
  : list A :=
  match xs with
  | [] => []
  | x :: xs' => if p x then f x :: xs' else x :: update_first p f xs'
  end.

(** The last element satisfying [p] is replaced by its image. *)
Definition update_last {A : Type} (p : A -> bool) (f : A -> A) (xs : list A)
  : list A :=
  rev (update_first p f (rev xs)).

(* ================================================================= *)
(** ** The interchange document model

    Modelled from the spec: the classes of
    [mt_metadata.transfer_functions.io.emtfxml.metadata] are not among the
    sources here.  Each record below holds the fields of one of them that
    emtfxml.py reads or writes: the field-note run records with their
    magnetometer, dipole and electrode records, the site-layout channel
    records, the catalog entries and the transfer-function arrays. *)

Module Estimate.
Record t : Type := mk {
    name : string;
    type : string;
    description : string;
    external_url : string;
    intention : string;
    tag : string
  }.
End Estimate.

Module DataType.
Record t : Type := mk {
    name : string;
    type : string;
    output : string;
    input : string;
    units : string;
    description : string;
    external_url : string;
    intention : string;
    tag : string
  }.
End DataType.

Module Magnetometer.
Record t : Type := mk {
    id : option string;
    name : option string;
    manufacturer : option string;
    type : option string
  }.
End Magnetometer.

Module XmlElectrode.
Record t : Type := mk {
    number : option string;
    location : option string;
    value : option string
  }.
End XmlElectrode.

Module Dipole.
Record t : Type := mk {
    name : option string;
    azimuth : option Q;
    length : option Q;
    manufacturer : option string;
    type : option string;
    electrode : list XmlElectrode.t
  }.
End Dipole.

(** [emtf_xml.Run], one field-note record per run. *)
Module FieldNotesRun.
Record t : Type := mk {
    run : pykey;
    sampling_rate : option Q;
    start : string;
    end_ : string;
    instrument : Instrument.t;
    magnetometer : list Magnetometer.t;
    dipole : list Dipole.t
  }.

Definition set_magnetometer (v : list Magnetometer.t) (fn : t) : t :=
  mk (run fn) (sampling_rate fn) (start fn) (end_ fn) (instrument fn) v
     (dipole fn).

Definition set_dipole (v : list Dipole.t) (fn : t) : t :=
  mk (run fn) (sampling_rate fn) (start fn) (end_ fn) (instrument fn)
     (magnetometer fn) v.
End FieldNotesRun.

(** [emtf_xml.Magnetic] and [emtf_xml.Electric], the site-layout channel
    records.  Only the electric one has [x2], [y2] and [z2]. *)
Module Layout.
Inductive cls : Type := Magnetic | Electric.

Record t : Type := mk {
    class : cls;
    name : option string;
    orientation : option Q;
    x : option Q; y : option Q; z : option Q;
    x2 : option Q; y2 : option Q; z2 : option Q
  }.

Definition get_x2 (ch : t) : result (option Q) :=
  match class ch with Electric => Ok (x2 ch) | Magnetic => Raise AttributeError end.

Definition get_y2 (ch : t) : result (option Q) :=
  match class ch with Electric => Ok (y2 ch) | Magnetic => Raise AttributeError end.

Definition get_z2 (ch : t) : result (option Q) :=
  match class ch with Electric => Ok (z2 ch) | Magnetic => Raise AttributeError end.
End Layout.

(** [emtf_xml.TransferFunction]: the period axis and the arrays. *)
Module Data.
Record arrays : Type := mk {
    period : option (list Q);
    z : option ndarray;
    z_var : option ndarray;
    z_invsigcov : option ndarray;
    z_residcov : option ndarray;
    t : option ndarray;
    t_var : option ndarray;
    t_invsigcov : option ndarray;
    t_residcov : option ndarray
  }.

Definition new : arrays := mk None None None None None None None None None.

Definition set_period (v : option (list Q)) (d : arrays) : arrays :=
  mk v (z d) (z_var d) (z_invsigcov d) (z_residcov d) (t d) (t_var d)
     (t_invsigcov d) (t_residcov d).


End Data.

(** A dictionary with string keys: [d[key]] raises [KeyError] on a miss. *)
Fixpoint dict_get {A : Type} (key : string) (d : list (string * A))
  : result A :=
  match d with
  | [] => Raise KeyError
  | (k, v) :: d' => if String.eqb key k then Ok v else dict_get key d'
  end.

(** Modelled from the spec: the transfer-function object
    ([mt_metadata.transfer_functions.core.TF], not among the sources here) as far as
    the transcoder uses it here: the canonical station with its runs, the
    period axis, and the impedance and tipper arrays; an array counts as
    present when it is non-null and not identically zero.  The survey
    metadata and the error and covariance arrays travel the same way and
    take no part in the properties below. *)
Module TF.
Record t : Type := mk {
    station_metadata : Station.t;
    period : option (list Q);
    impedance : option ndarray;
    tipper : option ndarray
  }.


End TF.

(* ================================================================= *)
(** ** [EMTFXML] (mt_metadata/transfer_functions/io/emtfxml/emtfxml.py) *)

Module EMTFXML.

(** The entries of the two static catalogs, then the catalogs. *)
Definition variance_estimate : Estimate.t :=
  Estimate.mk "VAR" "complex" "Variance"
    "http://www.iris.edu/dms/products/emtf/variance.html"
    "error estimate" "variance".

Definition covariance_estimate : Estimate.t :=
  Estimate.mk "COV" "complex" "Covariance"
    "http://www.iris.edu/dms/products/emtf/covariance.html"
    "error estimate" "covariance".

Definition residual_covariance_estimate : Estimate.t :=
  Estimate.mk "RESIDCOV" "complex" "residual_covariance (N)"
    "http://www.iris.edu/dms/products/emtf/residual_covariance.html"
    "error estimate" "residual_covariance".

Definition inverse_signal_power_estimate : Estimate.t :=
  Estimate.mk "INVSIGCOV" "complex"
    "Inverse Coherent Signal Power Matrix (S)"
    "http://www.iris.edu/dms/products/emtf/inverse_signal_covariance.html"
    "signal power estimate" "inverse_signal_covariance".

Definition coherence_estimate : Estimate.t :=
  Estimate.mk "COH" "complex" "Coherence"
    "http://www.iris.edu/dms/products/emtf/coherence.html"
    "signal coherence" "coherence".

Definition predicted_coherence_estimate : Estimate.t :=
  Estimate.mk "PREDCOH" "complex" "Multiple Coherence"
    "http://www.iris.edu/dms/products/emtf/multiple_coherence.html"
    "signal coherence" "multiple_coherence".

Definition signal_amplidude_estimate : Estimate.t :=
  Estimate.mk "SIGAMP" "complex" "Signal Amplitude"
    "http://www.iris.edu/dms/products/emtf/signal_amplitude.html"
    "signal power estimate" "signal_power".

Definition signal_noise_estimate : Estimate.t :=
  Estimate.mk "SIGNOISE" "complex" "Signal Noise"
    "http://www.iris.edu/dms/products/emtf/signal_noise.html"
    "error estimate" "signal_noise".

Definition estimates_dict : list (string * Estimate.t) :=
  [ ("variance", variance_estimate);
    ("covariance", covariance_estimate);
    ("residual_covariance", residual_covariance_estimate);
    ("inverse_signal_power", inverse_signal_power_estimate);
    ("coherence", coherence_estimate);
    ("predicted_coherence", predicted_coherence_estimate);
    ("signal_amplidude", signal_amplidude_estimate);
    ("signal_noise", signal_noise_estimate) ].

Definition impedance_data_type : DataType.t :=
  DataType.mk "Z" "complex" "E" "H" "[mV/km]/[nT]" "MT impedance"
    "http://www.iris.edu/dms/products/emtf/impedance.html"
    "primary data type" "impedance".

Definition tipper_data_type : DataType.t :=
  DataType.mk "T" "complex" "H" "H" "[]"
    "Vertical Field Transfer Functions (Tipper)"
    "http://www.iris.edu/dms/products/emtf/tipper.html"
    "primary data type" "tipper".

Definition data_types_dict : list (string * DataType.t) :=
  [ ("impedance", impedance_data_type); ("tipper", tipper_data_type) ].

(** The fields of an [EMTFXML] object used by the code below.  The other
    scalar fields (acquired_by, provenance, processing_info, ...) are
    copied one to one through the attribute layer and do not meet these. *)
Record t : Type := mk {
    sub_type : option string;
    product_id : option string;
    site_id : pykey;
    site_start : string;
    site_end : string;
    site_comment : option string;
    tags : option string;
    field_notes_run_list : list FieldNotesRun.t;
    input_channels : list Layout.t;
    output_channels : list Layout.t;
    estimates_list : list Estimate.t;
    data_types_list : list DataType.t;
    data : Data.arrays;
    period_range_min : option Q;
    period_range_max : option Q
  }.

(** [EMTFXML()] *)
Definition new : t :=
  mk None None None TimePeriod.sentinel TimePeriod.sentinel None None
     [] [] [] [] [] Data.new None None.

Definition set_sub_type (v : option string) (e : t) : t :=
  mk v (product_id e) (site_id e) (site_start e) (site_end e)
     (site_comment e) (tags e) (field_notes_run_list e) (input_channels e)
     (output_channels e) (estimates_list e) (data_types_list e) (data e)
     (period_range_min e) (period_range_max e).

Definition set_product_id (v : option string) (e : t) : t :=
  mk (sub_type e) v (site_id e) (site_start e) (site_end e)
     (site_comment e) (tags e) (field_notes_run_list e) (input_channels e)
     (output_channels e) (estimates_list e) (data_types_list e) (data e)
     (period_range_min e) (period_range_max e).

Definition set_site_id (v : pykey) (e : t) : t :=
  mk (sub_type e) (product_id e) v (site_start e) (site_end e)
     (site_comment e) (tags e) (field_notes_run_list e) (input_channels e)
     (output_channels e) (estimates_list e) (data_types_list e) (data e)
     (period_range_min e) (period_range_max e).

Definition set_site_period (a b : string) (e : t) : t :=
  mk (sub_type e) (product_id e) (site_id e) a b
     (site_comment e) (tags e) (field_notes_run_list e) (input_channels e)
     (output_channels e) (estimates_list e) (data_types_list e) (data e)
     (period_range_min e) (period_range_max e).

Definition set_site_comment (v : option string) (e : t) : t :=
  mk (sub_type e) (product_id e) (site_id e) (site_start e) (site_end e)
     v (tags e) (field_notes_run_list e) (input_channels e)
     (output_channels e) (estimates_list e) (data_types_list e) (data e)
     (period_range_min e) (period_range_max e).


Definition set_field_notes_run_list (v : list FieldNotesRun.t) (e : t) : t :=
  mk (sub_type e) (product_id e) (site_id e) (site_start e) (site_end e)
     (site_comment e) (tags e) v (input_channels e)
     (output_channels e) (estimates_list e) (data_types_list e) (data e)
     (period_range_min e) (period_range_max e).

Definition set_input_channels (v : list Layout.t) (e : t) : t :=
  mk (sub_type e) (product_id e) (site_id e) (site_start e) (site_end e)
     (site_comment e) (tags e) (field_notes_run_list e) v
     (output_channels e) (estimates_list e) (data_types_list e) (data e)
     (period_range_min e) (period_range_max e).

Definition set_output_channels (v : list Layout.t) (e : t) : t :=
  mk (sub_type e) (product_id e) (site_id e) (site_start e) (site_end e)
     (site_comment e) (tags e) (field_notes_run_list e) (input_channels e)
     v (estimates_list e) (data_types_list e) (data e)
     (period_range_min e) (period_range_max e).

Definition set_estimates_list (v : list Estimate.t) (e : t) : t :=
  mk (sub_type e) (product_id e) (site_id e) (site_start e) (site_end e)
     (site_comment e) (tags e) (field_notes_run_list e) (input_channels e)
     (output_channels e) v (data_types_list e) (data e)
     (period_range_min e) (period_range_max e).

Definition set_data_types_list (v : list DataType.t) (e : t) : t :=
  mk (sub_type e) (product_id e) (site_id e) (site_start e) (site_end e)
     (site_comment e) (tags e) (field_notes_run_list e) (input_channels e)
     (output_channels e) (estimates_list e) v (data e)
     (period_range_min e) (period_range_max e).

Definition set_data (v : Data.arrays) (e : t) : t :=
  mk (sub_type e) (product_id e) (site_id e) (site_start e) (site_end e)
     (site_comment e) (tags e) (field_notes_run_list e) (input_channels e)
     (output_channels e) (estimates_list e) (data_types_list e) v
     (period_range_min e) (period_range_max e).

Definition set_period_range (mn mx : option Q) (e : t) : t :=
  mk (sub_type e) (product_id e) (site_id e) (site_start e) (site_end e)
     (site_comment e) (tags e) (field_notes_run_list e) (input_channels e)
     (output_channels e) (estimates_list e) (data_types_list e) (data e)
     mn mx.

(** One [if ... is not None: ... elif ... is not None: ...] block of
    [_get_statistical_estimates]: the impedance array [za], the tipper
    array [ta] and the catalog key. *)
Definition estimate_block (za ta : option ndarray) (key : string) (e : t)
  : result t :=
  match za with
  | Some a =>
      if negb (all_zero a)
      then entry <- dict_get key estimates_dict ;;
           Ok (set_estimates_list (estimates_list e ++ [entry]) e)
      else Ok e
  | None =>
      match ta with
      | Some a =>
          if negb (all_zero a)
          then entry <- dict_get key estimates_dict ;;
               Ok (set_estimates_list (estimates_list e ++ [entry]) e)
          else Ok e
      | None => Ok e
      end
  end.

Definition _get_statistical_estimates (e : t) : result t :=
  let e0 := set_estimates_list [] e in
  e1 <- estimate_block (Data.z_var (data e0)) (Data.t_var (data e0))
          "variance" e0 ;;
  e2 <- estimate_block (Data.z_invsigcov (data e1))
          (Data.t_invsigcov (data e1)) "inverse_signal_power" e1 ;;
  estimate_block (Data.z_residcov (data e2)) (Data.t_residcov (data e2))
    "residual_covariance" e2.

(** One [if ... is not None:] block of [_get_data_types]. *)
Definition data_type_block (a : option ndarray) (key : string) (e : t)
  : result t :=
  match a with
  | Some arr =>
      if negb (all_zero arr)
      then entry <- dict_get key data_types_dict ;;
           Ok (set_data_types_list (data_types_list e ++ [entry]) e)
      else Ok e
  | None => Ok e
  end.

Definition _get_data_types (e : t) : result t :=
  let e0 := set_data_types_list [] e in
  e1 <- data_type_block (Data.z (data e0)) "impedance" e0 ;;
  data_type_block (Data.t (data e1)) "tipper" e1.

(** [write], up to the file: the two derivations.  The serialisation
    that follows them (the helpers and the [to_xml] of the metadata
    classes, not among the sources here) is [to_file] below. *)
Definition write (e : t) : result t :=
  e1 <- _get_statistical_estimates e ;;
  _get_data_types e1.

(** *** The transcoder: [station_metadata] setter and getter *)

(** [getattr(obj, item)] with [None] replaced by [0.0]. *)
Definition or_zero (v : option Q) : option Q :=
  match v with
  | None => Some 0%Q
  | Some q => Some q
  end.

(** What the setter has built so far while it walks one run: the
    field-note record, the object (for its site layout) and the log. *)
Record scan : Type := mkScan {
    s_fn : FieldNotesRun.t;
    s_emtf : t;
    s_log : list LogRecord
  }.

Definition did_not_find (comp : string) : LogRecord :=
  mkLog DEBUG ("Did not find " ++ comp ++ " in run").

(** The body of the [try] for one of hx, hy, hz, up to the two appends:
    the magnetometer record and the site-layout record.  [rch] is what
    [getattr(r, comp)] returned; on [None] the first attribute access
    raises. *)
Definition magnetic_records (comp : Run.accessor) (rch : option Channel.t)
  : result (Magnetometer.t * Layout.t) :=
  match rch with
  | None => Raise AttributeError
  | Some ch =>
      sensor <- Channel.get_sensor ch ;;
      Ok (Magnetometer.mk (Instrument.id sensor) (Instrument.name sensor)
            (Instrument.manufacturer sensor) (Instrument.type sensor),
          Layout.mk Layout.Magnetic
            (Some (capitalize (Run.accessor_name comp)))
            (Channel.translated_azimuth ch)
            (or_zero (Location.x (Channel.location ch)))
            (or_zero (Location.y (Channel.location ch)))
            (or_zero (Location.z (Channel.location ch)))
            None None None)
  end.

(** The test after the [try] block, outside any handler:
    [rch.sensor.name in ["NIMS", "LEMI"] and rch.sensor.type in ["fluxgate"]]. *)
Definition single_sensor_test (rch : option Channel.t) : result bool :=
  match rch with
  | None => Raise AttributeError
  | Some ch =>
      sensor <- Channel.get_sensor ch ;;
      Ok (opt_str_in (Instrument.name sensor) ["NIMS"; "LEMI"]
          && opt_str_in (Instrument.type sensor) ["fluxgate"])
  end.

(** [for comp in ["hx", "hy", "hz"]: ...] with its [break]. *)
Fixpoint magnetic_loop (r : Run.t) (comps : list Run.accessor) (st : scan)
  : result scan :=
  match comps with
  | [] => Ok st
  | comp :: rest =>
      let rch := Run.getter comp r in
      st1 <- try_except
               (recs <- magnetic_records comp rch ;;
                let (mag, ch_in) := recs in
                let fn := FieldNotesRun.set_magnetometer
                            (FieldNotesRun.magnetometer (s_fn st) ++ [mag])
                            (s_fn st) in
                let e := s_emtf st in
                Ok (mkScan fn
                      (if str_in (Run.accessor_name comp) ["hx"; "hy"]
                       then set_input_channels (input_channels e ++ [ch_in]) e
                       else set_output_channels (output_channels e ++ [ch_in]) e)
                      (s_log st)))
               AttributeError
               (Ok (mkScan (s_fn st) (s_emtf st)
                      (s_log st ++ [did_not_find (Run.accessor_name comp)]))) ;;
      stop <- single_sensor_test rch ;;
      if stop then Ok st1 else magnetic_loop r rest st1
  end.

(** The body of the [try] for one of ex, ey: the dipole record with its
    two electrodes and the site-layout record. *)
Definition electric_records (comp : Run.accessor) (c : option Channel.t)
  : result (Dipole.t * Layout.t) :=
  match c with
  | None => Raise AttributeError
  | Some ch =>
      length <- Channel.get_dipole_length ch ;;
      positive <- Channel.get_positive ch ;;
      negative <- Channel.get_negative ch ;;
      let is_ex := String.eqb (Run.accessor_name comp) "ex" in
      let pot_p := XmlElectrode.mk (Electrode.id positive)
                     (Some (if is_ex then "n" else "e"))
                     (Electrode.type positive) in
      let pot_n := XmlElectrode.mk (Electrode.id negative)
                     (Some (if is_ex then "s" else "w"))
                     (Electrode.type negative) in
      Ok (Dipole.mk (Some (capitalize (Run.accessor_name comp)))
            (Channel.translated_azimuth ch) length
            (Electrode.manufacturer positive) (Electrode.type positive)
            [pot_p; pot_n],
          Layout.mk Layout.Electric
            (Some (capitalize (Run.accessor_name comp)))
            (Channel.translated_azimuth ch)
            (or_zero (Electrode.x negative))
            (or_zero (Electrode.y negative))
            (or_zero (Electrode.z negative))
            (or_zero (Electrode.x2 positive))
            (or_zero (Electrode.y2 positive))
            (or_zero (Electrode.z2 positive)))
  end.

(** [for comp in ["ex", "ey"]: ...] *)
Fixpoint electric_loop (r : Run.t) (comps : list Run.accessor) (st : scan)
  : result scan :=
  match comps with
  | [] => Ok st
  | comp :: rest =>
      st1 <- try_except
               (recs <- electric_records comp (Run.getter comp r) ;;
                let (dp, ch_out) := recs in
                let fn := FieldNotesRun.set_dipole
                            (FieldNotesRun.dipole (s_fn st) ++ [dp])
                            (s_fn st) in
                let e := s_emtf st in
                Ok (mkScan fn
                      (set_output_channels (output_channels e ++ [ch_out]) e)
                      (s_log st)))
               AttributeError
               (Ok (mkScan (s_fn st) (s_emtf st)
                      (s_log st ++ [did_not_find (Run.accessor_name comp)]))) ;;
      electric_loop r rest st1
  end.

(** The body of [for r in sm.runs: ...]. *)
Definition run_to_field_notes (r : Run.t) (st : t * list LogRecord)
  : result (t * list LogRecord) :=
  let fn := FieldNotesRun.mk (Run.id r) (Run.sample_rate r)
              (TimePeriod.start (Run.time_period r))
              (TimePeriod.end_ (Run.time_period r))
              (Instrument.mk (Instrument.id (Run.data_logger r))
                 (Instrument.type (Run.data_logger r))
                 (Instrument.manufacturer (Run.data_logger r)) None)
              [] [] in
  st1 <- magnetic_loop r [Run.hx; Run.hy; Run.hz]
           (mkScan fn (fst st) (snd st)) ;;
  st2 <- electric_loop r [Run.ex; Run.ey] st1 ;;
  let e := s_emtf st2 in
  Ok (set_field_notes_run_list (field_notes_run_list e ++ [s_fn st2]) e,
      s_log st2).

Fixpoint runs_to_field_notes (rs : list Run.t) (st : t * list LogRecord)
  : result (t * list LogRecord) :=
  match rs with
  | [] => Ok st
  | r :: rest => st' <- run_to_field_notes r st ;; runs_to_field_notes rest st'
  end.

(** The accessor a name stands for, if any. *)
Definition accessor_of_name (s : string) : option Run.accessor :=
  if String.eqb s "ex" then Some Run.ex
  else if String.eqb s "ey" then Some Run.ey
  else if String.eqb s "hx" then Some Run.hx
  else if String.eqb s "hy" then Some Run.hy
  else if String.eqb s "hz" then Some Run.hz
  else if String.eqb s "temperature" then Some Run.temperature
  else None.

(** [c = getattr(r, name)] followed by the first [c.component]: a name
    that is not a channel accessor gives either no attribute or an
    object without [component], and an accessor that finds no channel
    gives [None]; each ends in [AttributeError]. *)
Definition getattr_channel (r : Run.t) (name : string) : result Channel.t :=
  match accessor_of_name name with
  | Some a =>
      match Run.getter a r with
      | Some c => Ok c
      | None => Raise AttributeError
      end
  | None => Raise AttributeError
  end.

Section WithAttributeLayer.

(** The attribute layer ([mt_metadata.base.Base], not among the sources here):
    the merge of two runs, the assignment and the lookup of a field by
    its dotted name, and the text of the default product id (survey
    project, station id and start year). *)
Variable Base_update : Run.t -> Run.t -> Run.t.
Variable set_attr_from_name : string -> string -> t -> result t.
Variable get_attr_from_name : t -> string -> option string.
Variable product_id_text : Station.t -> string.

(** The file layer (the helpers and the [to_xml] and [read_dict] of the
    metadata classes, not among the sources here): what [write] leaves in
    the file for an object, and the object [read] builds from a file,
    before it sets the period range.  Either may raise. *)
Variable File : Type.
Variable to_file : t -> result File.
Variable from_file : File -> result t.

(** [for comment in sm.comments.split(";"): ...] *)
Fixpoint comments_to_attrs (tokens : list string) (e : t) : result t :=
  match tokens with
  | [] => Ok e
  | comment :: rest =>
      if (1 <=? count_char ":" comment)%nat
      then
        let (key, value) := split_first ":" comment in
        match set_attr_from_name (strip key) (strip value) e with
        | Ok e' => comments_to_attrs rest e'
        | Raise _ => Raise AttributeError
        end
      else comments_to_attrs rest (set_site_comment (Some comment) e)
  end.

(** The setter of [station_metadata]. *)
Definition station_metadata_setter (e : t) (sm : Station.t)
  : result (t * list LogRecord) :=
  let e := set_sub_type
             (Some (match Station.data_type sm with
                    | Some d => (upper d ++ "_TF")%string
                    | None => "MT_TF"
                    end)) e in
  let e := set_site_id (Station.id sm) e in
  let e := set_product_id (Station.fdsn_id sm) e in
  e <- match Station.comments sm with
       | None => Raise AttributeError
       | Some c => comments_to_attrs (split_on ";" c) e
       end ;;
  let e := set_site_period (TimePeriod.start (Station.time_period sm))
             (TimePeriod.end_ (Station.time_period sm)) e in
  let e := set_field_notes_run_list [] e in
  runs_to_field_notes (ListDict.values (Station.runs sm)) (e, []).

(** A magnetic channel made from a magnetometer record. *)
Definition magnetic_channel (comp : string) (mag : Magnetometer.t)
  : Channel.t :=
  Channel.set_sensor
    (Instrument.mk (Magnetometer.id mag) (Magnetometer.name mag)
       (Magnetometer.manufacturer mag) (Magnetometer.type mag))
    (Channel.set_component (Some comp) (Channel.new Channel.Magnetic)).

(** [if len(fn.magnetometer) == 1: ... else: ...] *)
Definition add_magnetic_channels (fn : FieldNotesRun.t) (r : Run.t)
  : Run.t :=
  match FieldNotesRun.magnetometer fn with
  | [mag0] =>
      fold_left
        (fun r comp => fst (Run.add_channel r (magnetic_channel comp mag0)))
        ["hx"; "hy"; "hz"] r
  | mags =>
      fold_left
        (fun r mag =>
           match Magnetometer.name mag with
           | None => r
           | Some comp =>
               fst (Run.add_channel r (magnetic_channel (lower comp) mag))
           end)
        mags r
  end.

(** [for pot in dp.electrode: ...] *)
Fixpoint assign_electrodes (dp : Dipole.t) (pots : list XmlElectrode.t)
  (c : Channel.t) : result Channel.t :=
  match pots with
  | [] => Ok c
  | pot :: rest =>
      match XmlElectrode.location pot with
      | None => Raise AttributeError
      | Some loc =>
          let terminal (el : Electrode.t) : Electrode.t :=
            Electrode.mk (XmlElectrode.number pot) (Dipole.manufacturer dp)
              (Dipole.type dp) (Electrode.x el) (Electrode.y el)
              (Electrode.z el) (Electrode.x2 el) (Electrode.y2 el)
              (Electrode.z2 el) in
          if str_in (lower loc) ["n"; "e"]
          then assign_electrodes dp rest
                 (Channel.set_positive (terminal (Channel.positive c)) c)
          else if str_in (lower loc) ["s"; "w"]
          then assign_electrodes dp rest
                 (Channel.set_negative (terminal (Channel.negative c)) c)
          else assign_electrodes dp rest c
      end
  end.

(** [for dp in fn.dipole: ...] *)
Fixpoint add_electric_channels (dps : list Dipole.t) (r : Run.t)
  : result Run.t :=
  match dps with
  | [] => Ok r
  | dp :: rest =>
      match Dipole.name dp with
      | None => add_electric_channels rest r
      | Some comp =>
          let c := Channel.set_dipole_length (Dipole.length dp)
                     (Channel.set_translated_azimuth (Dipole.azimuth dp)
                        (Channel.set_component (Some (lower comp))
                           (Channel.new Channel.Electric))) in
          c' <- assign_electrodes dp (Dipole.electrode dp) c ;;
          add_electric_channels rest (fst (Run.add_channel r c'))
      end
  end.

(** The body of [for ch in input_channels + output_channels: ...]: the
    channel found by [getattr] is changed in place. *)
Definition apply_layout (ch : Layout.t) (r : Run.t) : result Run.t :=
  match Layout.name ch with
  | None => Raise AttributeError
  | Some name =>
      c <- getattr_channel r (lower name) ;;
      c1 <- (if opt_str_in (Channel.component c) ["hx"; "hy"; "hz"]
             then Ok (Channel.set_location
                        (Location.mk (Layout.x ch) (Layout.y ch)
                           (Layout.z ch)) c)
             else if opt_str_in (Channel.component c) ["ex"; "ey"]
             then
               neg <- Channel.get_negative c ;;
               x2 <- Layout.get_x2 ch ;;
               pos <- Channel.get_positive c ;;
               y2 <- Layout.get_y2 ch ;;
               z2 <- Layout.get_z2 ch ;;
               Ok (Channel.set_positive
                     (Electrode.mk (Electrode.id pos)
                        (Electrode.manufacturer pos) (Electrode.type pos)
                        (Electrode.x pos) (Electrode.y pos)
                        (Electrode.z pos) x2 y2 z2)
                     (Channel.set_negative
                        (Electrode.mk (Electrode.id neg)
                           (Electrode.manufacturer neg)
                           (Electrode.type neg) (Layout.x ch)
                           (Layout.y ch) (Layout.z ch)
                           (Electrode.x2 neg) (Electrode.y2 neg)
                           (Electrode.z2 neg)) c))
             else Ok c) ;;
      let c2 := Channel.set_translated_azimuth (Layout.orientation ch)
                  (Channel.set_measurement_azimuth (Layout.orientation ch)
                     c1) in
      Ok (Run.set_channels
            (update_last
               (fun c' => pykey_eqb (Channel.component c')
                            (Some (lower name)))
               (fun _ => c2) (Run.channels r)) r)
  end.

Fixpoint apply_layouts (chs : list Layout.t) (r : Run.t) : result Run.t :=
  match chs with
  | [] => Ok r
  | ch :: rest => r' <- apply_layout ch r ;; apply_layouts rest r'
  end.

(** The run built from one field-note record. *)
Definition field_notes_to_run (e : t) (fn : FieldNotesRun.t)
  : result Run.t :=
  let r := Run.set_id (FieldNotesRun.run fn) Run.new in
  let r := Run.set_data_logger
             (Instrument.mk
                (Instrument.id (FieldNotesRun.instrument fn))
                (Instrument.name (Run.data_logger r))
                (Instrument.manufacturer (FieldNotesRun.instrument fn))
                (Instrument.name (FieldNotesRun.instrument fn))) r in
  let r := Run.set_sample_rate (FieldNotesRun.sampling_rate fn) r in
  let r := Run.set_time_period
             (TimePeriod.mk (FieldNotesRun.start fn)
                (FieldNotesRun.end_ fn)) r in
  let r := add_magnetic_channels fn r in
  r <- add_electric_channels (FieldNotesRun.dipole fn) r ;;
  apply_layouts (input_channels e ++ output_channels e) r.

(** [for fn in self.field_notes.run_list: ...] *)
Fixpoint field_notes_to_runs (e : t) (fns : list FieldNotesRun.t)
  (s : Station.t) : result Station.t :=
  match fns with
  | [] => Ok s
  | fn :: rest =>
      if in_zero_or_none (FieldNotesRun.sampling_rate fn)
      then field_notes_to_runs e rest s
      else
        r <- field_notes_to_run e fn ;;
        added <- Station.add_run Base_update s r ;;
        field_notes_to_runs e rest (fst added)
  end.

Definition comment_keys : list string :=
  [ "description"; "primary_data.filename"; "attachment.description";
    "attachment.filename"; "site.data_quality_notes.comments.author";
    "site.data_quality_notes.comments.value" ].

(** The getter of [station_metadata]. *)
Definition station_metadata_getter (e : t) : result Station.t :=
  let s := Station.new in
  let s := Station.set_channels_recorded
             (map Layout.name (input_channels e)
              ++ map Layout.name (output_channels e)) s in
  sub <- match sub_type e with
         | None => Raise AttributeError
         | Some v => Ok v
         end ;;
  let s := Station.set_data_type
             (Some (hd EmptyString (split_on "_" (lower sub)))) s in
  let s := Station.set_id (site_id e) s in
  let s := Station.set_fdsn_id (product_id e) s in
  let s := Station.set_time_period
             (TimePeriod.mk (site_start e) (site_end e)) s in
  let s := Station.set_comments
             (Some (join "; "
                (flat_map
                   (fun k => match get_attr_from_name e k with
                             | None => []
                             | Some v =>
                                 if String.eqb v EmptyString then []
                                 else [(k ++ ":" ++ v)%string]
                             end)
                   comment_keys))) s in
  field_notes_to_runs e (field_notes_run_list e) s.

(** The end of [read]: [e] is the object as the parse of the file left
    it; the period range is taken from its period axis. *)
Definition read (e : t) : result t :=
  p <- match Data.period (data e) with
       | None => Raise AttributeError
       | Some a => Ok a
       end ;;
  mn <- array_min p ;;
  mx <- array_max p ;;
  Ok (set_period_range (Some mn) (Some mx) e).



End WithAttributeLayer.

End EMTFXML.

(* ================================================================= *)
(** ** [sorted] on keys *)

(** The strings of a list of keys, when none of them is [None]. *)
Fixpoint strings_of (ks : list pykey) : option (list string) :=
  match ks with
  | [] => Some []
  | Some s :: ks' =>
      match strings_of ks' with
      | Some ss => Some (s :: ss)
      | None => None
      end
  | None :: _ => None
  end.

(** Sorting strings in ascending order. *)
Fixpoint insert_sorted (x : string) (xs : list string) : list string :=
  match xs with
  | [] => [x]
  | y :: ys => if str_ltb x y then x :: y :: ys else y :: insert_sorted x ys
  end.

Fixpoint sort_strings (xs : list string) : list string :=
  match xs with
  | [] => []
  | x :: xs' => insert_sorted x (sort_strings xs')
  end.

(** [sorted(ks)] for values that are strings or [None]: with two or more
    elements, a [None] among them meets a comparison, which raises
    [TypeError]. *)
Definition py_sorted (ks : list pykey) : result (list pykey) :=
  match ks with
  | [] => Ok []
  | [k] => Ok [k]
  | _ =>
      match strings_of ks with
      | Some ss => Ok (map Some (sort_strings ss))
      | None => Raise TypeError
      end
  end.

(* ================================================================= *)
(** ** More of [ListDict]: slices, [sort] and [update] *)

Module ListDictOps.

(** A bound of a [slice] object as [_get_index_slice_from_slice] tests it:
    [None], an [int], a [str], or something else. *)
Inductive bound : Type :=
  | BNone
  | BInt (i : Z)
  | BStr (s : string)
  | BOther.

(** [slice(start, stop, step)] *)
Record slice : Type := mkSlice {
  start : bound;
  stop : bound;
  step : option Z
}.

(** Python's list slicing, [xs[start:stop:step]] with [None] or integers:
    the bounds are adjusted to the length as CPython does (a negative
    bound counts from the end, a bound outside the list is clamped), and
    a zero step raises [ValueError]. *)
Definition adjust_bound (length step : Z) (default : Z) (v : option Z) : Z :=
  match v with
  | None => default
  | Some i =>
      if (i <? 0)%Z
      then (if (i + length <? 0)%Z
            then (if (step <? 0)%Z then (-1)%Z else 0%Z)
            else (i + length)%Z)
      else (if (length <=? i)%Z
            then (if (step <? 0)%Z then (length - 1)%Z else length)
            else i)
  end.

Definition slice_length (start stop step : Z) : Z :=
  if (step <? 0)%Z
  then (if (stop <? start)%Z then ((start - stop - 1) / (- step) + 1)%Z
        else 0%Z)
  else (if (start <? stop)%Z then ((stop - start - 1) / step + 1)%Z
        else 0%Z).

Definition list_slice {A : Type} (xs : list A) (start stop step : option Z)
  : result (list A) :=
  let st := match step with None => 1%Z | Some s => s end in
  if (st =? 0)%Z then Raise ValueError
  else
    let length := Z.of_nat (List.length xs) in
    let a := adjust_bound length st
               (if (st <? 0)%Z then (length - 1)%Z else 0%Z) start in
    let b := adjust_bound length st
               (if (st <? 0)%Z then (-1)%Z else length) stop in
    Ok (flat_map
          (fun i => match nth_error xs (Z.to_nat (a + Z.of_nat i * st)) with
                    | Some x => [x]
                    | None => []
                    end)
          (seq 0 (Z.to_nat (slice_length a b st)))).

Section WithValues.
Context {V : Type}.

(** [ListDict(values)] for a list of pairs: [OrderedDict(values)]. *)
Definition of_items (values : list (pykey * V)) : ListDict.t V :=
  ListDict.extend ListDict.empty values.

Definition resolve_bound (d : ListDict.t V) (b : bound) : result (option Z) :=
  match b with
  | BNone => Ok None
  | BInt i => Ok (Some i)
  | BStr s =>
      n <- ListDict._get_index_from_key d (Some s) ;; Ok (Some (Z.of_nat n))
  | BOther => Raise TypeError
  end.

Definition _get_index_slice_from_slice (d : ListDict.t V) (key_slice : slice)
  : result (option Z * option Z * option Z) :=
  a <- resolve_bound d (start key_slice) ;;
  b <- resolve_bound d (stop key_slice) ;;
  Ok (a, b, step key_slice).

(** [__getitem__] for a [slice]. *)
Definition __getitem__slice (d : ListDict.t V) (value : slice)
  : result (ListDict.t V) :=
  idx <- _get_index_slice_from_slice d value ;;
  items <- list_slice (ListDict.items d) (fst (fst idx)) (snd (fst idx))
             (snd idx) ;;
  Ok (of_items items).

(** [for key in sorted(...): od[key] = self._home[key]] *)
Fixpoint rebuild (d : ListDict.t V) (ks : list pykey) (od : ListDict.t V)
  : result (ListDict.t V) :=
  match ks with
  | [] => Ok od
  | key :: ks' =>
      v <- ListDict.home_get key d ;;
      rebuild d ks' (ListDict.home_set key v od)
  end.

(** [sort(inplace)]: the new [self] and the value returned ([None] when
    sorting in place, else the sorted dictionary). *)
Definition sort (d : ListDict.t V) (inplace : bool)
  : result (ListDict.t V * option (ListDict.t V)) :=
  ks <- py_sorted (ListDict.keys d) ;;
  od <- rebuild d ks ListDict.empty ;;
  if inplace then Ok (od, None) else Ok (d, Some od).

(** The argument of [update], as its [isinstance] test and
    [OrderedDict.update] see it: a [ListDict] (read through its [keys()]
    and [__getitem__]), a [dict] or [OrderedDict] (read through its
    items), or something else. *)
Inductive update_arg : Type :=
  | ArgListDict (o : ListDict.t V)
  | ArgDict (o : ListDict.t V)
  | ArgOther (type_name : string).

Fixpoint update_from_keys (o : ListDict.t V) (ks : list pykey)
  (d : ListDict.t V) : result (ListDict.t V) :=
  match ks with
  | [] => Ok d
  | key :: ks' =>
      v <- ListDict.__getitem__ o (ListDict.index_of_pykey key) ;;
      update_from_keys o ks' (ListDict.home_set key v d)
  end.

Definition update (d : ListDict.t V) (other : update_arg)
  : result (ListDict.t V) :=
  match other with
  | ArgListDict o => update_from_keys o (ListDict.keys o) d
  | ArgDict o => Ok (ListDict.extend d o)
  | ArgOther _ => Raise TypeError
  end.

End WithValues.

End ListDictOps.

(* ================================================================= *)
(** ** More of [Run]: the [channels] setter and the sorted component lists *)

Module RunOps.

(** An item of the value given to the [channels] setter: a channel
    object ([Auxiliary], [Electric] or [Magnetic]), or an object of
    another type, with the text of that type. *)
Inductive item : Type :=
  | IsChannel (c : Channel.t)
  | NotChannel (type_name : string).

(** The value itself: an object without [__iter__], or an iterable. *)
Inductive channels_value : Type :=
  | NotIterable (type_name : string)
  | Iterable (items : list item).

Definition not_channel (ii : nat) (type_name : string) : string :=
  "Item " ++ str_of_nat ii ++ " is not type(channel); type=" ++ type_name.

(** The loop of the setter over [enumerate(value)], from item [ii] on:
    the channels kept and the messages of the items refused. *)
Fixpoint scan_channels (ii : nat) (value : list item)
  (channels : list Channel.t) (fails : list string)
  : list Channel.t * list string :=
  match value with
  | [] => (channels, fails)
  | IsChannel c :: rest => scan_channels (S ii) rest (channels ++ [c]) fails
  | NotChannel ty :: rest =>
      scan_channels (S ii) rest channels (fails ++ [not_channel ii ty])
  end.

(** The [channels] setter: the run afterwards, the exception raised (if
    any) and the log records emitted.  [self._channels] is assigned after
    the test on [fails]. *)
Definition channels_setter (r : Run.t) (value : channels_value)
  : Run.t * option PyError * list LogRecord :=
  match value with
  | NotIterable ty =>
      (r, Some TypeError,
       [mkLog ERROR
          ("input channels must be an iterable, should be a list not " ++ ty)])
  | Iterable items =>
      let (channels, fails) := scan_channels 0 items [] [] in
      if (0 <? List.length fails)%nat
      then (r, Some TypeError, map (mkLog ERROR) fails)
      else (Run.set_channels channels r, None, map (mkLog ERROR) fails)
  end.

(** [[ch.component for ch in self.channels if isinstance(ch, k)]] *)
Definition components_of (k : Channel.cls) (r : Run.t) : list pykey :=
  map Channel.component
    (filter (fun ch => Channel.cls_eqb (Channel.class ch) k) (Run.channels r)).

Definition channels_recorded_electric (r : Run.t) : result (list pykey) :=
  py_sorted (components_of Channel.Electric r).

Definition channels_recorded_magnetic (r : Run.t) : result (list pykey) :=
  py_sorted (components_of Channel.Magnetic r).

Definition channels_recorded_auxiliary (r : Run.t) : result (list pykey) :=
  py_sorted (components_of Channel.Auxiliary r).

End RunOps.

(* ================================================================= *)
(** ** More of [Station]: the [runs] setter *)

Module StationOps.

Section WithFromDict.

(** A [dict] describing a run, and [Run().from_dict(d)] (of
    mt_metadata.base.Base, not among the sources here): the run it
    gives, or the exception it raises. *)
Context {D : Type}.
Variable Run_from_dict : D -> result Run.t.

(** An item of the value given to the [runs] setter: a [Run], a [dict]
    or [OrderedDict], or an object of another type. *)
Inductive entry : Type :=
  | IsRun (r : Run.t)
  | IsDict (d : D)
  | NotRun (type_name : string).

(** The value itself: a [list] or [tuple], a [dict], [ListDict] or
    [OrderedDict] (its items), or an object of another type. *)
Inductive runs_value : Type :=
  | OfList (l : list entry)
  | OfDict (l : list (pykey * entry))
  | OfOther (type_name : string).

Definition not_run (ii : nat) (type_name : string) : string :=
  "Item " ++ str_of_nat ii ++ " is not type(Run); type=" ++ type_name.

(** The loop of the setter over [enumerate(value_list)], from item [ii]
    on: [self._runs] and the messages collected at the end of the loop or
    at the exception that leaves it. *)
Fixpoint scan_runs (ii : nat) (value_list : list entry)
  (runs : ListDict.t Run.t) (fails : list string)
  : ListDict.t Run.t * list string * option PyError :=
  match value_list with
  | [] => (runs, fails, None)
  | IsDict d :: rest =>
      match (r <- Run_from_dict d ;; ListDict.append runs r) with
      | Ok runs' => scan_runs (S ii) rest runs' fails
      | Raise e => (runs, fails, Some e)
      end
  | NotRun ty :: rest =>
      scan_runs (S ii) rest runs (fails ++ [not_run ii ty])
  | IsRun r :: rest =>
      match ListDict.append runs r with
      | Ok runs' => scan_runs (S ii) rest runs' fails
      | Raise e => (runs, fails, Some e)
      end
  end.

(** The [runs] setter: the station afterwards, the exception raised (if
    any) and the log records emitted.  [self._runs] is replaced by an
    empty [ListDict] before the loop. *)
Definition runs_setter (s : Station.t) (value : runs_value)
  : Station.t * option PyError * list LogRecord :=
  let finish (value_list : list entry) :=
    match scan_runs 0 value_list ListDict.empty [] with
    | (runs, fails, Some e) =>
        (Station.set_runs runs s, Some e, map (mkLog ERROR) fails)
    | (runs, fails, None) =>
        (Station.set_runs runs s,
         if (0 <? List.length fails)%nat then Some TypeError else None,
         map (mkLog ERROR) fails)
    end in
  match value with
  | OfOther ty =>
      (s, Some TypeError,
       [mkLog ERROR
          ("input run_list must be an iterable, should be a list or dict not "
           ++ ty)])
  | OfDict l => finish (map snd l)
  | OfList l => finish l
  end.

End WithFromDict.

End StationOps.

(* ================================================================= *)
(** ** Objects and readings used to state the properties *)

(** A duck-typed object: the [id] and [component] attributes it has (if
    any) and some content. *)
Record PyItem : Type := mkItem {
  item_id : option pykey;
  item_component : option pykey;
  item_payload : nat
}.

#[export] Instance PyItem_PyObject : PyObject PyItem := {
  attr_id := item_id;
  attr_component := item_component
}.

(** The key [append] stores an object under, as the code derives it. *)
Definition derived_key {V : Type} `{PyObject V} (d : ListDict.t V) (obj : V)
  : pykey :=
  match attr_id obj with
  | Some v => v
  | None =>
      match attr_component obj with
      | Some v => v
      | None => Some (str_of_nat (ListDict.len d))
      end
  end.

(** The key as the specification words it: the [id] when that value is
    non-null, else the [component] when that attribute is present, else
    the stringified length. *)
Definition spec_key {V : Type} `{PyObject V} (d : ListDict.t V) (obj : V)
  : pykey :=
  match attr_id obj with
  | Some (Some v) => Some v
  | _ =>
      match attr_component obj with
      | Some v => v
      | None => Some (str_of_nat (ListDict.len d))
      end
  end.

(** [m] is a least (greatest) element of [xs] for Python's string order. *)
Definition is_min (m : string) (xs : list string) : Prop :=
  In m xs /\ forall a, In a xs -> str_ltb a m = false.

Definition is_max (m : string) (xs : list string) : Prop :=
  In m xs /\ forall a, In a xs -> str_ltb m a = false.

(** The body shared by [Station.update_time_period] and
    [Run.update_time_period], on the period of the entity and the start
    and end bounds collected from its children. *)
Definition widen (tp : TimePeriod.t) (start end_ : list string)
  : TimePeriod.t :=
  let tp1 :=
    match start with
    | [] => tp
    | x :: xs =>
        if String.eqb (TimePeriod.start tp) TimePeriod.sentinel
        then TimePeriod.set_start (str_min_from x xs) tp
        else if str_ltb (str_min_from x xs) (TimePeriod.start tp)
             then TimePeriod.set_start (str_min_from x xs) tp
             else tp
    end in
  match end_ with
  | [] => tp1
  | x :: xs =>
      if String.eqb (TimePeriod.end_ tp1) TimePeriod.sentinel
      then TimePeriod.set_end (str_max_from x xs) tp1
      else if str_ltb (TimePeriod.end_ tp1) (str_max_from x xs)
           then TimePeriod.set_end (str_max_from x xs) tp1
           else tp1
  end.

(** The start and end bounds of the children of a station and of a run. *)
Definition run_starts (s : Station.t) : list string :=
  map (fun r => TimePeriod.start (Run.time_period r))
      (ListDict.values (Station.runs s)).

Definition run_ends (s : Station.t) : list string :=
  map (fun r => TimePeriod.end_ (Run.time_period r))
      (ListDict.values (Station.runs s)).

Definition channel_starts (r : Run.t) : list string :=
  map (fun c => TimePeriod.start (Channel.time_period c)) (Run.channels r).

Definition channel_ends (r : Run.t) : list string :=
  map (fun c => TimePeriod.end_ (Channel.time_period c)) (Run.channels r).

(** Sample objects: a run with the given id and bounds, a channel with the
    given class and component, and a station with two runs whose bounds
    are [t1, t2] and [t3, t4] with [t1 < t3] and [t2 < t4]. *)
Definition sample_run (id start end_ : string) : Run.t :=
  Run.set_time_period (TimePeriod.mk start end_)
    (Run.set_id (Some id) Run.new).

Definition sample_channel (k : Channel.cls) (component : string) : Channel.t :=
  Channel.set_component (Some component) (Channel.new k).

Definition sample_station : Station.t :=
  Station.set_runs
    [ (Some "a", sample_run "a" "2020-01-01T00:00:00+00:00"
                              "2020-01-02T00:00:00+00:00");
      (Some "b", sample_run "b" "2020-01-03T00:00:00+00:00"
                              "2020-01-04T00:00:00+00:00") ]
    (Station.set_id (Some "mt01") Station.new).


(** A run with only the electric channels, and a station holding it. *)
Definition run_without_magnetics : Run.t :=
  Run.set_sample_rate (Some 1%Q)
    (Run.set_channels
       [sample_channel Channel.Electric "ex";
        sample_channel Channel.Electric "ey"]
       (sample_run "a" "2020-01-01T00:00:00+00:00"
                       "2020-01-02T00:00:00+00:00")).

Definition station_without_magnetics : Station.t :=
  Station.set_comments (Some "")
    (Station.set_runs [(Some "a", run_without_magnetics)]
       (Station.set_id (Some "mt01") Station.new)).

(** A magnetic channel whose sensor has the given name and type. *)
Definition sample_magnetic (component name type : string) : Channel.t :=
  Channel.set_sensor (Instrument.mk None (Some name) None (Some type))
    (sample_channel Channel.Magnetic component).

(** A run with the five channels, each magnetic sensor named after its
    component, at the given sample rate; and a station holding it. *)
Definition five_channel_run (sample_rate : Q) : Run.t :=
  Run.set_sample_rate (Some sample_rate)
    (Run.set_channels
       [sample_magnetic "hx" "Hx" "induction coil";
        sample_magnetic "hy" "Hy" "induction coil";
        sample_magnetic "hz" "Hz" "induction coil";
        sample_channel Channel.Electric "ex";
        sample_channel Channel.Electric "ey"]
       (sample_run "a" "2020-01-01T00:00:00+00:00"
                       "2020-01-02T00:00:00+00:00")).







(** An assignment by name leaves alone what the setter and the getter
    of [station_metadata] transcribe: the sub type, the site id, the
    product id, the field-note records and the site layout. *)
Definition frame (e e' : EMTFXML.t) : Prop :=
  EMTFXML.sub_type e' = EMTFXML.sub_type e
  /\ EMTFXML.site_id e' = EMTFXML.site_id e
  /\ EMTFXML.product_id e' = EMTFXML.product_id e
  /\ EMTFXML.field_notes_run_list e' = EMTFXML.field_notes_run_list e
  /\ EMTFXML.input_channels e' = EMTFXML.input_channels e
  /\ EMTFXML.output_channels e' = EMTFXML.output_channels e.

(** A token of the station's comments is free text, or it is a
    [key:value] pair that the attribute layer accepts, touching nothing
    of the above. *)
Definition comment_accepted
  (set_attr_from_name : string -> string -> EMTFXML.t -> result EMTFXML.t)
  (tok : string) : Prop :=
  count_char ":" tok = 0%nat
  \/ forall e, exists e',
       set_attr_from_name (strip (fst (split_first ":" tok)))
         (strip (snd (split_first ":" tok))) e = Ok e'
       /\ frame e e'.










Definition no_attr_get (e : EMTFXML.t) (key : string) : option string := None.















(** An array is present: non-null and not identically zero. *)
Definition array_present (a : option ndarray) : bool :=
  match a with
  | Some arr => negb (all_zero arr)
  | None => false
  end.

(** The rule for one statistical estimate as the specification words it:
    the impedance-associated array decides when it is non-null, the
    tipper-associated one only when the impedance one is null. *)
Definition estimate_selected (za ta : option ndarray) : bool :=
  match za with
  | Some _ => array_present za
  | None => array_present ta
  end.

(** *** Readings for the lookups, the setters and the sorted lists *)

(** The bound [b] of a slice of [d] denotes position [n]: it is left out
    (and [n] is the [default]), or it is the integer [n], or the integer
    [n - len(d)] counting from the end, or the key stored at [n]. *)
Definition bound_at {V : Type} (d : ListDict.t V) (b : ListDictOps.bound)
  (n default : nat) : Prop :=
  (b = ListDictOps.BNone /\ n = default)
  \/ (b = ListDictOps.BInt (Z.of_nat n) /\ (n <= ListDict.len d)%nat)
  \/ (b = ListDictOps.BInt (Z.of_nat n - Z.of_nat (ListDict.len d))
      /\ (n < ListDict.len d)%nat)
  \/ (exists s, b = ListDictOps.BStr s
                /\ nth_error (ListDict.keys d) n = Some (Some s)).

(** Ascending order of string keys, strict. *)
Definition ascending (ss : list string) : Prop :=
  StronglySorted (fun a b => str_ltb a b = true) ss.

(** Ascending order of strings, equal neighbours allowed. *)
Definition non_descending (ss : list string) : Prop :=
  StronglySorted (fun a b => str_ltb b a = false) ss.

(** The warnings of [get_run] and [remove_run] on a miss. *)
Definition not_in_runs (k : string) : LogRecord :=
  mkLog WARNING ("Could not find " ++ k ++ " in runs.").

Definition not_to_remove (k : string) : LogRecord :=
  mkLog WARNING ("Could not find " ++ k ++ " to remove.").

(** The runs an entry list offers, the entries refused, and whether every
    [dict] among the entries converts to a run. *)
Definition runs_given {D : Type} (Run_from_dict : D -> result Run.t)
  (l : list (StationOps.entry (D := D))) : list Run.t :=
  flat_map (fun e => match e with
                     | StationOps.IsRun r => [r]
                     | StationOps.IsDict d =>
                         match Run_from_dict d with
                         | Ok r => [r]
                         | Raise _ => []
                         end
                     | StationOps.NotRun _ => []
                     end) l.

Definition refused {D : Type} (l : list (StationOps.entry (D := D))) : nat :=
  List.length (filter (fun e => match e with
                                | StationOps.NotRun _ => true
                                | _ => false
                                end) l).

Definition dicts_convert {D : Type} (Run_from_dict : D -> result Run.t)
  (l : list (StationOps.entry (D := D))) : Prop :=
  Forall (fun e => match e with
                   | StationOps.IsDict d => exists r, Run_from_dict d = Ok r
                   | _ => True
                   end) l.

Definition keyed (r : Run.t) : pykey * Run.t := (Run.id r, r).

(** The channels among the items given to the setter, and the items
    refused. *)
Definition channels_given (l : list RunOps.item) : list Channel.t :=
  flat_map (fun e => match e with
                     | RunOps.IsChannel c => [c]
                     | RunOps.NotChannel _ => []
                     end) l.

Definition refused_items (l : list RunOps.item) : nat :=
  List.length (filter (fun e => match e with
                                | RunOps.NotChannel _ => true
                                | _ => false
                                end) l).

(** The dictionary [channels_dict] builds, from the pairs already in
    [acc]. *)
Definition dict_of (l : list Channel.t) (acc : list (pykey * Channel.t))
  : list (pykey * Channel.t) :=
  fold_left (fun acc c => ListDict.home_set (Channel.component c) c acc) l acc.

(* ================================================================= *)
(** * Properties *)

(* ================================================================= *)
(** ** Keys and the ordered dictionary *)

Lemma pykey_eqb_refl (k : pykey) : pykey_eqb k k = true.
Proof.
  destruct k as [s|]; simpl; [apply String.eqb_refl | reflexivity].
Qed.

Lemma pykey_eqb_eq (a b : pykey) : pykey_eqb a b = true <-> a = b.
Proof.
  destruct a as [x|], b as [y|]; simpl; split; intro E;
    try discriminate; try reflexivity.
  - apply String.eqb_eq in E. now subst.
  - injection E as ->. apply String.eqb_refl.
Qed.

Lemma pykey_eqb_sym (a b : pykey) : pykey_eqb a b = pykey_eqb b a.
Proof.
  destruct a as [x|], b as [y|]; simpl; try reflexivity.
  apply String.eqb_sym.
Qed.

Lemma pykey_eqb_neq (a b : pykey) : pykey_eqb a b = false <-> a <> b.
Proof.
  split.
  - intros E ->. rewrite pykey_eqb_refl in E. discriminate.
  - intro N. destruct (pykey_eqb a b) eqn:E; [|reflexivity].
    apply pykey_eqb_eq in E. contradiction.
Qed.

Section HomeFacts.
Context {V : Type}.
Implicit Types (d : ListDict.t V) (k : pykey) (v : V).

Lemma home_get_set_same k v d :
  ListDict.home_get k (ListDict.home_set k v d) = Ok v.
Proof.
    induction d as [|[k' v'] d IH]; simpl.
    - now rewrite pykey_eqb_refl.
    - destruct (pykey_eqb k k') eqn:E; simpl; rewrite E; [reflexivity | exact IH].
Qed.

Lemma home_get_set_other k k' v d :
  pykey_eqb k' k = false ->
  ListDict.home_get k' (ListDict.home_set k v d) = ListDict.home_get k' d.
Proof.
    intro N. induction d as [|[k0 v0] d IH]; simpl.
    - now rewrite N.
    - destruct (pykey_eqb k k0) eqn:E; simpl.
      + apply pykey_eqb_eq in E. subst k0. now rewrite N.
      + now rewrite IH.
Qed.

Lemma home_set_present k v d :
  ListDict.contains k d = true ->
  ListDict.keys (ListDict.home_set k v d) = ListDict.keys d.
Proof.
    unfold ListDict.contains, ListDict.keys.
    induction d as [|[k' v'] d IH]; simpl; [discriminate|].
    destruct (pykey_eqb k k') eqn:E; simpl; intro Hc; [reflexivity|].
    now rewrite IH.
Qed.

Lemma home_set_absent k v d :
  ListDict.contains k d = false ->
  ListDict.home_set k v d = d ++ [(k, v)].
Proof.
    unfold ListDict.contains, ListDict.keys.
    induction d as [|[k' v'] d IH]; simpl; [reflexivity|].
    destruct (pykey_eqb k k') eqn:E; simpl; intro Hc; [discriminate|].
    now rewrite IH.
Qed.


Lemma contains_In k d :
  ListDict.contains k d = true <-> In k (ListDict.keys d).
Proof.
    unfold ListDict.contains. rewrite existsb_exists. split.
    - intros (x & Hx & E). apply pykey_eqb_eq in E. now subst.
    - intro Hin. exists k. split; [exact Hin | apply pykey_eqb_refl].
Qed.

Lemma home_set_keys k v d :
  ListDict.keys (ListDict.home_set k v d)
  = if ListDict.contains k d then ListDict.keys d
    else ListDict.keys d ++ [k].
Proof.
    destruct (ListDict.contains k d) eqn:E.
    - now apply home_set_present.
    - rewrite home_set_absent by exact E.
      unfold ListDict.keys. now rewrite map_app.
Qed.

Lemma home_set_NoDup k v d :
  NoDup (ListDict.keys d) -> NoDup (ListDict.keys (ListDict.home_set k v d)).
Proof.
    intro ND. rewrite home_set_keys.
    destruct (ListDict.contains k d) eqn:E; [exact ND|].
    apply NoDup_rev in ND. rewrite <- (rev_involutive (_ ++ [k])).
    apply NoDup_rev. rewrite rev_app_distr. simpl. constructor; [|exact ND].
    rewrite <- in_rev. intro Hin. apply contains_In in Hin. congruence.
Qed.

End HomeFacts.

(* ================================================================= *)
(** ** [ListDict.append] and key derivation *)

Lemma append_as_home_set {V : Type} `{PyObject V} (d : ListDict.t V) (obj : V) :
  ListDict.append d obj = Ok (ListDict.home_set (derived_key d obj) obj d).
Proof.
  unfold ListDict.append, ListDict._get_key_from_object, derived_key,
    ListDict.len, ListDict.keys.
  rewrite length_map.
  destruct (attr_id obj) as [v|]; [reflexivity|].
  destruct (attr_component obj) as [v|]; reflexivity.
Qed.

(** C6 (as amended).  [append] never fails and stores the object under the
    key derived as the code derives it: the object's [id] whenever the
    object has that attribute (also when its value is null), else its
    [component] when it has that attribute, else the stringified length.
    The object is then found under that key, every other key keeps its
    value, and the keys are unchanged when the key was already there
    (overwrite in place, position preserved), else the entry is added at
    the end. *)
Theorem append_derives_key_and_upserts
  {V : Type} `{PyObject V} (d : ListDict.t V) (obj : V) :
  ListDict.append d obj = Ok (ListDict.home_set (derived_key d obj) obj d)
  /\ ListDict.home_get (derived_key d obj)
       (ListDict.home_set (derived_key d obj) obj d) = Ok obj
  /\ (forall k',
        ListDict.home_get k' (ListDict.home_set (derived_key d obj) obj d)
        = if pykey_eqb k' (derived_key d obj) then Ok obj
          else ListDict.home_get k' d)
  /\ (if ListDict.contains (derived_key d obj) d
      then ListDict.keys (ListDict.home_set (derived_key d obj) obj d)
           = ListDict.keys d
      else ListDict.home_set (derived_key d obj) obj d
           = d ++ [(derived_key d obj, obj)]).
Proof.
  split; [apply append_as_home_set|].
  split; [apply home_get_set_same|].
  split.
  - intro k'. destruct (pykey_eqb k' (derived_key d obj)) eqn:E.
    + apply pykey_eqb_eq in E. subst k'. apply home_get_set_same.
    + now apply home_get_set_other.
  - destruct (ListDict.contains (derived_key d obj) d) eqn:E.
    + now apply home_set_present.
    + now apply home_set_absent.
Qed.

(** C6, counterexample.  An object whose [id] attribute exists and is null
    (a freshly constructed [Station()], say) is stored under the null key,
    not under the stringified length the claim gives. *)
Lemma append_null_id_counterexample :
  let obj := mkItem (Some None) None 7 in
  ListDict.append ListDict.empty obj = Ok [(None, obj)]
  /\ spec_key ListDict.empty obj = Some "0"%string
  /\ ListDict.append ListDict.empty obj
     <> Ok (ListDict.home_set (spec_key ListDict.empty obj) obj ListDict.empty).
Proof.
  cbv zeta. split; [reflexivity|]. split; [reflexivity|].
  vm_compute. discriminate.
Qed.

(** C7 (as amended).  For an object with neither an [id] nor a [component]
    attribute the key derivation raises [TypeError]; [append] catches it
    and stores the object under the stringified length, and assignment at
    an integer position that is not yet there stores it under the
    stringified position.  Neither fails. *)
Theorem no_identity_falls_back_to_position
  {V : Type} `{PyObject V} (d : ListDict.t V) (obj : V) (i : Z) :
  attr_id obj = None ->
  attr_component obj = None ->
  ListDict._get_key_from_index d i = Raise KeyError ->
  ListDict._get_key_from_object obj = Raise TypeError
  /\ ListDict.append d obj
     = Ok (ListDict.home_set (Some (str_of_nat (ListDict.len d))) obj d)
  /\ ListDict.__setitem__ d (ListDict.IInt i) obj
     = Ok (ListDict.home_set (Some (str_of_int i)) obj d).
Proof.
  intros Hid Hc Hi.
  assert (Hk : ListDict._get_key_from_object obj = Raise TypeError).
  { unfold ListDict._get_key_from_object. now rewrite Hid, Hc. }
  split; [exact Hk|]. split.
  - rewrite append_as_home_set. unfold derived_key. now rewrite Hid, Hc.
  - unfold ListDict.__setitem__. rewrite Hi, Hk. reflexivity.
Qed.

Lemma no_identity_falls_back_to_position_witness :
  (attr_id (mkItem None None 2) = None
   /\ attr_component (mkItem None None 2) = None
   /\ ListDict._get_key_from_index [(Some "a"%string, mkItem None None 1)] 1
      = Raise KeyError)
  /\ ListDict._get_key_from_object (mkItem None None 2) = Raise TypeError
  /\ ListDict.append [(Some "a"%string, mkItem None None 1)] (mkItem None None 2)
     = Ok [(Some "a"%string, mkItem None None 1);
           (Some "1"%string, mkItem None None 2)]
  /\ ListDict.__setitem__ [(Some "a"%string, mkItem None None 1)]
       (ListDict.IInt 1) (mkItem None None 2)
     = Ok [(Some "a"%string, mkItem None None 1);
           (Some "1"%string, mkItem None None 2)].
Proof.
  split; [repeat split|].
  apply (@no_identity_falls_back_to_position PyItem _
           [(Some "a"%string, mkItem None None 1)] (mkItem None None 2) 1%Z);
    reflexivity.
Defined.

(** C7, counterexample.  Appending an object with neither attribute does
    not fail: it is stored under the key ["0"]. *)
Lemma append_without_identity_counterexample :
  let obj := mkItem None None 7 in
  ListDict._get_key_from_object obj = Raise TypeError
  /\ ListDict.append ListDict.empty obj = Ok [(Some "0"%string, obj)]
  /\ forall e, ListDict.append ListDict.empty obj <> Raise e.
Proof.
  cbv zeta. split; [reflexivity|]. split; [reflexivity|].
  intros e. vm_compute. discriminate.
Qed.

(* ================================================================= *)
(** ** Derived tags: data types and statistical estimates *)

Lemma set_estimates_list_same (e : EMTFXML.t) :
  EMTFXML.set_estimates_list (EMTFXML.estimates_list e) e = e.
Proof. now destruct e. Qed.

Lemma set_data_types_list_same (e : EMTFXML.t) :
  EMTFXML.set_data_types_list (EMTFXML.data_types_list e) e = e.
Proof. now destruct e. Qed.

Lemma estimate_block_eq (za ta : option ndarray) (key : string)
  (entry : Estimate.t) (e : EMTFXML.t) :
  dict_get key EMTFXML.estimates_dict = Ok entry ->
  EMTFXML.estimate_block za ta key e
  = Ok (EMTFXML.set_estimates_list
          (EMTFXML.estimates_list e
           ++ (if estimate_selected za ta then [entry] else [])) e).
Proof.
  intro Hk. unfold EMTFXML.estimate_block, estimate_selected, array_present.
  rewrite Hk.
  destruct za as [a|]; [|destruct ta as [a|]];
    try destruct (all_zero a); simpl;
    rewrite ?app_nil_r, ?set_estimates_list_same; reflexivity.
Qed.

Lemma data_type_block_eq (a : option ndarray) (key : string)
  (entry : DataType.t) (e : EMTFXML.t) :
  dict_get key EMTFXML.data_types_dict = Ok entry ->
  EMTFXML.data_type_block a key e
  = Ok (EMTFXML.set_data_types_list
          (EMTFXML.data_types_list e
           ++ (if array_present a then [entry] else [])) e).
Proof.
  intro Hk. unfold EMTFXML.data_type_block, array_present. rewrite Hk.
  destruct a as [a|]; try destruct (all_zero a); simpl;
    rewrite ?app_nil_r, ?set_data_types_list_same; reflexivity.
Qed.

(** What [write] leaves in the object: the arrays as they were and the
    two lists rebuilt from them. *)
Lemma write_eq (e : EMTFXML.t) :
  exists e',
    EMTFXML.write e = Ok e'
    /\ EMTFXML.data e' = EMTFXML.data e
    /\ EMTFXML.estimates_list e'
       = (if estimate_selected (Data.z_var (EMTFXML.data e))
               (Data.t_var (EMTFXML.data e))
          then [EMTFXML.variance_estimate] else [])
         ++ (if estimate_selected (Data.z_invsigcov (EMTFXML.data e))
                  (Data.t_invsigcov (EMTFXML.data e))
             then [EMTFXML.inverse_signal_power_estimate] else [])
         ++ (if estimate_selected (Data.z_residcov (EMTFXML.data e))
                  (Data.t_residcov (EMTFXML.data e))
             then [EMTFXML.residual_covariance_estimate] else [])
    /\ EMTFXML.data_types_list e'
       = (if array_present (Data.z (EMTFXML.data e))
          then [EMTFXML.impedance_data_type] else [])
         ++ (if array_present (Data.t (EMTFXML.data e))
             then [EMTFXML.tipper_data_type] else []).
Proof.
  unfold EMTFXML.write, EMTFXML._get_statistical_estimates,
    EMTFXML._get_data_types.
  rewrite (@estimate_block_eq _ _ "variance" EMTFXML.variance_estimate)
    by reflexivity.
  cbn [bind].
  rewrite (@estimate_block_eq _ _ "inverse_signal_power"
             EMTFXML.inverse_signal_power_estimate) by reflexivity.
  cbn [bind].
  rewrite (@estimate_block_eq _ _ "residual_covariance"
             EMTFXML.residual_covariance_estimate) by reflexivity.
  cbn [bind].
  rewrite (@data_type_block_eq _ "impedance" EMTFXML.impedance_data_type)
    by reflexivity.
  cbn [bind].
  rewrite (@data_type_block_eq _ "tipper" EMTFXML.tipper_data_type)
    by reflexivity.
  eexists. split; [reflexivity|].
  destruct e; cbn. repeat split; now rewrite <- ?app_assoc.
Qed.

Lemma array_present_iff (a : option ndarray) :
  array_present a = true <-> exists arr, a = Some arr /\ all_zero arr = false.
Proof.
  unfold array_present. destruct a as [arr|].
  - rewrite negb_true_iff. split.
    + intro E. now exists arr.
    + intros (arr' & [= <-] & E). exact E.
  - split; [discriminate | intros (arr & E & _); discriminate].
Qed.

Lemma estimate_selected_iff (za ta : option ndarray) :
  estimate_selected za ta = true
  <-> (exists arr, za = Some arr /\ all_zero arr = false)
      \/ (za = None /\ exists arr, ta = Some arr /\ all_zero arr = false).
Proof.
  unfold estimate_selected. destruct za as [a|].
  - rewrite array_present_iff. split.
    + intro E. now left.
    + intros [E | [E _]]; [exact E | discriminate].
  - rewrite array_present_iff. split.
    + intro E. now right.
    + intros [(arr & E & _) | [_ E]]; [discriminate | exact E].
Qed.

(** Membership in a list assembled from three optional singletons. *)
Lemma in_three_flags {A : Type} (b1 b2 b3 : bool) (x1 x2 x3 y : A) :
  In y ((if b1 then [x1] else []) ++ (if b2 then [x2] else [])
        ++ (if b3 then [x3] else []))
  <-> (b1 = true /\ y = x1) \/ (b2 = true /\ y = x2) \/ (b3 = true /\ y = x3).
Proof.
  destruct b1, b2, b3; simpl; intuition (subst; auto; discriminate).
Qed.

Lemma in_two_flags {A : Type} (b1 b2 : bool) (x1 x2 y : A) :
  In y ((if b1 then [x1] else []) ++ (if b2 then [x2] else []))
  <-> (b1 = true /\ y = x1) \/ (b2 = true /\ y = x2).
Proof.
  destruct b1, b2; simpl; intuition (subst; auto; discriminate).
Qed.

(** C2.  [write] succeeds, and the data-type list it leaves holds the
    impedance entry iff the impedance array is non-null and not all zero,
    and the tipper entry iff the tipper array is non-null and not all
    zero, each test on its own array only.  An all-zero impedance array
    never lists impedance; a non-zero impedance array with a null tipper
    lists exactly the impedance entry. *)
Theorem write_data_types (e : EMTFXML.t) :
  exists e',
    EMTFXML.write e = Ok e'
    /\ (In EMTFXML.impedance_data_type (EMTFXML.data_types_list e')
        <-> exists arr, Data.z (EMTFXML.data e) = Some arr
                        /\ all_zero arr = false)
    /\ (In EMTFXML.tipper_data_type (EMTFXML.data_types_list e')
        <-> exists arr, Data.t (EMTFXML.data e) = Some arr
                        /\ all_zero arr = false)
    /\ (forall arr, Data.z (EMTFXML.data e) = Some arr ->
                    all_zero arr = true ->
                    ~ In EMTFXML.impedance_data_type
                        (EMTFXML.data_types_list e'))
    /\ (forall arr, Data.z (EMTFXML.data e) = Some arr ->
                    all_zero arr = false ->
                    Data.t (EMTFXML.data e) = None ->
                    EMTFXML.data_types_list e'
                    = [EMTFXML.impedance_data_type]).
Proof.
  destruct (write_eq e) as (e' & Hw & _ & _ & Hd).
  exists e'. split; [exact Hw|]. rewrite Hd.
  assert (Hi : In EMTFXML.impedance_data_type
                 ((if array_present (Data.z (EMTFXML.data e))
                   then [EMTFXML.impedance_data_type] else [])
                  ++ (if array_present (Data.t (EMTFXML.data e))
                      then [EMTFXML.tipper_data_type] else []))
               <-> array_present (Data.z (EMTFXML.data e)) = true).
  { rewrite in_two_flags. split.
    - intros [[E _] | [_ E]]; [exact E | discriminate E].
    - intro E. left. now split. }
  split; [now rewrite Hi, array_present_iff|].
  split.
  { rewrite in_two_flags, <- array_present_iff. split.
    - intros [[_ E] | [E _]]; [discriminate E | exact E].
    - intro E. right. now split. }
  split.
  - intros arr Hz Hall. rewrite Hi, Hz. simpl. rewrite Hall. discriminate.
  - intros arr Hz Hall Ht. rewrite Hz, Ht. simpl. now rewrite Hall.
Qed.

(** C9.  [write] succeeds, and each of the variance, inverse-signal-power
    and residual-covariance entries is in the estimate list it leaves
    exactly when the impedance-associated array is non-null and not all
    zero, or that array is null and the tipper-associated one is non-null
    and not all zero.  With a non-null impedance-associated array the
    impedance array alone decides, whatever the tipper-associated one
    holds. *)
Theorem write_statistical_estimates (e : EMTFXML.t) :
  exists e',
    EMTFXML.write e = Ok e'
    /\ (In EMTFXML.variance_estimate (EMTFXML.estimates_list e')
        <-> (exists arr, Data.z_var (EMTFXML.data e) = Some arr
                         /\ all_zero arr = false)
            \/ (Data.z_var (EMTFXML.data e) = None
                /\ exists arr, Data.t_var (EMTFXML.data e) = Some arr
                               /\ all_zero arr = false))
    /\ (In EMTFXML.inverse_signal_power_estimate (EMTFXML.estimates_list e')
        <-> (exists arr, Data.z_invsigcov (EMTFXML.data e) = Some arr
                         /\ all_zero arr = false)
            \/ (Data.z_invsigcov (EMTFXML.data e) = None
                /\ exists arr, Data.t_invsigcov (EMTFXML.data e) = Some arr
                               /\ all_zero arr = false))
    /\ (In EMTFXML.residual_covariance_estimate (EMTFXML.estimates_list e')
        <-> (exists arr, Data.z_residcov (EMTFXML.data e) = Some arr
                         /\ all_zero arr = false)
            \/ (Data.z_residcov (EMTFXML.data e) = None
                /\ exists arr, Data.t_residcov (EMTFXML.data e) = Some arr
                               /\ all_zero arr = false))
    /\ (forall arr, Data.z_var (EMTFXML.data e) = Some arr ->
          (In EMTFXML.variance_estimate (EMTFXML.estimates_list e')
           <-> all_zero arr = false))
    /\ (forall arr, Data.z_invsigcov (EMTFXML.data e) = Some arr ->
          (In EMTFXML.inverse_signal_power_estimate
              (EMTFXML.estimates_list e')
           <-> all_zero arr = false))
    /\ (forall arr, Data.z_residcov (EMTFXML.data e) = Some arr ->
          (In EMTFXML.residual_covariance_estimate
              (EMTFXML.estimates_list e')
           <-> all_zero arr = false)).
Proof.
  destruct (write_eq e) as (e' & Hw & _ & He & _).
  exists e'. split; [exact Hw|]. rewrite He.
  set (b1 := estimate_selected (Data.z_var (EMTFXML.data e))
               (Data.t_var (EMTFXML.data e))).
  set (b2 := estimate_selected (Data.z_invsigcov (EMTFXML.data e))
               (Data.t_invsigcov (EMTFXML.data e))).
  set (b3 := estimate_selected (Data.z_residcov (EMTFXML.data e))
               (Data.t_residcov (EMTFXML.data e))).
  assert (H1 : In EMTFXML.variance_estimate
                 ((if b1 then [EMTFXML.variance_estimate] else [])
                  ++ (if b2 then [EMTFXML.inverse_signal_power_estimate]
                      else [])
                  ++ (if b3 then [EMTFXML.residual_covariance_estimate]
                      else [])) <-> b1 = true).
  { rewrite in_three_flags. split.
    - intros [[E _] | [[_ E] | [_ E]]]; [exact E | discriminate E ..].
    - intro E. left. now split. }
  assert (H2 : In EMTFXML.inverse_signal_power_estimate
                 ((if b1 then [EMTFXML.variance_estimate] else [])
                  ++ (if b2 then [EMTFXML.inverse_signal_power_estimate]
                      else [])
                  ++ (if b3 then [EMTFXML.residual_covariance_estimate]
                      else [])) <-> b2 = true).
  { rewrite in_three_flags. split.
    - intros [[_ E] | [[E _] | [_ E]]]; [discriminate E | exact E | discriminate E].
    - intro E. right. left. now split. }
  assert (H3 : In EMTFXML.residual_covariance_estimate
                 ((if b1 then [EMTFXML.variance_estimate] else [])
                  ++ (if b2 then [EMTFXML.inverse_signal_power_estimate]
                      else [])
                  ++ (if b3 then [EMTFXML.residual_covariance_estimate]
                      else [])) <-> b3 = true).
  { rewrite in_three_flags. split.
    - intros [[_ E] | [[_ E] | [E _]]]; [discriminate E .. | exact E].
    - intro E. right. right. now split. }
  split; [rewrite H1; apply estimate_selected_iff|].
  split; [rewrite H2; apply estimate_selected_iff|].
  split; [rewrite H3; apply estimate_selected_iff|].
  split; [|split]; intros arr Hz.
  - rewrite H1. subst b1. rewrite Hz. apply negb_true_iff.
  - rewrite H2. subst b2. rewrite Hz. apply negb_true_iff.
  - rewrite H3. subst b3. rewrite Hz. apply negb_true_iff.
Qed.

(* ================================================================= *)
(** ** Time periods *)

Section StringOrder.

Lemma str_ltb_lt (a b : string) :
  str_ltb a b = true <-> String_as_OT.lt a b.
Proof.
    unfold str_ltb, String_as_OT.lt.
    destruct (String_as_OT.compare a b); split; congruence.
Qed.

Lemma str_ltb_irrefl (a : string) : str_ltb a a = false.
Proof.
    destruct (str_ltb a a) eqn:E; [|reflexivity].
    apply str_ltb_lt in E. exfalso. exact (irreflexivity E).
Qed.

Lemma str_ltb_trans (a b c : string) :
  str_ltb a b = true -> str_ltb b c = true -> str_ltb a c = true.
Proof.
    rewrite !str_ltb_lt. intros Hab Hbc. exact (transitivity Hab Hbc).
Qed.

Lemma str_ltb_trichotomy (a b : string) :
  str_ltb a b = false -> str_ltb b a = false -> a = b.
Proof.
    intros Hab Hba.
    destruct (String_as_OT.compare_spec a b) as [E | L | L].
    - exact E.
    - apply str_ltb_lt in L. congruence.
    - apply str_ltb_lt in L. congruence.
Qed.

(** [a < b] and [not (c < b)] give [a < c]. *)
Lemma str_ltb_le_trans (a b c : string) :
  str_ltb a b = true -> str_ltb c b = false -> str_ltb a c = true.
Proof.
    intros Hab Hcb. destruct (str_ltb b c) eqn:Hbc.
    - exact (str_ltb_trans _ _ _ Hab Hbc).
    - now rewrite <- (str_ltb_trichotomy _ _ Hbc Hcb).
Qed.

Lemma str_le_lt_trans (a b c : string) :
  str_ltb b a = false -> str_ltb b c = true -> str_ltb a c = true.
Proof.
    intros Hba Hbc. destruct (str_ltb a b) eqn:Hab.
    - exact (str_ltb_trans _ _ _ Hab Hbc).
    - now rewrite (str_ltb_trichotomy _ _ Hab Hba).
Qed.

Lemma str_min_from_is_min (m : string) (xs : list string) :
  is_min (str_min_from m xs) (m :: xs).
Proof.
    revert m. induction xs as [|x xs IH]; intro m; simpl str_min_from.
    - split; [now left|]. intros a [<- | []]. apply str_ltb_irrefl.
    - destruct (IH (if str_ltb x m then x else m)) as [Hin Hlow].
      split.
      + destruct Hin as [E | Hin]; [|now right; right].
        rewrite <- E. destruct (str_ltb x m); [right; now left | now left].
      + intros a [<- | [<- | Ha]].
        * destruct (str_ltb x m) eqn:Hxm.
          -- destruct (str_ltb m (str_min_from x xs)) eqn:C; [|reflexivity].
             pose proof (str_ltb_trans _ _ _ Hxm C) as C'.
             rewrite (Hlow x (or_introl eq_refl)) in C'. discriminate.
          -- apply Hlow. now left.
        * destruct (str_ltb x m) eqn:Hxm.
          -- apply Hlow. now left.
          -- destruct (str_ltb x (str_min_from m xs)) eqn:C; [|reflexivity].
             pose proof (str_ltb_le_trans _ _ _ C (Hlow m (or_introl eq_refl)))
               as C'.
             congruence.
        * apply Hlow. now right.
Qed.

Lemma str_max_from_is_max (m : string) (xs : list string) :
  is_max (str_max_from m xs) (m :: xs).
Proof.
    revert m. induction xs as [|x xs IH]; intro m; simpl str_max_from.
    - split; [now left|]. intros a [<- | []]. apply str_ltb_irrefl.
    - destruct (IH (if str_ltb m x then x else m)) as [Hin Hup].
      split.
      + destruct Hin as [E | Hin]; [|now right; right].
        rewrite <- E. destruct (str_ltb m x); [right; now left | now left].
      + intros a [<- | [<- | Ha]].
        * destruct (str_ltb m x) eqn:Hmx.
          -- destruct (str_ltb (str_max_from x xs) m) eqn:C; [|reflexivity].
             pose proof (str_ltb_trans _ _ _ C Hmx) as C'.
             rewrite (Hup x (or_introl eq_refl)) in C'. discriminate.
          -- apply Hup. now left.
        * destruct (str_ltb m x) eqn:Hmx.
          -- apply Hup. now left.
          -- destruct (str_ltb (str_max_from m xs) x) eqn:C; [|reflexivity].
             pose proof (str_le_lt_trans _ _ _ (Hup m (or_introl eq_refl)) C)
               as C'.
             congruence.
        * apply Hup. now right.
Qed.

End StringOrder.

Lemma station_update_as_widen (s : Station.t) :
  Station.update_time_period s
  = Station.set_time_period
      (widen (Station.time_period s) (run_starts s) (run_ends s)) s.
Proof. reflexivity. Qed.

Lemma run_update_as_widen (r : Run.t) :
  Run.update_time_period r
  = Run.set_time_period
      (widen (Run.time_period r) (channel_starts r) (channel_ends r)) r.
Proof. reflexivity. Qed.

Section Widen.
Variables (tp : TimePeriod.t) (starts ends : list string).

Lemma widen_start_nonempty (x : string) (xs : list string) :
  starts = x :: xs ->
  TimePeriod.start (widen tp starts ends)
  = if String.eqb (TimePeriod.start tp) TimePeriod.sentinel
       || str_ltb (str_min_from x xs) (TimePeriod.start tp)
    then str_min_from x xs
    else TimePeriod.start tp.
Proof.
    intros ->. unfold widen.
    destruct (String.eqb (TimePeriod.start tp) TimePeriod.sentinel);
      [|destruct (str_ltb (str_min_from x xs) (TimePeriod.start tp))];
      destruct ends as [|y ys]; simpl;
      repeat match goal with |- context [if ?b then _ else _] =>
               destruct b; simpl end; reflexivity.
Qed.

Lemma widen_end_nonempty (y : string) (ys : list string) :
  ends = y :: ys ->
  TimePeriod.end_ (widen tp starts ends)
  = if String.eqb (TimePeriod.end_ tp) TimePeriod.sentinel
       || str_ltb (TimePeriod.end_ tp) (str_max_from y ys)
    then str_max_from y ys
    else TimePeriod.end_ tp.
Proof.
    intros ->. unfold widen.
    set (tp1 := match starts with
                | [] => tp
                | x :: xs => _
                end).
    assert (E : TimePeriod.end_ tp1 = TimePeriod.end_ tp).
    { subst tp1. destruct starts as [|x xs]; [reflexivity|].
      destruct (String.eqb (TimePeriod.start tp) TimePeriod.sentinel);
        [|destruct (str_ltb (str_min_from x xs) (TimePeriod.start tp))];
        reflexivity. }
    rewrite E.
    destruct (String.eqb (TimePeriod.end_ tp) TimePeriod.sentinel);
      [|destruct (str_ltb (TimePeriod.end_ tp) (str_max_from y ys))];
      simpl; auto.
Qed.

Lemma widen_start_empty :
  starts = [] -> TimePeriod.start (widen tp starts ends) = TimePeriod.start tp.
Proof.
    intros ->. unfold widen. destruct ends as [|y ys]; simpl;
      repeat match goal with |- context [if ?b then _ else _] =>
               destruct b; simpl end; reflexivity.
Qed.

Lemma widen_end_empty :
  ends = [] -> TimePeriod.end_ (widen tp starts ends) = TimePeriod.end_ tp.
Proof.
    intros ->. unfold widen. destruct starts as [|x xs]; simpl;
      repeat match goal with |- context [if ?b then _ else _] =>
               destruct b; simpl end; reflexivity.
Qed.

End Widen.

Lemma time_period_ext (a b : TimePeriod.t) :
  TimePeriod.start a = TimePeriod.start b ->
  TimePeriod.end_ a = TimePeriod.end_ b -> a = b.
Proof. destruct a, b; simpl; congruence. Qed.

Lemma widen_idempotent (tp : TimePeriod.t) (starts ends : list string) :
  widen (widen tp starts ends) starts ends = widen tp starts ends.
Proof.
  apply time_period_ext.
  - destruct starts as [|x xs] eqn:Es.
    + now rewrite !widen_start_empty.
    + rewrite (@widen_start_nonempty (widen tp (x :: xs) ends) _ ends x xs eq_refl).
      rewrite (@widen_start_nonempty tp _ ends x xs eq_refl).
      destruct (String.eqb (TimePeriod.start tp) TimePeriod.sentinel) eqn:E1;
        simpl.
      * rewrite str_ltb_irrefl, orb_false_r.
        now destruct (String.eqb (str_min_from x xs) TimePeriod.sentinel).
      * destruct (str_ltb (str_min_from x xs) (TimePeriod.start tp)) eqn:E2.
        -- rewrite str_ltb_irrefl, orb_false_r.
           now destruct (String.eqb (str_min_from x xs) TimePeriod.sentinel).
        -- now rewrite E1, E2.
  - destruct ends as [|y ys] eqn:Ee.
    + now rewrite !widen_end_empty.
    + rewrite (@widen_end_nonempty (widen tp starts (y :: ys)) starts _ y ys eq_refl).
      rewrite (@widen_end_nonempty tp starts _ y ys eq_refl).
      destruct (String.eqb (TimePeriod.end_ tp) TimePeriod.sentinel) eqn:E1;
        simpl.
      * rewrite str_ltb_irrefl, orb_false_r.
        now destruct (String.eqb (str_max_from y ys) TimePeriod.sentinel).
      * destruct (str_ltb (TimePeriod.end_ tp) (str_max_from y ys)) eqn:E2.
        -- rewrite str_ltb_irrefl, orb_false_r.
           now destruct (String.eqb (str_max_from y ys) TimePeriod.sentinel).
        -- now rewrite E1, E2.
Qed.

Lemma widen_start_spec (tp : TimePeriod.t) (starts ends : list string)
  (x : string) (xs : list string) :
  starts = x :: xs ->
  is_min (str_min_from x xs) starts
  /\ (TimePeriod.start tp = TimePeriod.sentinel
      \/ str_ltb (str_min_from x xs) (TimePeriod.start tp) = true ->
      TimePeriod.start (widen tp starts ends) = str_min_from x xs)
  /\ (TimePeriod.start tp <> TimePeriod.sentinel ->
      str_ltb (str_min_from x xs) (TimePeriod.start tp) = false ->
      TimePeriod.start (widen tp starts ends) = TimePeriod.start tp).
Proof.
  intro E. rewrite (widen_start_nonempty tp ends E).
  split; [rewrite E; apply str_min_from_is_min|]. split.
  - intros [Hs | Hlt].
    + rewrite Hs, String.eqb_refl. reflexivity.
    + rewrite Hlt, orb_true_r. reflexivity.
  - intros Hs Hlt. apply String.eqb_neq in Hs. now rewrite Hs, Hlt.
Qed.

Lemma widen_end_spec (tp : TimePeriod.t) (starts ends : list string)
  (y : string) (ys : list string) :
  ends = y :: ys ->
  is_max (str_max_from y ys) ends
  /\ (TimePeriod.end_ tp = TimePeriod.sentinel
      \/ str_ltb (TimePeriod.end_ tp) (str_max_from y ys) = true ->
      TimePeriod.end_ (widen tp starts ends) = str_max_from y ys)
  /\ (TimePeriod.end_ tp <> TimePeriod.sentinel ->
      str_ltb (TimePeriod.end_ tp) (str_max_from y ys) = false ->
      TimePeriod.end_ (widen tp starts ends) = TimePeriod.end_ tp).
Proof.
  intro E. rewrite (widen_end_nonempty tp starts E).
  split; [rewrite E; apply str_max_from_is_max|]. split.
  - intros [Hs | Hlt].
    + rewrite Hs, String.eqb_refl. reflexivity.
    + rewrite Hlt, orb_true_r. reflexivity.
  - intros Hs Hlt. apply String.eqb_neq in Hs. now rewrite Hs, Hlt.
Qed.

(** C3.  For a station (and likewise for a run) with at least one child,
    [update_time_period] sets the start to the least of the children's
    starts when the current start is the sentinel or is later than it, and
    the end to the greatest of the children's ends when the current end is
    the sentinel or is earlier than it; a bound that is not the sentinel
    and is already at least as wide is kept; the children are not touched;
    and a second call changes nothing. *)
Theorem update_time_period_widens :
  (forall s : Station.t,
      Station.runs (Station.update_time_period s) = Station.runs s
      /\ Station.update_time_period (Station.update_time_period s)
         = Station.update_time_period s
      /\ (forall x xs, run_starts s = x :: xs ->
            is_min (str_min_from x xs) (run_starts s)
            /\ (TimePeriod.start (Station.time_period s) = TimePeriod.sentinel
                \/ str_ltb (str_min_from x xs)
                     (TimePeriod.start (Station.time_period s)) = true ->
                TimePeriod.start
                  (Station.time_period (Station.update_time_period s))
                = str_min_from x xs)
            /\ (TimePeriod.start (Station.time_period s) <> TimePeriod.sentinel ->
                str_ltb (str_min_from x xs)
                  (TimePeriod.start (Station.time_period s)) = false ->
                TimePeriod.start
                  (Station.time_period (Station.update_time_period s))
                = TimePeriod.start (Station.time_period s)))
      /\ (forall y ys, run_ends s = y :: ys ->
            is_max (str_max_from y ys) (run_ends s)
            /\ (TimePeriod.end_ (Station.time_period s) = TimePeriod.sentinel
                \/ str_ltb (TimePeriod.end_ (Station.time_period s))
                     (str_max_from y ys) = true ->
                TimePeriod.end_
                  (Station.time_period (Station.update_time_period s))
                = str_max_from y ys)
            /\ (TimePeriod.end_ (Station.time_period s) <> TimePeriod.sentinel ->
                str_ltb (TimePeriod.end_ (Station.time_period s))
                  (str_max_from y ys) = false ->
                TimePeriod.end_
                  (Station.time_period (Station.update_time_period s))
                = TimePeriod.end_ (Station.time_period s))))
  /\ (forall r : Run.t,
      Run.channels (Run.update_time_period r) = Run.channels r
      /\ Run.update_time_period (Run.update_time_period r)
         = Run.update_time_period r
      /\ (forall x xs, channel_starts r = x :: xs ->
            is_min (str_min_from x xs) (channel_starts r)
            /\ (TimePeriod.start (Run.time_period r) = TimePeriod.sentinel
                \/ str_ltb (str_min_from x xs)
                     (TimePeriod.start (Run.time_period r)) = true ->
                TimePeriod.start (Run.time_period (Run.update_time_period r))
                = str_min_from x xs)
            /\ (TimePeriod.start (Run.time_period r) <> TimePeriod.sentinel ->
                str_ltb (str_min_from x xs)
                  (TimePeriod.start (Run.time_period r)) = false ->
                TimePeriod.start (Run.time_period (Run.update_time_period r))
                = TimePeriod.start (Run.time_period r)))
      /\ (forall y ys, channel_ends r = y :: ys ->
            is_max (str_max_from y ys) (channel_ends r)
            /\ (TimePeriod.end_ (Run.time_period r) = TimePeriod.sentinel
                \/ str_ltb (TimePeriod.end_ (Run.time_period r))
                     (str_max_from y ys) = true ->
                TimePeriod.end_ (Run.time_period (Run.update_time_period r))
                = str_max_from y ys)
            /\ (TimePeriod.end_ (Run.time_period r) <> TimePeriod.sentinel ->
                str_ltb (TimePeriod.end_ (Run.time_period r))
                  (str_max_from y ys) = false ->
                TimePeriod.end_ (Run.time_period (Run.update_time_period r))
                = TimePeriod.end_ (Run.time_period r)))).
Proof.
  split.
  - intro s. split; [reflexivity|]. split.
    + rewrite !station_update_as_widen.
      change (run_starts (Station.set_time_period _ s)) with (run_starts s).
      change (run_ends (Station.set_time_period _ s)) with (run_ends s).
      cbn [Station.time_period Station.set_time_period].
      rewrite widen_idempotent. reflexivity.
    + split; intros x xs E; rewrite station_update_as_widen;
        cbn [Station.time_period Station.set_time_period].
      * exact (widen_start_spec (Station.time_period s) (run_ends s) E).
      * exact (widen_end_spec (Station.time_period s) (run_starts s) E).
  - intro r. split; [reflexivity|]. split.
    + rewrite !run_update_as_widen.
      change (channel_starts (Run.set_time_period _ r)) with (channel_starts r).
      change (channel_ends (Run.set_time_period _ r)) with (channel_ends r).
      cbn [Run.time_period Run.set_time_period].
      rewrite widen_idempotent. reflexivity.
    + split; intros x xs E; rewrite run_update_as_widen;
        cbn [Run.time_period Run.set_time_period].
      * exact (widen_start_spec (Run.time_period r) (channel_ends r) E).
      * exact (widen_end_spec (Run.time_period r) (channel_starts r) E).
Qed.

(** The scenario of the specification: a station at the sentinel with runs
    bounded [t1, t2] and [t3, t4] gets the bounds [t1, t4], and a second
    call is a no-op. *)
Lemma update_time_period_widens_witness :
  (run_starts sample_station
   = ["2020-01-01T00:00:00+00:00"; "2020-01-03T00:00:00+00:00"]%string
   /\ run_ends sample_station
      = ["2020-01-02T00:00:00+00:00"; "2020-01-04T00:00:00+00:00"]%string
   /\ TimePeriod.start (Station.time_period sample_station)
      = TimePeriod.sentinel
   /\ TimePeriod.end_ (Station.time_period sample_station)
      = TimePeriod.sentinel)
  /\ TimePeriod.start
       (Station.time_period (Station.update_time_period sample_station))
     = "2020-01-01T00:00:00+00:00"%string
  /\ TimePeriod.end_
       (Station.time_period (Station.update_time_period sample_station))
     = "2020-01-04T00:00:00+00:00"%string
  /\ Station.update_time_period (Station.update_time_period sample_station)
     = Station.update_time_period sample_station.
Proof.
  split; [repeat split|].
  destruct update_time_period_widens as [HS _].
  destruct (HS sample_station) as (_ & Hidem & Hstart & Hend).
  destruct (Hstart _ _ eq_refl) as (_ & Hs & _).
  destruct (Hend _ _ eq_refl) as (_ & He & _).
  split; [exact (Hs (or_introl eq_refl))|].
  split; [exact (He (or_introl eq_refl))|].
  exact Hidem.
Defined.


(* ================================================================= *)
(** ** Merging two entities: [a + b] *)

Section ExtendFacts.
Context {V : Type}.
Implicit Types (d o : ListDict.t V) (k : pykey).

Lemma contains_home_set k k' (v : V) d :
  ListDict.contains k (ListDict.home_set k' v d)
  = ListDict.contains k d || pykey_eqb k k'.
Proof.
  unfold ListDict.contains at 1. rewrite home_set_keys.
  destruct (ListDict.contains k' d) eqn:E.
  - fold (ListDict.contains k d).
    destruct (pykey_eqb k k') eqn:Ek; [|now rewrite orb_false_r].
    apply pykey_eqb_eq in Ek. subst. now rewrite E.
  - rewrite existsb_app. simpl. now rewrite orb_false_r.
Qed.

Lemma extend_nil d : ListDict.extend d [] = d.
Proof. reflexivity. Qed.

Lemma extend_cons d k (v : V) o :
  ListDict.extend d ((k, v) :: o) = ListDict.extend (ListDict.home_set k v d) o.
Proof. reflexivity. Qed.

Lemma extend_NoDup d o :
  NoDup (ListDict.keys d) -> NoDup (ListDict.keys (ListDict.extend d o)).
Proof.
  revert d. induction o as [|[k v] o IH]; intros d ND; [exact ND|].
  rewrite extend_cons. apply IH. now apply home_set_NoDup.
Qed.

Lemma home_get_absent k d :
  ListDict.contains k d = false -> ListDict.home_get k d = Raise KeyError.
Proof.
  unfold ListDict.contains, ListDict.keys.
  induction d as [|[k' v'] d IH]; simpl; [reflexivity|].
  destruct (pykey_eqb k k'); simpl; [discriminate | exact IH].
Qed.

Lemma extend_get d o k :
  NoDup (ListDict.keys o) ->
  ListDict.home_get k (ListDict.extend d o)
  = if ListDict.contains k o then ListDict.home_get k o
    else ListDict.home_get k d.
Proof.
  revert d. induction o as [|[k0 v0] o IH]; intros d ND; [reflexivity|].
  rewrite extend_cons. inversion ND as [|? ? Hnotin ND']; subst.
  rewrite IH by exact ND'.
  unfold ListDict.contains at 2. simpl.
  fold (ListDict.contains k o).
  destruct (pykey_eqb k k0) eqn:E; simpl.
  - apply pykey_eqb_eq in E. subst k0.
    destruct (ListDict.contains k o) eqn:C.
    + apply contains_In in C. contradiction.
    + apply home_get_set_same.
  - destruct (ListDict.contains k o); [reflexivity|].
    now apply home_get_set_other.
Qed.

Lemma extend_keys d o :
  NoDup (ListDict.keys o) ->
  ListDict.keys (ListDict.extend d o)
  = ListDict.keys d
    ++ filter (fun k => negb (ListDict.contains k d)) (ListDict.keys o).
Proof.
  revert d. induction o as [|[k0 v0] o IH]; intros d ND.
  - simpl. now rewrite app_nil_r.
  - rewrite extend_cons. inversion ND as [|? ? Hnotin ND']; subst.
    rewrite IH by exact ND'. rewrite home_set_keys. simpl.
    assert (Hf : filter
                   (fun k => negb (ListDict.contains k (ListDict.home_set k0 v0 d)))
                   (ListDict.keys o)
                 = filter (fun k => negb (ListDict.contains k d))
                     (ListDict.keys o)).
    { apply filter_ext_in. intros k Hk. rewrite contains_home_set.
      destruct (pykey_eqb k k0) eqn:E; [|now rewrite orb_false_r].
      apply pykey_eqb_eq in E. subst. contradiction. }
    rewrite Hf. destruct (ListDict.contains k0 d); simpl; [reflexivity|].
    now rewrite <- app_assoc.
Qed.

End ExtendFacts.

(** C5 (as amended).  [Station + Station]: the runs of [b] are absorbed
    through [ListDict.extend]: a run of [b] whose key is already in [a]
    overwrites that entry where it stands, the other runs of [b] follow in
    their order, so the keys stay free of duplicates; every key of [b]
    then holds [b]'s run and every other key of [a] its old one; the
    result is [a] with only its runs changed.  [Run + Run]: the channels
    of [b] are appended to the Python list of [a]; nothing is overwritten.
    An operand of another type raises [TypeError] in both. *)
Theorem add_absorbs_children :
  (forall a b : Station.t,
      NoDup (ListDict.keys (Station.runs a)) ->
      NoDup (ListDict.keys (Station.runs b)) ->
      exists a',
        Station.__add__ a (IsInstance b) = Ok a'
        /\ a' = Station.set_runs (Station.runs a') a
        /\ ListDict.keys (Station.runs a')
           = ListDict.keys (Station.runs a)
             ++ filter (fun k => negb (ListDict.contains k (Station.runs a)))
                  (ListDict.keys (Station.runs b))
        /\ NoDup (ListDict.keys (Station.runs a'))
        /\ forall k,
             ListDict.home_get k (Station.runs a')
             = if ListDict.contains k (Station.runs b)
               then ListDict.home_get k (Station.runs b)
               else ListDict.home_get k (Station.runs a))
  /\ (forall (a : Station.t) (type_name : string),
        Station.__add__ a (NotInstance type_name) = Raise TypeError)
  /\ (forall a b : Run.t,
        Run.__add__ a (IsInstance b)
        = Ok (Run.set_channels (Run.channels a ++ Run.channels b) a))
  /\ (forall (a : Run.t) (type_name : string),
        Run.__add__ a (NotInstance type_name) = Raise TypeError).
Proof.
  split; [|repeat split].
  intros a b NDa NDb.
  exists (Station.set_runs (ListDict.extend (Station.runs a) (Station.runs b)) a).
  split; [reflexivity|]. split; [reflexivity|].
  cbn [Station.runs Station.set_runs].
  split; [now apply extend_keys|].
  split; [now apply extend_NoDup|].
  intro k. now apply extend_get.
Qed.

(** Two stations that share the run ["b"]: the sum keeps three keys and
    ["b"] holds the run of the right operand. *)
Lemma add_absorbs_children_witness :
  (NoDup (ListDict.keys (Station.runs sample_station))
   /\ NoDup [Some "b"%string; Some "c"%string])
  /\ exists a',
      Station.__add__ sample_station
        (IsInstance
           (Station.set_runs
              [ (Some "b"%string, sample_run "b" "2021" "2022");
                (Some "c"%string, sample_run "c" "2023" "2024") ]
              Station.new)) = Ok a'
      /\ ListDict.keys (Station.runs a')
         = [Some "a"%string; Some "b"%string; Some "c"%string]
      /\ ListDict.home_get (Some "b"%string) (Station.runs a')
         = Ok (sample_run "b" "2021" "2022").
Proof.
  assert (ND1 : NoDup (ListDict.keys (Station.runs sample_station))).
  { repeat constructor; simpl; intuition discriminate. }
  assert (ND2 : NoDup [Some "b"%string; Some "c"%string]).
  { repeat constructor; simpl; intuition discriminate. }
  split; [split; assumption|].
  destruct add_absorbs_children as [HS _].
  destruct (HS sample_station
              (Station.set_runs
                 [ (Some "b"%string, sample_run "b" "2021" "2022");
                   (Some "c"%string, sample_run "c" "2023" "2024") ]
                 Station.new) ND1 ND2)
    as (a' & Hadd & _ & Hkeys & _ & Hget).
  exists a'. split; [exact Hadd|]. split; [exact Hkeys|].
  exact (Hget (Some "b"%string)).
Defined.

(** C5, counterexample.  Adding two runs that both hold an ["ex"] channel
    leaves two ["ex"] entries in the channel list: the child of [a] is not
    overwritten and the keys are not free of duplicates. *)
Lemma run_add_keeps_duplicates_counterexample :
  let a := Run.set_channels [sample_channel Channel.Electric "ex"] Run.new in
  let c := Channel.set_dipole_length (Some 50%Q)
             (sample_channel Channel.Electric "ex") in
  let b := Run.set_channels [c] Run.new in
  exists a',
    Run.__add__ a (IsInstance b) = Ok a'
    /\ Run.channels a' = [sample_channel Channel.Electric "ex"; c]
    /\ Run.channels_recorded_all a' = [Some "ex"%string; Some "ex"%string]
    /\ ~ NoDup (Run.channels_recorded_all a').
Proof.
  cbv zeta. eexists. split; [reflexivity|].
  split; [reflexivity|]. split; [reflexivity|].
  intro ND. inversion ND as [|? ? Hnotin _]. apply Hnotin. now left.
Qed.


(* ================================================================= *)
(** ** Adding a child: [Station.add_run] and [Run.add_channel] *)

Section HomeSetAgain.
Context {V : Type}.
Implicit Types (d : ListDict.t V) (k : pykey) (v : V).

Lemma home_get_contains k v d :
  ListDict.home_get k d = Ok v ->
  existsb (fun k' => pykey_eqb k' k) (ListDict.keys d) = true.
Proof.
  induction d as [|[k' v'] d IH]; simpl; [discriminate|].
  rewrite (pykey_eqb_sym k' k).
  destruct (pykey_eqb k k'); simpl; [reflexivity | exact IH].
Qed.

Lemma existsb_flip k d :
  existsb (fun k' => pykey_eqb k' k) (ListDict.keys d) = ListDict.contains k d.
Proof.
  unfold ListDict.contains.
  induction (ListDict.keys d) as [|k' ks IH]; simpl; [reflexivity|].
  now rewrite IH, (pykey_eqb_sym k' k).
Qed.

Lemma contains_home_get k d :
  ListDict.contains k d = true -> exists v, ListDict.home_get k d = Ok v.
Proof.
  unfold ListDict.contains, ListDict.keys.
  induction d as [|[k' v'] d IH]; simpl; [discriminate|].
  destruct (pykey_eqb k k'); simpl; [now exists v' | exact IH].
Qed.

End HomeSetAgain.

Lemma getitem_str (V : Type) (d : ListDict.t V) (k : string) :
  ListDict.__getitem__ d (ListDict.IStr k) = ListDict.home_get (Some k) d.
Proof.
  unfold ListDict.__getitem__.
  destruct (ListDict.home_get (Some k) d) as [v|[]]; reflexivity.
Qed.

Lemma has_run_contains (s : Station.t) (k : pykey) :
  Station.has_run s k = ListDict.contains k (Station.runs s).
Proof. apply existsb_flip. Qed.

Section AddRun.
Variable Base_update : Run.t -> Run.t -> Run.t.


Lemma add_run_new (s : Station.t) (r : Run.t) :
  Station.has_run s (Run.id r) = false ->
  Station.add_run Base_update s r
  = Ok (Station.set_runs (Station.runs s ++ [(Run.id r, r)]) s, []).
Proof.
  intro Hno. unfold Station.add_run. rewrite Hno.
  rewrite append_as_home_set. cbn [bind].
  unfold derived_key. cbn [attr_id Run_PyObject].
  rewrite home_set_absent; [reflexivity|].
  now rewrite <- has_run_contains.
Qed.

End AddRun.

Section AddChannel.
Implicit Types (l : list Channel.t) (c : Channel.t) (r : Run.t).

Lemma list_index_none (v : pykey) (xs : list pykey) :
  existsb (fun k => pykey_eqb k v) xs = false -> list_index v xs = None.
Proof.
  induction xs as [|x xs IH]; simpl; [reflexivity|].
  destruct (pykey_eqb x v); simpl; [discriminate|].
  intro E. now rewrite IH.
Qed.

Lemma channel_index_eq r (comp : pykey) :
  Run.channel_index r comp = list_index comp (Run.channels_recorded_all r).
Proof.
  unfold Run.channel_index, Run.has_channel.
  destruct (existsb _ _) eqn:E; [reflexivity|].
  symmetry. now apply list_index_none.
Qed.

Lemma list_set_at_index l c (i : nat) :
  list_index (Channel.component c) (map Channel.component l) = Some i ->
  map Channel.component (list_set l i c) = map Channel.component l
  /\ nth_error (list_set l i c) i = Some c
  /\ List.length (list_set l i c) = List.length l
  /\ list_set (list_set l i c) i c = list_set l i c.
Proof.
  revert i. induction l as [|x l IH]; intro i; simpl; [discriminate|].
  destruct (pykey_eqb (Channel.component x) (Channel.component c)) eqn:E.
  - intros [= <-]. simpl. apply pykey_eqb_eq in E. now rewrite E.
  - destruct (list_index _ _) as [n|] eqn:Hn; [|discriminate].
    intros [= <-]. simpl. destruct (IH n eq_refl) as (H1 & H2 & H3 & H4).
    now rewrite H1, H2, H3, H4.
Qed.


Lemma add_channel_existing r c (i : nat) :
  Run.channel_index r (Channel.component c) = Some i ->
  Run.add_channel r c
  = (Run.set_channels (list_set (Run.channels r) i c) r, []).
Proof. intro E. unfold Run.add_channel. now rewrite E. Qed.

Lemma add_channel_new r c :
  Run.channel_index r (Channel.component c) = None ->
  Run.add_channel r c = (Run.set_channels (Run.channels r ++ [c]) r, []).
Proof. intro E. unfold Run.add_channel. now rewrite E. Qed.


End AddChannel.





(* ================================================================= *)
(** ** The named channel accessors of a run *)

Lemma cls_eqb_refl (k : Channel.cls) : Channel.cls_eqb k k = true.
Proof. now destruct k. Qed.

Lemma add_channel_stores (r : Run.t) (c : Channel.t) :
  In c (Run.channels (fst (Run.add_channel r c))).
Proof.
  destruct (Run.channel_index r (Channel.component c)) as [i|] eqn:E.
  - rewrite (add_channel_existing _ _ E). cbn [fst Run.channels Run.set_channels].
    rewrite channel_index_eq in E.
    destruct (list_set_at_index _ _ E) as (_ & H2 & _).
    exact (nth_error_In _ _ H2).
  - rewrite (add_channel_new _ _ E). cbn [fst Run.channels Run.set_channels].
    apply in_or_app. right. now left.
Qed.

(** A channel of the accessor's class whose component, lowered, is the
    accessor's name is accepted by every setter and stored. *)
Lemma setter_accepts_named (a : Run.accessor) (r : Run.t) (value : Channel.t)
  (comp : string) :
  Channel.class value = Run.accessor_class a ->
  Channel.component value = Some comp ->
  lower comp = Run.accessor_name a ->
  Run.setter a r value = Ok (fst (Run.add_channel r value))
  /\ In value (Run.channels (fst (Run.add_channel r value))).
Proof.
  intros Hc Hcomp Hl. split; [|apply add_channel_stores].
  destruct a; cbn [Run.setter]; unfold Run.component_setter, Run.temperature_setter;
    rewrite Hc, Hcomp, Hl; reflexivity.
Qed.

(** A channel of the accessor's class whose component is unset is accepted
    by the setters of ex, ey, hx, hy and hz. *)
Lemma setter_accepts_unset (a : Run.accessor) (r : Run.t) (value : Channel.t) :
  a <> Run.temperature ->
  Channel.class value = Run.accessor_class a ->
  Channel.component value = None ->
  Run.setter a r value = Ok (fst (Run.add_channel r value))
  /\ In value (Run.channels (fst (Run.add_channel r value))).
Proof.
  intros Ha Hc Hcomp. split; [|apply add_channel_stores].
  destruct a; try contradiction; cbn [Run.setter];
    unfold Run.component_setter; rewrite Hc, Hcomp; reflexivity.
Qed.

(** A channel of the accessor's class with another component is refused
    with [ValueError] by every setter; the run is not touched. *)
Lemma setter_rejects_other_name (a : Run.accessor) (r : Run.t)
  (value : Channel.t) (comp : string) :
  Channel.class value = Run.accessor_class a ->
  Channel.component value = Some comp ->
  lower comp <> Run.accessor_name a ->
  Run.setter a r value = Raise ValueError.
Proof.
  intros Hc Hcomp Hl. apply String.eqb_neq in Hl.
  destruct a; cbn [Run.setter]; unfold Run.component_setter, Run.temperature_setter;
    rewrite Hc, Hcomp; cbn; cbn in Hl; rewrite Hl; reflexivity.
Qed.

(** A channel of another class is refused with [ValueError]. *)
Lemma setter_rejects_other_class (a : Run.accessor) (r : Run.t)
  (value : Channel.t) :
  Channel.class value <> Run.accessor_class a ->
  Run.setter a r value = Raise ValueError.
Proof.
  intro Hc.
  assert (E : Channel.cls_eqb (Channel.class value) (Run.accessor_class a)
              = false).
  { destruct (Channel.class value), a; simpl in *; try reflexivity;
      exfalso; now apply Hc. }
  destruct a; cbn [Run.setter]; unfold Run.component_setter, Run.temperature_setter;
    cbn [Run.accessor_class] in *; rewrite E; reflexivity.
Qed.

(** C8, the code at the failing input.  A freshly constructed channel of
    the accessor's class, its component unset, is stored by the setters of
    ex, ey, hx, hy and hz, and makes the setter of temperature raise
    [AttributeError]. *)
Theorem setter_of_unset_component (r : Run.t) (a : Run.accessor) :
  match a with
  | Run.temperature =>
      Run.setter a r (Channel.new (Run.accessor_class a))
      = Raise AttributeError
  | _ =>
      Run.setter a r (Channel.new (Run.accessor_class a))
      = Ok (fst (Run.add_channel r (Channel.new (Run.accessor_class a))))
      /\ In (Channel.new (Run.accessor_class a))
            (Run.channels
               (fst (Run.add_channel r (Channel.new (Run.accessor_class a)))))
  end.
Proof.
  destruct a; try (apply setter_accepts_unset; [discriminate | reflexivity ..]).
  reflexivity.
Qed.


(* ================================================================= *)
(** ** The transcoder: from the station to the document and back *)

Lemma magnetic_loop_missing (r : Run.t) (comp : Run.accessor)
  (rest : list Run.accessor) (st : EMTFXML.scan) :
  Run.getter comp r = None ->
  EMTFXML.magnetic_loop r (comp :: rest) st = Raise AttributeError.
Proof.
  intro E. cbn [EMTFXML.magnetic_loop]. rewrite E. reflexivity.
Qed.







Section Getter.
Variable Base_update : Run.t -> Run.t -> Run.t.
Variable get_attr_from_name : EMTFXML.t -> string -> option string.






End Getter.

Lemma count_char_split (c sep : ascii) (s : string) :
  count_char c s = 0%nat ->
  Forall (fun tok => count_char c tok = 0%nat) (split_on sep s).
Proof.
  induction s as [|a s IH]; cbn [count_char split_on]; intro H.
  - now repeat constructor.
  - destruct (Ascii.eqb a c) eqn:Eac; [discriminate|]. cbn in H.
    specialize (IH H).
    destruct (Ascii.eqb a sep).
    + constructor; [reflexivity | exact IH].
    + destruct (split_on sep s) as [|tok toks].
      * constructor; [|constructor]. cbn. now rewrite Eac.
      * inversion IH as [|? ? Htok Htoks]; subst.
        constructor; [|exact Htoks]. cbn. now rewrite Eac.
Qed.

Section Setter.
Variable set_attr_from_name : string -> string -> EMTFXML.t -> result EMTFXML.t.




Lemma free_text_accepted (c : string) :
  count_char ":" c = 0%nat ->
  Forall (comment_accepted set_attr_from_name) (split_on ";" c).
Proof.
  intro H. eapply Forall_impl; [|exact (count_char_split ":" ";" c H)].
  intros tok Htok. now left.
Qed.



End Setter.

Lemma write_form (e : EMTFXML.t) :
  exists l1 l2,
    EMTFXML.write e
    = Ok (EMTFXML.set_data_types_list l2 (EMTFXML.set_estimates_list l1 e)).
Proof.
  unfold EMTFXML.write, EMTFXML._get_statistical_estimates,
    EMTFXML._get_data_types.
  rewrite (@estimate_block_eq _ _ "variance" EMTFXML.variance_estimate)
    by reflexivity.
  cbn [bind].
  rewrite (@estimate_block_eq _ _ "inverse_signal_power"
             EMTFXML.inverse_signal_power_estimate) by reflexivity.
  cbn [bind].
  rewrite (@estimate_block_eq _ _ "residual_covariance"
             EMTFXML.residual_covariance_estimate) by reflexivity.
  cbn [bind].
  rewrite (@data_type_block_eq _ "impedance" EMTFXML.impedance_data_type)
    by reflexivity.
  cbn [bind].
  rewrite (@data_type_block_eq _ "tipper" EMTFXML.tipper_data_type)
    by reflexivity.
  destruct e. cbn. do 2 eexists. reflexivity.
Qed.




Section PeriodRange.

Lemma fold_min_spec (xs : list Q) : forall x,
  let m := fold_left (fun m y => if Qle_bool m y then m else y) xs x in
  In m (x :: xs) /\ forall y, In y (x :: xs) -> (m <= y)%Q.
Proof.
  induction xs as [|z xs IH]; intros x m.
  - split; [now left|]. intros y [<- | []]. apply Qle_refl.
  - unfold m. simpl fold_left.
    destruct (Qle_bool x z) eqn:E.
    + destruct (IH x) as (Hin & Hle). split.
      * destruct Hin as [H | H]; [left; exact H | right; right; exact H].
      * intros y [<- | [<- | Hy]].
        -- apply Hle. now left.
        -- apply Qle_trans with x; [apply Hle; now left|].
           now apply Qle_bool_iff.
        -- apply Hle. now right.
    + destruct (IH z) as (Hin & Hle). split.
      * right. exact Hin.
      * intros y [<- | [<- | Hy]].
        -- apply Qle_trans with z; [apply Hle; now left|].
           apply Qlt_le_weak. apply Qnot_le_lt. intro H.
           apply Qle_bool_iff in H. congruence.
        -- apply Hle. now left.
        -- apply Hle. now right.
Qed.

Lemma fold_max_spec (xs : list Q) : forall x,
  let m := fold_left (fun m y => if Qle_bool y m then m else y) xs x in
  In m (x :: xs) /\ forall y, In y (x :: xs) -> (y <= m)%Q.
Proof.
  induction xs as [|z xs IH]; intros x m.
  - split; [now left|]. intros y [<- | []]. apply Qle_refl.
  - unfold m. simpl fold_left.
    destruct (Qle_bool z x) eqn:E.
    + destruct (IH x) as (Hin & Hle). split.
      * destruct Hin as [H | H]; [left; exact H | right; right; exact H].
      * intros y [<- | [<- | Hy]].
        -- apply Hle. now left.
        -- apply Qle_trans with x; [|apply Hle; now left].
           now apply Qle_bool_iff.
        -- apply Hle. now right.
    + destruct (IH z) as (Hin & Hle). split.
      * right. exact Hin.
      * intros y [<- | [<- | Hy]].
        -- apply Qle_trans with z; [|apply Hle; now left].
           apply Qlt_le_weak. apply Qnot_le_lt. intro H.
           apply Qle_bool_iff in H. congruence.
        -- apply Hle. now left.
        -- apply Hle. now right.
Qed.

End PeriodRange.

Section Carried.












End Carried.

Section RoundTrip.
Variable Base_update : Run.t -> Run.t -> Run.t.
Variable set_attr_from_name : string -> string -> EMTFXML.t -> result EMTFXML.t.
Variable get_attr_from_name : EMTFXML.t -> string -> option string.
Variable product_id_text : Station.t -> string.
Variable File : Type.
Variable to_file : EMTFXML.t -> result File.
Variable from_file : File -> result EMTFXML.t.
Variable tol : Q.


End RoundTrip.





(* ================================================================= *)
(** ** Missing channels on write *)

Lemma electric_records_raises (comp : Run.accessor) (c : option Channel.t)
  (e : PyError) :
  EMTFXML.electric_records comp c = Raise e -> e = AttributeError.
Proof.
  unfold EMTFXML.electric_records, Channel.get_dipole_length,
    Channel.get_positive, Channel.get_negative.
  destruct c as [ch|]; [|now intros [= <-]].
  destruct (Channel.class ch); cbn; intro H; try discriminate;
    now injection H as <-.
Qed.

(** The loop over ex and ey always completes. *)
Lemma electric_loop_total (r : Run.t) (comps : list Run.accessor) :
  forall st, exists st', EMTFXML.electric_loop r comps st = Ok st'.
Proof.
  induction comps as [|comp rest IH]; intro st; cbn [EMTFXML.electric_loop].
  - now exists st.
  - destruct (EMTFXML.electric_records comp (Run.getter comp r))
      as [[dp ch_out]|e] eqn:E; cbn [bind try_except].
    + apply IH.
    + rewrite (electric_records_raises _ _ E). cbn [bind]. apply IH.
Qed.

(** C10, the code at the failing input.  A station whose run holds ex and
    ey only makes the setter of [station_metadata] raise [AttributeError]:
    whenever the channel of a magnetic component the loop reaches is
    missing, the miss is caught and logged inside the [try], and the test
    that follows the [try] reads the sensor of the missing channel
    outside any handler.  A missing ex or ey is logged and skipped. *)
Theorem setter_fails_on_missing_magnetic :
  (forall set_attr_from_name,
      EMTFXML.station_metadata_setter set_attr_from_name EMTFXML.new
        station_without_magnetics = Raise AttributeError)
  /\ (forall (r : Run.t) (comp : Run.accessor) (rest : list Run.accessor)
             (st : EMTFXML.scan),
        match Run.getter comp r with
        | None =>
            EMTFXML.magnetic_loop r (comp :: rest) st = Raise AttributeError
        | Some _ => True
        end)
  /\ (forall (r : Run.t) (comp : Run.accessor) (rest : list Run.accessor)
             (st : EMTFXML.scan),
        match Run.getter comp r with
        | None =>
            EMTFXML.electric_loop r (comp :: rest) st
            = EMTFXML.electric_loop r rest
                (EMTFXML.mkScan (EMTFXML.s_fn st) (EMTFXML.s_emtf st)
                   (EMTFXML.s_log st
                    ++ [EMTFXML.did_not_find (Run.accessor_name comp)]))
        | Some _ => True
        end).
Proof.
  split; [reflexivity|]. split; intros r comp rest st.
  - destruct (Run.getter comp r) eqn:E; [exact I|].
    now apply magnetic_loop_missing.
  - destruct (Run.getter comp r) eqn:E; [exact I|].
    cbn [EMTFXML.electric_loop]. rewrite E. reflexivity.
Qed.

(* ================================================================= *)
(** * Further properties *)

(* ================================================================= *)
(** ** [ListDict]: positions, keys and lookups *)
Section Positions.
Context {V : Type}.
Implicit Types (d : ListDict.t V) (k : pykey) (v : V).

Lemma index_from_nth k (ks : list pykey) (m n : nat) :
  ListDict.index_from k ks m = Ok n ->
  (m <= n)%nat /\ nth_error ks (n - m) = Some k.
Proof.
  revert m. induction ks as [|k' ks IH]; intro m; simpl; [discriminate|].
  destruct (pykey_eqb k' k) eqn:E.
  - intros [= <-]. rewrite Nat.sub_diag. apply pykey_eqb_eq in E.
    subst. now split.
  - intro H. apply IH in H. destruct H as [Hle Hn]. split; [lia|].
    replace (n - m)%nat with (S (n - S m)) by lia. exact Hn.
Qed.

Lemma nth_index_from k (ks : list pykey) (m n : nat) :
  NoDup ks -> nth_error ks n = Some k ->
  ListDict.index_from k ks m = Ok (m + n)%nat.
Proof.
  intro ND. revert m n. induction ND as [|k' ks Hnotin ND IH]; intros m n.
  - destruct n; discriminate.
  - destruct n as [|n]; simpl.
    + intros [= ->]. now rewrite pykey_eqb_refl, Nat.add_0_r.
    + intro Hn. destruct (pykey_eqb k' k) eqn:E.
      * apply pykey_eqb_eq in E. subst. apply nth_error_In in Hn.
        contradiction.
      * rewrite (IH (S m) n Hn). f_equal. lia.
Qed.

Lemma key_from_index_nth d (i : Z) k :
  ListDict._get_key_from_index d i = Ok k
  <-> (0 <= i)%Z /\ nth_error (ListDict.keys d) (Z.to_nat i) = Some k.
Proof.
  unfold ListDict._get_key_from_index.
  destruct (i <? 0)%Z eqn:E.
  - apply Z.ltb_lt in E. split; [discriminate | intros [H _]; lia].
  - apply Z.ltb_ge in E.
    destruct (nth_error (ListDict.keys d) (Z.to_nat i)) as [k'|].
    + split; [intros [= <-]; now split | intros [_ [= <-]]; reflexivity].
    + split; [discriminate | intros [_ H]; discriminate].
Qed.

Lemma key_from_index_out_of_range d (i : Z) :
  (i < 0 \/ Z.of_nat (ListDict.len d) <= i)%Z ->
  ListDict._get_key_from_index d i = Raise KeyError.
Proof.
  intro H. unfold ListDict._get_key_from_index.
  destruct (i <? 0)%Z eqn:E; [reflexivity|]. apply Z.ltb_ge in E.
  destruct H as [H | H]; [lia|].
  assert (Hn : nth_error (ListDict.keys d) (Z.to_nat i) = None).
  { apply nth_error_None. unfold ListDict.keys, ListDict.len in *.
    rewrite length_map. lia. }
  now rewrite Hn.
Qed.

Lemma nth_error_keys d (n : nat) k v :
  nth_error d n = Some (k, v) -> nth_error (ListDict.keys d) n = Some k.
Proof.
  intro H. unfold ListDict.keys. rewrite nth_error_map, H. reflexivity.
Qed.

Lemma home_get_at d (n : nat) k v :
  NoDup (ListDict.keys d) -> nth_error d n = Some (k, v) ->
  ListDict.home_get k d = Ok v.
Proof.
  revert n. induction d as [|[k' v'] d IH]; intros n ND Hn.
  - destruct n; discriminate.
  - simpl in ND. inversion ND as [|? ? Hnotin ND']; subst.
    destruct n as [|n]; simpl in *.
    + injection Hn as -> ->. now rewrite pykey_eqb_refl.
    + destruct (pykey_eqb k k') eqn:E.
      * apply pykey_eqb_eq in E. subst k'. exfalso. apply Hnotin.
        apply nth_error_In in Hn. apply (in_map fst) in Hn. exact Hn.
      * exact (IH n ND' Hn).
Qed.

Lemma home_set_at d (n : nat) k v :
  NoDup (ListDict.keys d) -> nth_error (ListDict.keys d) n = Some k ->
  nth_error (ListDict.home_set k v d) n = Some (k, v).
Proof.
  revert n. induction d as [|[k' v'] d IH]; intros n ND Hn.
  - destruct n; discriminate.
  - simpl in ND. inversion ND as [|? ? Hnotin ND']; subst.
    destruct n as [|n]; simpl in *.
    + injection Hn as ->. now rewrite pykey_eqb_refl.
    + destruct (pykey_eqb k k') eqn:E.
      * apply pykey_eqb_eq in E. subst k'. exfalso. apply Hnotin.
        exact (nth_error_In _ _ Hn).
      * simpl. exact (IH n ND' Hn).
Qed.

End Positions.

(** X1.  [ListDict] lookups by position and by key.  In a collection with
    unique keys, the entry at position [i] is found both ways:
    [_get_key_from_index] gives its key, [_get_index_from_key] gives [i]
    back, and [d[i]] and [d[key]] return the same value (a [None] key can
    only be reached by position: [d[None]] raises [TypeError]). *)
Theorem position_and_key_agree {V : Type} (d : ListDict.t V) (i : Z)
  (k : pykey) (v : V) :
  NoDup (ListDict.keys d) ->
  (0 <= i)%Z ->
  nth_error (ListDict.items d) (Z.to_nat i) = Some (k, v) ->
  ListDict._get_key_from_index d i = Ok k
  /\ ListDict._get_index_from_key d k = Ok (Z.to_nat i)
  /\ ListDict.__getitem__ d (ListDict.IInt i) = Ok v
  /\ ListDict.__getitem__ d (ListDict.index_of_pykey k)
     = match k with Some _ => Ok v | None => Raise TypeError end.
Proof.
  intros ND Hi Hn. unfold ListDict.items in Hn.
  assert (Hk : ListDict._get_key_from_index d i = Ok k).
  { apply key_from_index_nth. split; [exact Hi|]. exact (nth_error_keys _ _ Hn). }
  assert (Hg : ListDict.home_get k d = Ok v) by exact (home_get_at _ _ ND Hn).
  split; [exact Hk|]. split.
  - unfold ListDict._get_index_from_key.
    exact (@nth_index_from k (ListDict.keys d) 0 (Z.to_nat i) ND
             (nth_error_keys _ _ Hn)).
  - split.
    + unfold ListDict.__getitem__. rewrite Hk. exact Hg.
    + destruct k as [s|]; [|reflexivity]. cbn [ListDict.index_of_pykey].
      rewrite getitem_str. exact Hg.
Qed.

Lemma position_and_key_agree_witness :
  (NoDup (ListDict.keys [(Some "a", 1%nat); (Some "b", 2%nat); (Some "c", 3%nat)])
   /\ (0 <= 1)%Z
   /\ nth_error (ListDict.items [(Some "a", 1%nat); (Some "b", 2%nat); (Some "c", 3%nat)])
        (Z.to_nat 1) = Some (Some "b", 2%nat))
  /\ ListDict.__getitem__ [(Some "a", 1%nat); (Some "b", 2%nat); (Some "c", 3%nat)]
       (ListDict.IInt 1) = Ok 2%nat
  /\ ListDict.__getitem__ [(Some "a", 1%nat); (Some "b", 2%nat); (Some "c", 3%nat)]
       (ListDict.IStr "b") = Ok 2%nat.
Proof.
  assert (ND : NoDup (ListDict.keys
                        [(Some "a", 1%nat); (Some "b", 2%nat); (Some "c", 3%nat)])).
  { repeat constructor; simpl; intuition discriminate. }
  split; [split; [exact ND | split; [discriminate | reflexivity]]|].
  destruct (@position_and_key_agree nat
              [(Some "a", 1%nat); (Some "b", 2%nat); (Some "c", 3%nat)]
              1%Z (Some "b") 2%nat ND) as (_ & _ & H1 & H2);
    [discriminate | reflexivity |].
  split; [exact H1 | exact H2].
Defined.

(** X2.  [ListDict.__getitem__], failures.  An integer that is negative or
    not below the length raises [KeyError] (there is no counting from the
    end), a string that is not a key raises [KeyError], and an index that
    is neither a string nor an integer raises [TypeError]. *)
Theorem getitem_failures {V : Type} (d : ListDict.t V) :
  (forall i : Z,
      (i < 0 \/ Z.of_nat (ListDict.len d) <= i)%Z ->
      ListDict.__getitem__ d (ListDict.IInt i) = Raise KeyError)
  /\ (forall s : string,
        ListDict.contains (Some s) d = false ->
        ListDict.__getitem__ d (ListDict.IStr s) = Raise KeyError)
  /\ ListDict.__getitem__ d ListDict.INone = Raise TypeError.
Proof.
  split; [|split; [|reflexivity]].
  - intros i Hi. unfold ListDict.__getitem__.
    now rewrite key_from_index_out_of_range.
  - intros s Hs. rewrite getitem_str. now apply home_get_absent.
Qed.

Lemma getitem_failures_witness :
  ListDict.__getitem__ [(Some "a", 1%nat)] (ListDict.IInt (-1)) = Raise KeyError
  /\ ListDict.__getitem__ [(Some "a", 1%nat)] (ListDict.IInt 1) = Raise KeyError
  /\ ListDict.__getitem__ [(Some "a", 1%nat)] (ListDict.IStr "b") = Raise KeyError.
Proof.
  destruct (@getitem_failures nat [(Some "a", 1%nat)]) as (Hi & Hs & _).
  split; [apply Hi; left; reflexivity|].
  split; [apply Hi; right; discriminate | apply Hs; reflexivity].
Defined.

(* ================================================================= *)
(** ** [ListDict.remove] *)
Section Remove.
Context {V : Type}.
Implicit Types (d : ListDict.t V) (k : pykey) (v : V).

Lemma home_del_absent k d :
  ListDict.contains k d = false -> ListDict.home_del k d = Raise KeyError.
Proof.
  unfold ListDict.contains, ListDict.keys.
  induction d as [|[k' v'] d IH]; simpl; [reflexivity|].
  destruct (pykey_eqb k k'); simpl; [discriminate|].
  intro H. now rewrite IH.
Qed.

Lemma home_del_at d (n : nat) k v :
  NoDup (ListDict.keys d) -> nth_error d n = Some (k, v) ->
  ListDict.home_del k d = Ok (firstn n d ++ skipn (S n) d).
Proof.
  revert n. induction d as [|[k' v'] d IH]; intros n ND Hn.
  - destruct n; discriminate.
  - simpl in ND. inversion ND as [|? ? Hnotin ND']; subst.
    destruct n as [|n]; simpl in Hn |- *.
    + injection Hn as -> ->. now rewrite pykey_eqb_refl.
    + destruct (pykey_eqb k k') eqn:E.
      * apply pykey_eqb_eq in E. subst k'. exfalso. apply Hnotin.
        apply nth_error_In in Hn. apply (in_map fst) in Hn. exact Hn.
      * rewrite (IH n ND' Hn). reflexivity.
Qed.

Lemma keys_app (a b : ListDict.t V) :
  ListDict.keys (a ++ b) = ListDict.keys a ++ ListDict.keys b.
Proof. apply map_app. Qed.

Lemma NoDup_keys_removed d (n : nat) :
  NoDup (ListDict.keys d) ->
  NoDup (ListDict.keys (firstn n d ++ skipn (S n) d)).
Proof.
  intro ND. rewrite <- (firstn_skipn n d) in ND.
  destruct (skipn n d) as [|kv rest] eqn:E.
  - rewrite (skipn_all2 d) by
      (apply (f_equal (@List.length _)) in E; rewrite length_skipn in E;
       simpl in E; lia).
    rewrite app_nil_r in *. exact ND.
  - assert (Hs : skipn (S n) d = rest).
    { replace (S n) with (1 + n)%nat by reflexivity.
      rewrite <- skipn_skipn, E. reflexivity. }
    rewrite Hs. rewrite keys_app in *. simpl in ND.
    exact (NoDup_remove_1 _ _ _ ND).
Qed.

Lemma removed_at d (n : nat) k v :
  NoDup (ListDict.keys d) -> nth_error d n = Some (k, v) ->
  ListDict.contains k (firstn n d ++ skipn (S n) d) = false
  /\ S (ListDict.len (firstn n d ++ skipn (S n) d)) = ListDict.len d
  /\ forall k', pykey_eqb k' k = false ->
       ListDict.home_get k' (firstn n d ++ skipn (S n) d)
       = ListDict.home_get k' d.
Proof.
  revert n. induction d as [|[k0 v0] d IH]; intros n ND Hn.
  - destruct n; discriminate.
  - simpl in ND. inversion ND as [|? ? Hnotin ND']; subst.
    destruct n as [|n]; simpl in Hn.
    + injection Hn as -> ->. cbn [firstn skipn app].
      split; [|split; [reflexivity|]].
      * destruct (ListDict.contains k d) eqn:C; [|reflexivity].
        apply contains_In in C. contradiction.
      * intros k' Hk'. simpl. now rewrite Hk'.
    + destruct (IH n ND' Hn) as (H1 & H2 & H3).
      cbn [firstn skipn app] in *.
      assert (Hne : pykey_eqb k k0 = false).
      { apply pykey_eqb_neq. intros ->. apply Hnotin.
        apply nth_error_In in Hn. apply (in_map fst) in Hn. exact Hn. }
      split; [|split].
      * unfold ListDict.contains in *. simpl. now rewrite Hne, H1.
      * unfold ListDict.len in *. simpl. now rewrite H2.
      * intros k' Hk'. simpl. destruct (pykey_eqb k' k0); [reflexivity|].
        now apply H3.
Qed.

End Remove.

(** X3.  [ListDict.remove].  Removing the entry at position [i], by that
    position or by its (string) key, leaves the other entries in their
    order: the key is gone, the length drops by one, the keys stay unique
    and every other key keeps its value. *)
Theorem remove_entry {V : Type} (d : ListDict.t V) (i : Z) (k : pykey) (v : V) :
  NoDup (ListDict.keys d) ->
  (0 <= i)%Z ->
  nth_error (ListDict.items d) (Z.to_nat i) = Some (k, v) ->
  let d' := firstn (Z.to_nat i) d ++ skipn (S (Z.to_nat i)) d in
  ListDict.remove d (ListDict.IInt i) = Ok d'
  /\ (forall s, k = Some s -> ListDict.remove d (ListDict.IStr s) = Ok d')
  /\ ListDict.contains k d' = false
  /\ S (ListDict.len d') = ListDict.len d
  /\ NoDup (ListDict.keys d')
  /\ forall k', pykey_eqb k' k = false ->
       ListDict.home_get k' d' = ListDict.home_get k' d.
Proof.
  intros ND Hi Hn d'. unfold ListDict.items in Hn.
  pose proof (@home_del_at V d _ k v ND Hn) as Hdel.
  destruct (@removed_at V d _ k v ND Hn) as (H1 & H2 & H3).
  split.
  - unfold ListDict.remove.
    assert (Hk : ListDict._get_key_from_index d i = Ok k).
    { apply key_from_index_nth. split; [exact Hi|].
      exact (nth_error_keys _ _ Hn). }
    rewrite Hk. exact Hdel.
  - split; [intros s ->; exact Hdel|].
    split; [exact H1|]. split; [exact H2|].
    split; [now apply NoDup_keys_removed | exact H3].
Qed.

(** X4.  [ListDict.remove], failures.  A position that is negative or not
    below the length raises [KeyError], a string that is not a key raises
    [KeyError], and a key that is neither a string nor an integer raises
    [TypeError]. *)
Theorem remove_failures {V : Type} (d : ListDict.t V) :
  (forall i : Z,
      (i < 0 \/ Z.of_nat (ListDict.len d) <= i)%Z ->
      ListDict.remove d (ListDict.IInt i) = Raise KeyError)
  /\ (forall s : string,
        ListDict.contains (Some s) d = false ->
        ListDict.remove d (ListDict.IStr s) = Raise KeyError)
  /\ ListDict.remove d ListDict.INone = Raise TypeError.
Proof.
  split; [|split; [|reflexivity]].
  - intros i Hi. unfold ListDict.remove.
    now rewrite key_from_index_out_of_range.
  - intros s Hs. now apply home_del_absent.
Qed.

Lemma remove_entry_witness :
  let d := [(Some "a", 1%nat); (Some "b", 2%nat); (Some "c", 3%nat)] in
  ListDict.remove d (ListDict.IInt 1) = Ok [(Some "a", 1%nat); (Some "c", 3%nat)]
  /\ ListDict.remove d (ListDict.IStr "b")
     = Ok [(Some "a", 1%nat); (Some "c", 3%nat)].
Proof.
  intro d.
  assert (ND : NoDup (ListDict.keys d)).
  { repeat constructor; simpl; intuition discriminate. }
  destruct (@remove_entry nat d 1%Z (Some "b") 2%nat ND ltac:(lia) eq_refl)
    as (H1 & H2 & _).
  split; [exact H1 | exact (H2 "b" eq_refl)].
Defined.

Lemma remove_failures_witness :
  ListDict.remove [(Some "a", 1%nat)] (ListDict.IInt (-1)) = Raise KeyError
  /\ ListDict.remove [(Some "a", 1%nat)] (ListDict.IInt 1) = Raise KeyError
  /\ ListDict.remove [(Some "a", 1%nat)] (ListDict.IStr "b") = Raise KeyError.
Proof.
  destruct (@remove_failures nat [(Some "a", 1%nat)]) as (Hi & Hs & _).
  split; [apply Hi; left; reflexivity|].
  split; [apply Hi; right; discriminate | apply Hs; reflexivity].
Defined.

(* ================================================================= *)
(** ** [ListDict.__setitem__] at an occupied position *)
(** X5.  [ListDict.__setitem__] at an occupied position.  [d[i] = value]
    stores the value under the key already at position [i], whatever
    [id] or [component] the value carries: the keys and their order are
    unchanged, [d[i]] then returns the value, and every other key keeps
    its value. *)
Theorem setitem_keeps_key_of_position
  {V : Type} `{PyObject V} (d : ListDict.t V) (i : Z) (k : pykey) (value : V) :
  NoDup (ListDict.keys d) ->
  (0 <= i)%Z ->
  nth_error (ListDict.keys d) (Z.to_nat i) = Some k ->
  ListDict.__setitem__ d (ListDict.IInt i) value
  = Ok (ListDict.home_set k value d)
  /\ ListDict.keys (ListDict.home_set k value d) = ListDict.keys d
  /\ nth_error (ListDict.items (ListDict.home_set k value d)) (Z.to_nat i)
     = Some (k, value)
  /\ ListDict.__getitem__ (ListDict.home_set k value d) (ListDict.IInt i)
     = Ok value
  /\ forall k', pykey_eqb k' k = false ->
       ListDict.home_get k' (ListDict.home_set k value d)
       = ListDict.home_get k' d.
Proof.
  intros ND Hi Hn.
  assert (Hk : ListDict._get_key_from_index d i = Ok k)
    by (apply key_from_index_nth; now split).
  assert (Hc : ListDict.contains k d = true)
    by (apply contains_In; exact (nth_error_In _ _ Hn)).
  assert (Hkeys : ListDict.keys (ListDict.home_set k value d) = ListDict.keys d)
    by (now apply home_set_present).
  split; [|split; [exact Hkeys|split; [|split]]].
  - unfold ListDict.__setitem__. rewrite Hk. reflexivity.
  - now apply home_set_at.
  - unfold ListDict.__getitem__.
    assert (Hk' : ListDict._get_key_from_index (ListDict.home_set k value d) i
                  = Ok k)
      by (apply key_from_index_nth; rewrite Hkeys; now split).
    rewrite Hk'. simpl. apply home_get_set_same.
  - intros k' Hk'. now apply home_get_set_other.
Qed.

(* ================================================================= *)
(** ** [ListDict]: the keys stay unique *)
Section UniqueKeys.
Context {V : Type}.
Implicit Types (d o : ListDict.t V) (k : pykey) (v : V).

Lemma home_del_keys k d d' :
  ListDict.home_del k d = Ok d' ->
  forall k', In k' (ListDict.keys d') -> In k' (ListDict.keys d).
Proof.
  revert d'. induction d as [|[k0 v0] d IH]; intros d' Hd; [discriminate|].
  simpl in Hd. destruct (pykey_eqb k k0).
  - injection Hd as <-. intros k' Hin. now right.
  - destruct (ListDict.home_del k d) as [d''|e]; [|discriminate].
    injection Hd as <-. intros k' [Hk | Hin]; [now left | right].
    exact (IH d'' eq_refl k' Hin).
Qed.

Lemma home_del_NoDup k d d' :
  ListDict.home_del k d = Ok d' ->
  NoDup (ListDict.keys d) -> NoDup (ListDict.keys d').
Proof.
  revert d'. induction d as [|[k0 v0] d IH]; intros d' Hd ND; [discriminate|].
  simpl in Hd, ND. inversion ND as [|? ? Hnotin ND']; subst.
  destruct (pykey_eqb k k0).
  - injection Hd as <-. exact ND'.
  - destruct (ListDict.home_del k d) as [d''|e] eqn:E; [|discriminate].
    injection Hd as <-. simpl. constructor; [|now apply IH].
    intro Hin. apply Hnotin. exact (home_del_keys _ _ E _ Hin).
Qed.

Lemma rebuild_NoDup d ks od od' :
  ListDictOps.rebuild d ks od = Ok od' ->
  NoDup (ListDict.keys od) -> NoDup (ListDict.keys od').
Proof.
  revert od. induction ks as [|k ks IH]; intros od Hr ND.
  - injection Hr as <-. exact ND.
  - simpl in Hr. destruct (ListDict.home_get k d) as [v|e]; [|discriminate].
    simpl in Hr. apply (IH _ Hr). now apply home_set_NoDup.
Qed.

Lemma update_from_keys_NoDup o ks d d' :
  ListDictOps.update_from_keys o ks d = Ok d' ->
  NoDup (ListDict.keys d) -> NoDup (ListDict.keys d').
Proof.
  revert d. induction ks as [|k ks IH]; intros d Hr ND.
  - injection Hr as <-. exact ND.
  - simpl in Hr.
    destruct (ListDict.__getitem__ o (ListDict.index_of_pykey k)) as [v|e];
      [|discriminate].
    simpl in Hr. apply (IH _ Hr). now apply home_set_NoDup.
Qed.

Lemma of_items_NoDup (values : list (pykey * V)) :
  NoDup (ListDict.keys (ListDictOps.of_items values)).
Proof. apply extend_NoDup. constructor. Qed.

Lemma extend_disjoint d (l : list (pykey * V)) :
  NoDup (ListDict.keys (d ++ l)) -> ListDict.extend d l = d ++ l.
Proof.
  revert d. induction l as [|[k v] l IH]; intros d ND.
  - now rewrite app_nil_r.
  - rewrite extend_cons.
    assert (Hc : ListDict.contains k d = false).
    { destruct (ListDict.contains k d) eqn:C; [|reflexivity].
      apply contains_In in C. unfold ListDict.keys in ND, C.
      rewrite map_app in ND. simpl in ND.
      apply NoDup_remove_2 in ND. exfalso. apply ND.
      apply in_or_app. now left. }
    rewrite (home_set_absent _ _ _ Hc).
    replace (d ++ (k, v) :: l) with ((d ++ [(k, v)]) ++ l) in *
      by (now rewrite <- app_assoc).
    now apply IH.
Qed.

Lemma of_items_unique (l : list (pykey * V)) :
  NoDup (ListDict.keys l) -> ListDictOps.of_items l = l.
Proof. intro ND. exact (extend_disjoint [] l ND). Qed.

End UniqueKeys.

(** X6.  The keys of a [ListDict] stay unique.  From a collection with
    unique keys, [append], [__setitem__], [remove], [extend], [update],
    [sort] (in place or not) and slicing give collections with unique
    keys. *)
Theorem keys_stay_unique {V : Type} `{PyObject V} (d : ListDict.t V) :
  NoDup (ListDict.keys d) ->
  (forall obj d', ListDict.append d obj = Ok d' -> NoDup (ListDict.keys d'))
  /\ (forall idx value d',
         ListDict.__setitem__ d idx value = Ok d' -> NoDup (ListDict.keys d'))
  /\ (forall key d', ListDict.remove d key = Ok d' -> NoDup (ListDict.keys d'))
  /\ (forall other, NoDup (ListDict.keys (ListDict.extend d other)))
  /\ (forall other d',
         ListDictOps.update d other = Ok d' -> NoDup (ListDict.keys d'))
  /\ (forall inplace d' od,
         ListDictOps.sort d inplace = Ok (d', od) ->
         NoDup (ListDict.keys d')
         /\ forall o, od = Some o -> NoDup (ListDict.keys o))
  /\ (forall sl d',
         ListDictOps.__getitem__slice d sl = Ok d' ->
         NoDup (ListDict.keys d')).
Proof.
  intro ND. split; [|split; [|split; [|split; [|split; [|split]]]]].
  - intros obj d' Ha. rewrite append_as_home_set in Ha. injection Ha as <-.
    now apply home_set_NoDup.
  - intros idx value d' Hs. destruct idx as [s|i|]; simpl in Hs.
    + injection Hs as <-. now apply home_set_NoDup.
    + destruct (try_except _ _ _) as [key|e]; [|discriminate].
      injection Hs as <-. now apply home_set_NoDup.
    + injection Hs as <-. exact ND.
  - intros key d' Hr. destruct key as [s|i|]; simpl in Hr.
    + exact (home_del_NoDup _ _ Hr ND).
    + destruct (ListDict._get_key_from_index d i) as [k|e]; [|discriminate].
      exact (home_del_NoDup _ _ Hr ND).
    + discriminate.
  - intro other. now apply extend_NoDup.
  - intros other d' Hu. destruct other as [o|o|n]; simpl in Hu.
    + exact (update_from_keys_NoDup _ _ _ Hu ND).
    + injection Hu as <-. now apply extend_NoDup.
    + discriminate.
  - intros inplace d' od Hs. unfold ListDictOps.sort in Hs.
    destruct (py_sorted (ListDict.keys d)) as [ks|e];
      [|discriminate].
    simpl in Hs.
    destruct (ListDictOps.rebuild d ks ListDict.empty) as [o'|e] eqn:E;
      [|discriminate].
    assert (NDo : NoDup (ListDict.keys o'))
      by (apply (rebuild_NoDup _ _ _ E); constructor).
    simpl in Hs. destruct inplace; injection Hs as <- <-.
    + split; [exact NDo | discriminate].
    + split; [exact ND | now intros o [= <-]].
  - intros sl d' Hs. unfold ListDictOps.__getitem__slice in Hs.
    destruct (ListDictOps._get_index_slice_from_slice d sl) as [idx|e];
      [|discriminate].
    simpl in Hs. destruct (ListDictOps.list_slice _ _ _ _) as [items|e];
      [|discriminate].
    injection Hs as <-. apply of_items_NoDup.
Qed.

Lemma setitem_keeps_key_of_position_witness :
  let d := [(Some "a", mkItem (Some (Some "a")) None 1);
            (Some "b", mkItem (Some (Some "b")) None 2)] in
  let value := mkItem (Some (Some "z")) None 3 in
  ListDict.__setitem__ d (ListDict.IInt 0) value
  = Ok [(Some "a", value); (Some "b", mkItem (Some (Some "b")) None 2)].
Proof.
  intros d value.
  assert (ND : NoDup (ListDict.keys d)).
  { repeat constructor; simpl; intuition discriminate. }
  exact (proj1 (@setitem_keeps_key_of_position PyItem _ d 0%Z (Some "a") value
                  ND ltac:(lia) eq_refl)).
Defined.

Lemma keys_stay_unique_witness :
  let d := [(Some "a", mkItem (Some (Some "a")) None 1);
            (Some "b", mkItem (Some (Some "b")) None 2)] in
  NoDup (ListDict.keys (ListDict.extend d d)).
Proof.
  intro d.
  assert (ND : NoDup (ListDict.keys d)).
  { repeat constructor; simpl; intuition discriminate. }
  destruct (@keys_stay_unique PyItem _ d ND) as (_ & _ & _ & He & _).
  exact (He d).
Defined.

(* ================================================================= *)
(** ** [ListDict]: slices *)
Section Slices.
Context {A : Type}.

Lemma flat_map_nth_run (xs : list A) (a n : nat) :
  (a + n <= List.length xs)%nat ->
  flat_map (fun i => match nth_error xs (a + i) with
                     | Some x => [x] | None => [] end) (seq 0 n)
  = firstn n (skipn a xs).
Proof.
  revert a xs. induction n as [|n IH]; intros a xs Hlen; [reflexivity|].
  rewrite <- cons_seq, <- seq_shift. simpl flat_map.
  rewrite flat_map_concat_map, map_map, <- flat_map_concat_map.
  rewrite Nat.add_0_r.
  destruct (nth_error xs a) as [x|] eqn:E.
  2:{ apply nth_error_None in E. lia. }
  assert (Hs : skipn a xs = x :: skipn (S a) xs).
  { clear IH Hlen. revert a E. induction xs as [|y ys IHx]; intros a E.
    - destruct a; discriminate.
    - destruct a as [|a]; simpl in *; [now injection E as -> | now apply IHx]. }
  rewrite Hs, firstn_cons. cbn [app]. f_equal.
  rewrite <- (IH (S a) xs) by lia.
  apply flat_map_ext. intro i. now rewrite Nat.add_succ_r.
Qed.

Lemma list_slice_unit (xs : list A) (a b : Z) (step : option Z) :
  (step = None \/ step = Some 1%Z) ->
  (0 <= a <= Z.of_nat (List.length xs))%Z ->
  (0 <= b <= Z.of_nat (List.length xs))%Z ->
  forall start stop,
  ListDictOps.adjust_bound (Z.of_nat (List.length xs)) 1 0 start = a ->
  ListDictOps.adjust_bound (Z.of_nat (List.length xs)) 1
    (Z.of_nat (List.length xs)) stop = b ->
  ListDictOps.list_slice xs start stop step
  = Ok (firstn (Z.to_nat b - Z.to_nat a) (skipn (Z.to_nat a) xs)).
Proof.
  intros Hstep Ha Hb start stop Hsa Hsb.
  unfold ListDictOps.list_slice.
  assert (Hst : match step with None => 1%Z | Some s => s end = 1%Z)
    by (destruct Hstep as [-> | ->]; reflexivity).
  rewrite Hst. cbn [Z.eqb Z.ltb Z.compare]. rewrite Hsa, Hsb.
  unfold ListDictOps.slice_length. cbn [Z.ltb Z.compare].
  f_equal.
  destruct (a <? b)%Z eqn:E.
  - apply Z.ltb_lt in E. rewrite Z.div_1_r.
    replace (Z.to_nat (b - a - 1 + 1)) with (Z.to_nat b - Z.to_nat a)%nat by lia.
    rewrite <- (flat_map_nth_run xs (Z.to_nat a) (Z.to_nat b - Z.to_nat a))
      by lia.
    apply flat_map_ext. intro i.
    replace (Z.to_nat (a + Z.of_nat i * 1)) with (Z.to_nat a + i)%nat by lia.
    reflexivity.
  - apply Z.ltb_ge in E.
    replace (Z.to_nat b - Z.to_nat a)%nat with 0%nat by lia. reflexivity.
Qed.

End Slices.

Lemma resolve_bound_at {V : Type} (d : ListDict.t V) (b : ListDictOps.bound)
  (n default : nat) :
  NoDup (ListDict.keys d) ->
  bound_at d b n default ->
  (n <= ListDict.len d)%nat ->
  forall dz : Z, dz = Z.of_nat default ->
  exists v, ListDictOps.resolve_bound d b = Ok v
            /\ ListDictOps.adjust_bound (Z.of_nat (List.length d)) 1 dz v
               = Z.of_nat n.
Proof.
  intros ND Hb Hn dz ->. unfold bound_at, ListDict.len in *.
  destruct Hb as [[-> ->] | [[-> Hle] | [[-> Hlt] | (s & -> & Hs)]]].
  - exists None. split; reflexivity.
  - exists (Some (Z.of_nat n)). split; [reflexivity|].
    unfold ListDictOps.adjust_bound. cbn [Z.ltb Z.compare].
    destruct (Z.of_nat n <? 0)%Z eqn:E1; [apply Z.ltb_lt in E1; lia|].
    destruct (Z.of_nat (List.length d) <=? Z.of_nat n)%Z eqn:E2;
      [apply Z.leb_le in E2; lia | reflexivity].
  - exists (Some (Z.of_nat n - Z.of_nat (List.length d))%Z).
    split; [reflexivity|].
    unfold ListDictOps.adjust_bound. cbn [Z.ltb Z.compare].
    destruct (Z.of_nat n - Z.of_nat (List.length d) <? 0)%Z eqn:E1;
      [|apply Z.ltb_ge in E1; lia].
    destruct (Z.of_nat n - Z.of_nat (List.length d) + Z.of_nat (List.length d)
              <? 0)%Z eqn:E2; [apply Z.ltb_lt in E2; lia | lia].
  - exists (Some (Z.of_nat n)). split.
    + simpl. unfold ListDict._get_index_from_key.
      rewrite (@nth_index_from (Some s) (ListDict.keys d) 0 n ND Hs).
      reflexivity.
    + assert (n < List.length d)%nat.
      { rewrite <- (length_map fst d). apply nth_error_Some.
        fold (ListDict.keys d). now rewrite Hs. }
      unfold ListDictOps.adjust_bound. cbn [Z.ltb Z.compare].
      destruct (Z.of_nat n <? 0)%Z eqn:E1; [apply Z.ltb_lt in E1; lia|].
      destruct (Z.of_nat (List.length d) <=? Z.of_nat n)%Z eqn:E2;
        [apply Z.leb_le in E2; lia | reflexivity].
Qed.

Lemma NoDup_keys_firstn_skipn {V : Type} (d : ListDict.t V) (a n : nat) :
  NoDup (ListDict.keys d) ->
  NoDup (ListDict.keys (firstn n (skipn a d))).
Proof.
  intro ND. unfold ListDict.keys in *.
  rewrite <- (firstn_skipn a d), map_app in ND.
  apply NoDup_app_remove_l in ND.
  rewrite <- (firstn_skipn n (skipn a d)), map_app in ND.
  exact (NoDup_app_remove_r _ _ ND).
Qed.

Lemma slice_unit_step {V : Type} (d : ListDict.t V)
  (sl : ListDictOps.slice) (a b : nat) :
  NoDup (ListDict.keys d) ->
  bound_at d (ListDictOps.start sl) a 0 ->
  bound_at d (ListDictOps.stop sl) b (ListDict.len d) ->
  (a <= ListDict.len d)%nat -> (b <= ListDict.len d)%nat ->
  ListDictOps.step sl = None \/ ListDictOps.step sl = Some 1%Z ->
  ListDictOps.__getitem__slice d sl = Ok (firstn (b - a) (skipn a d)).
Proof.
  intros ND Ha Hb Hla Hlb Hstep.
  destruct (resolve_bound_at ND Ha Hla (dz := 0%Z) eq_refl) as (va & Hva & Haa).
  destruct (resolve_bound_at ND Hb Hlb (dz := Z.of_nat (List.length d)) eq_refl)
    as (vb & Hvb & Hbb).
  unfold ListDictOps.__getitem__slice, ListDictOps._get_index_slice_from_slice.
  rewrite Hva, Hvb. cbn [bind fst snd]. unfold ListDict.items, ListDict.len in *.
  rewrite (@list_slice_unit _ d (Z.of_nat a) (Z.of_nat b) (ListDictOps.step sl)
             Hstep ltac:(lia) ltac:(lia) va vb Haa Hbb).
  cbn [bind]. rewrite !Nat2Z.id.
  rewrite of_items_unique by (now apply NoDup_keys_firstn_skipn).
  reflexivity.
Qed.

(** X7.  [ListDict.__getitem__] with a slice of step one.  With the start
    bound denoting position [a] and the stop bound position [b] (each left
    out, an integer from the front or from the end, or a key of the
    collection), [d[start:stop]] is the collection of the entries from
    position [a] up to, not including, position [b], in their order; it is
    empty when [b <= a]. *)
Theorem slice_is_contiguous {V : Type} (d : ListDict.t V)
  (sl : ListDictOps.slice) (a b : nat) :
  NoDup (ListDict.keys d) ->
  bound_at d (ListDictOps.start sl) a 0 ->
  bound_at d (ListDictOps.stop sl) b (ListDict.len d) ->
  (a <= ListDict.len d)%nat -> (b <= ListDict.len d)%nat ->
  ListDictOps.step sl = None \/ ListDictOps.step sl = Some 1%Z ->
  ListDictOps.__getitem__slice d sl = Ok (firstn (b - a) (skipn a d))
  /\ NoDup (ListDict.keys (firstn (b - a) (skipn a d))).
Proof.
  intros ND Ha Hb Hla Hlb Hstep. split.
  - now apply slice_unit_step.
  - now apply NoDup_keys_firstn_skipn.
Qed.

Lemma slice_is_contiguous_witness :
  let d := [(Some "a", 1%nat); (Some "b", 2%nat); (Some "c", 3%nat)] in
  ListDictOps.__getitem__slice d
    (ListDictOps.mkSlice (ListDictOps.BStr "a") (ListDictOps.BStr "c") None)
  = Ok [(Some "a", 1%nat); (Some "b", 2%nat)]
  /\ ListDictOps.__getitem__slice d
       (ListDictOps.mkSlice (ListDictOps.BInt (-2)) ListDictOps.BNone None)
     = Ok [(Some "b", 2%nat); (Some "c", 3%nat)].
Proof.
  intro d.
  assert (ND : NoDup (ListDict.keys d)).
  { repeat constructor; simpl; intuition discriminate. }
  split.
  - apply (@slice_is_contiguous nat d _ 0%nat 2%nat ND).
    + right; right; right. exists "a". split; reflexivity.
    + right; right; right. exists "c". split; reflexivity.
    + simpl; lia.
    + simpl; lia.
    + now left.
  - apply (@slice_is_contiguous nat d _ 1%nat 3%nat ND).
    + right; right; left. split; [reflexivity | simpl; lia].
    + left. split; reflexivity.
    + simpl; lia.
    + simpl; lia.
    + now left.
Defined.

Lemma index_from_absent (k : pykey) (ks : list pykey) (n : nat) :
  existsb (pykey_eqb k) ks = false ->
  ListDict.index_from k ks n = Raise KeyError.
Proof.
  revert n. induction ks as [|k' ks IH]; intros n Hc; [reflexivity|].
  simpl in *. rewrite (pykey_eqb_sym k' k).
  destruct (pykey_eqb k k'); [discriminate | now apply IH].
Qed.

(** X8.  [ListDict.__getitem__] with a slice, failures.  A string bound that
    is not a key raises [KeyError], a bound that is neither [None], an
    integer nor a string raises [TypeError] (the start bound is examined
    first), and a step of zero raises [ValueError] once both bounds are
    resolved. *)
Theorem slice_failures {V : Type} (d : ListDict.t V) :
  (forall s stop step,
      ListDict.contains (Some s) d = false ->
      ListDictOps.__getitem__slice d (ListDictOps.mkSlice (ListDictOps.BStr s) stop step)
      = Raise KeyError)
  /\ (forall start a s step,
        ListDictOps.resolve_bound d start = Ok a ->
        ListDict.contains (Some s) d = false ->
        ListDictOps.__getitem__slice d (ListDictOps.mkSlice start (ListDictOps.BStr s) step)
        = Raise KeyError)
  /\ (forall stop step,
        ListDictOps.__getitem__slice d (ListDictOps.mkSlice ListDictOps.BOther stop step)
        = Raise TypeError)
  /\ (forall start a step,
        ListDictOps.resolve_bound d start = Ok a ->
        ListDictOps.__getitem__slice d (ListDictOps.mkSlice start ListDictOps.BOther step)
        = Raise TypeError)
  /\ (forall start stop a b,
        ListDictOps.resolve_bound d start = Ok a ->
        ListDictOps.resolve_bound d stop = Ok b ->
        ListDictOps.__getitem__slice d (ListDictOps.mkSlice start stop (Some 0%Z))
        = Raise ValueError).
Proof.
  unfold ListDictOps.__getitem__slice, ListDictOps._get_index_slice_from_slice.
  split; [|split; [|split; [|split]]]; cbn [ListDictOps.start ListDictOps.stop ListDictOps.step].
  - intros s stop step Hc. cbn [ListDictOps.resolve_bound].
    unfold ListDict._get_index_from_key.
    now rewrite (index_from_absent _ _ _ Hc).
  - intros start a s step Ha Hc. rewrite Ha. cbn [bind ListDictOps.resolve_bound].
    unfold ListDict._get_index_from_key.
    now rewrite (index_from_absent _ _ _ Hc).
  - reflexivity.
  - intros start a step Ha. now rewrite Ha.
  - intros start stop a b Ha Hb. rewrite Ha, Hb. reflexivity.
Qed.

Lemma slice_failures_witness :
  let d := [(Some "a", 1%nat); (Some "b", 2%nat)] in
  ListDictOps.__getitem__slice d
    (ListDictOps.mkSlice (ListDictOps.BStr "z") ListDictOps.BNone None)
  = Raise KeyError
  /\ ListDictOps.__getitem__slice d
       (ListDictOps.mkSlice (ListDictOps.BInt 0) (ListDictOps.BStr "z") None)
     = Raise KeyError
  /\ ListDictOps.__getitem__slice d
       (ListDictOps.mkSlice (ListDictOps.BStr "a") (ListDictOps.BStr "b") (Some 0%Z))
     = Raise ValueError.
Proof.
  intro d. destruct (@slice_failures nat d) as (H1 & H2 & _ & _ & H5).
  split; [apply H1; reflexivity|].
  split; [apply (H2 _ (Some 0%Z)); reflexivity|].
  apply (H5 _ _ (Some 0%Z) (Some 1%Z)); reflexivity.
Defined.

Section Reversed.
Context {A : Type}.

Lemma flat_map_nth_rev (xs : list A) :
  flat_map (fun i => match nth_error xs (List.length xs - 1 - i) with
                     | Some x => [x] | None => [] end)
    (seq 0 (List.length xs))
  = rev xs.
Proof.
  induction xs as [|y ys IH] using rev_ind; [reflexivity|].
  rewrite length_app, rev_app_distr. simpl List.length. simpl rev.
  replace (List.length ys + 1)%nat with (S (List.length ys)) by lia.
  rewrite <- cons_seq, <- seq_shift. simpl flat_map.
  replace (List.length ys - 0 - 0)%nat with (List.length ys) by lia.
  rewrite nth_error_app2, Nat.sub_diag by lia. simpl.
  f_equal. rewrite <- IH.
  rewrite !flat_map_concat_map, map_map. f_equal.
  apply map_ext_in. intros i Hi. apply in_seq in Hi.
  replace (List.length ys - 0 - S i)%nat with (List.length ys - 1 - i)%nat by lia.
  rewrite nth_error_app1 by lia. reflexivity.
Qed.

Lemma list_slice_reversed (xs : list A) :
  ListDictOps.list_slice xs None None (Some (-1)%Z) = Ok (rev xs).
Proof.
  unfold ListDictOps.list_slice. cbn [Z.eqb Z.ltb Z.compare ListDictOps.adjust_bound].
  unfold ListDictOps.slice_length. cbn [Z.ltb Z.compare Z.opp].
  f_equal. rewrite <- flat_map_nth_rev.
  destruct xs as [|x xs]; [reflexivity|].
  set (n := List.length (x :: xs)).
  assert (Hn : (1 <= n)%nat) by (unfold n; simpl; lia).
  destruct (-1 <? Z.of_nat n - 1)%Z eqn:E; [|apply Z.ltb_ge in E; lia].
  rewrite Z.div_1_r.
  replace (Z.to_nat (Z.of_nat n - 1 - -1 - 1 + 1)) with n by lia.
  rewrite !flat_map_concat_map. f_equal.
  apply map_ext_in. intros i Hi. apply in_seq in Hi.
  replace (Z.to_nat (Z.of_nat n - 1 + Z.of_nat i * -1)) with (n - 1 - i)%nat
    by lia.
  reflexivity.
Qed.

End Reversed.

(** X9.  [ListDict.__getitem__] with [[:]] and [[::-1]].  The first is a
    copy of the collection, the second holds its entries in reverse
    order. *)
Theorem slice_whole_and_reversed {V : Type} (d : ListDict.t V) :
  NoDup (ListDict.keys d) ->
  ListDictOps.__getitem__slice d
    (ListDictOps.mkSlice ListDictOps.BNone ListDictOps.BNone None) = Ok d
  /\ ListDictOps.__getitem__slice d
       (ListDictOps.mkSlice ListDictOps.BNone ListDictOps.BNone (Some (-1)%Z))
     = Ok (rev d).
Proof.
  intro ND. split.
  - rewrite (@slice_unit_step V d _ 0 (ListDict.len d) ND).
    + rewrite Nat.sub_0_r. unfold ListDict.len. simpl skipn.
      now rewrite firstn_all.
    + left. now split.
    + left. now split.
    + lia.
    + lia.
    + now left.
  - unfold ListDictOps.__getitem__slice, ListDictOps._get_index_slice_from_slice.
    cbn [ListDictOps.start ListDictOps.stop ListDictOps.step
         ListDictOps.resolve_bound bind fst snd].
    unfold ListDict.items. rewrite list_slice_reversed. cbn [bind].
    rewrite of_items_unique; [reflexivity|].
    unfold ListDict.keys. rewrite map_rev. now apply NoDup_rev.
Qed.

Lemma slice_whole_and_reversed_witness :
  let d := [(Some "a", 1%nat); (Some "b", 2%nat); (Some "c", 3%nat)] in
  ListDictOps.__getitem__slice d
    (ListDictOps.mkSlice ListDictOps.BNone ListDictOps.BNone (Some (-1)%Z))
  = Ok [(Some "c", 3%nat); (Some "b", 2%nat); (Some "a", 1%nat)].
Proof.
  intro d.
  assert (ND : NoDup (ListDict.keys d)).
  { repeat constructor; simpl; intuition discriminate. }
  exact (proj2 (@slice_whole_and_reversed nat d ND)).
Defined.

(* ================================================================= *)
(** ** [ListDict.sort] *)
Section Sorting.

Lemma str_ltb_asym (a b : string) :
  str_ltb a b = true -> str_ltb b a = false.
Proof.
  intro H. destruct (str_ltb b a) eqn:E; [|reflexivity].
  pose proof (str_ltb_trans _ _ _ H E) as C.
  now rewrite str_ltb_irrefl in C.
Qed.

Lemma insert_sorted_perm (x : string) (xs : list string) :
  Permutation (insert_sorted x xs) (x :: xs).
Proof.
  induction xs as [|y ys IH]; simpl; [reflexivity|].
  destruct (str_ltb x y); [reflexivity|].
  rewrite IH. apply perm_swap.
Qed.

Lemma sort_strings_perm (xs : list string) :
  Permutation (sort_strings xs) xs.
Proof.
  induction xs as [|x xs IH]; simpl; [reflexivity|].
  rewrite insert_sorted_perm. now constructor.
Qed.

Lemma insert_sorted_le (x : string) (xs : list string) :
  StronglySorted (fun a b => str_ltb b a = false) xs ->
  StronglySorted (fun a b => str_ltb b a = false) (insert_sorted x xs).
Proof.
  induction xs as [|y ys IH]; intro Hs; simpl.
  - constructor; constructor.
  - inversion Hs as [|? ? Hs' Hall]; subst.
    destruct (str_ltb x y) eqn:E.
    + constructor; [exact Hs|]. constructor; [now apply str_ltb_asym|].
      rewrite Forall_forall in *. intros z Hz. specialize (Hall z Hz).
      apply str_ltb_asym. exact (str_ltb_le_trans _ _ _ E Hall).
    + constructor; [now apply IH|].
      apply (@Permutation_Forall _ _ (x :: ys));
        [symmetry; apply insert_sorted_perm|].
      constructor; assumption.
Qed.

Lemma sort_strings_le (xs : list string) :
  StronglySorted (fun a b => str_ltb b a = false) (sort_strings xs).
Proof.
  induction xs as [|x xs IH]; simpl; [constructor | now apply insert_sorted_le].
Qed.

Lemma le_NoDup_ascending (xs : list string) :
  StronglySorted (fun a b => str_ltb b a = false) xs -> NoDup xs ->
  ascending xs.
Proof.
  unfold ascending.
  induction xs as [|x xs IH]; intros Hs ND; [constructor|].
  inversion Hs as [|? ? Hs' Hall]; subst.
  inversion ND as [|? ? Hnotin ND']; subst.
  constructor; [now apply IH|].
  rewrite Forall_forall in *. intros z Hz. specialize (Hall z Hz).
  destruct (str_ltb x z) eqn:E; [reflexivity|].
  exfalso. apply Hnotin. rewrite (str_ltb_trichotomy _ _ E Hall). exact Hz.
Qed.

Lemma sort_strings_ascending (xs : list string) :
  ascending xs -> sort_strings xs = xs.
Proof.
  unfold ascending.
  induction xs as [|x xs IH]; intro Hs; [reflexivity|].
  inversion Hs as [|? ? Hs' Hall]; subst.
  simpl. rewrite (IH Hs').
  destruct xs as [|y ys]; [reflexivity|].
  simpl. inversion Hall as [|? ? Hxy _]; subst. now rewrite Hxy.
Qed.

Lemma strings_of_map (ks : list pykey) (ss : list string) :
  strings_of ks = Some ss <-> ks = map Some ss.
Proof.
  revert ss. induction ks as [|[s|] ks IH]; intros ss; simpl.
  - split; [now intros [= <-] | destruct ss; [reflexivity | discriminate]].
  - destruct (strings_of ks) as [ss'|] eqn:E.
    + split.
      * intros [= <-]. simpl. f_equal. now apply IH.
      * destruct ss as [|s0 ss0]; [discriminate|]. intros [= -> Hk].
        apply IH in Hk. now injection Hk as ->.
    + split; [discriminate|].
      destruct ss as [|s0 ss0]; [discriminate|]. intros [= -> Hk].
      apply IH in Hk. discriminate.
  - split; [discriminate | destruct ss; discriminate].
Qed.

Lemma py_sorted_strings (ss : list string) :
  py_sorted (map Some ss) = Ok (map Some (sort_strings ss)).
Proof.
  destruct ss as [|a [|b ss]]; [reflexivity | reflexivity|].
  unfold py_sorted.
  assert (H : strings_of (map Some (a :: b :: ss)) = Some (a :: b :: ss))
    by (now apply strings_of_map).
  cbn [map] in *. now rewrite H.
Qed.

Lemma py_sorted_none (ks : list pykey) :
  In None ks -> (2 <= List.length ks)%nat -> py_sorted ks = Raise TypeError.
Proof.
  intros Hin Hlen.
  destruct ks as [|a [|b ks]]; [simpl in Hlen; lia | simpl in Hlen; lia|].
  unfold py_sorted.
  destruct (strings_of (a :: b :: ks)) as [ss|] eqn:E; [|reflexivity].
  apply strings_of_map in E. rewrite E in Hin.
  apply in_map_iff in Hin. destruct Hin as (s & Hs & _). discriminate.
Qed.

End Sorting.

Section Rebuild.
Context {V : Type}.
Implicit Types (d od : ListDict.t V) (k : pykey).

Lemma rebuild_spec d ks : forall od,
  (forall k, In k ks -> ListDict.contains k d = true) ->
  NoDup (ListDict.keys od ++ ks) ->
  exists od',
    ListDictOps.rebuild d ks od = Ok od'
    /\ ListDict.keys od' = ListDict.keys od ++ ks
    /\ forall k, ListDict.home_get k od'
                 = if existsb (pykey_eqb k) ks then ListDict.home_get k d
                   else ListDict.home_get k od.
Proof.
  induction ks as [|key ks IH]; intros od Hin ND.
  - exists od. simpl. now rewrite app_nil_r.
  - destruct (contains_home_get key d (Hin key (or_introl eq_refl)))
      as (v & Hv).
    assert (Hc : ListDict.contains key od = false).
    { destruct (ListDict.contains key od) eqn:C; [|reflexivity].
      apply contains_In in C. apply NoDup_remove_2 in ND. exfalso. apply ND.
      apply in_or_app. now left. }
    destruct (IH (ListDict.home_set key v od)) as (od' & Hr & Hk & Hg).
    + intros k Hk. apply Hin. now right.
    + rewrite home_set_keys, Hc, <- app_assoc. exact ND.
    + exists od'. split; [simpl; rewrite Hv; exact Hr|].
      split; [rewrite Hk, home_set_keys, Hc, <- app_assoc; reflexivity|].
      intro k. rewrite Hg. simpl.
      destruct (existsb (pykey_eqb k) ks) eqn:E.
      * now rewrite orb_true_r.
      * rewrite orb_false_r. destruct (pykey_eqb k key) eqn:Ek.
        -- apply pykey_eqb_eq in Ek. subst k. rewrite Hv.
           apply home_get_set_same.
        -- now apply home_get_set_other.
Qed.

Lemma items_ext (a b : ListDict.t V) :
  ListDict.keys a = ListDict.keys b ->
  NoDup (ListDict.keys a) ->
  (forall k, ListDict.home_get k a = ListDict.home_get k b) ->
  a = b.
Proof.
  revert b. induction a as [|[k v] a IH]; intros [|[k' v'] b] Hk ND Hg;
    try discriminate; [reflexivity|].
  simpl in Hk. injection Hk as <- Hk.
  simpl in ND. inversion ND as [|? ? Hnotin ND']; subst.
  pose proof (Hg k) as Hgk. simpl in Hgk. rewrite pykey_eqb_refl in Hgk.
  injection Hgk as <-. f_equal. apply IH; [exact Hk | exact ND'|].
  intro k0. specialize (Hg k0). simpl in Hg.
  destruct (pykey_eqb k0 k) eqn:E; [|exact Hg].
  apply pykey_eqb_eq in E. subst k0.
  rewrite !home_get_absent; [reflexivity| |].
  - destruct (ListDict.contains k b) eqn:C; [|reflexivity].
    apply contains_In in C. rewrite <- Hk in C. contradiction.
  - destruct (ListDict.contains k a) eqn:C; [|reflexivity].
    apply contains_In in C. contradiction.
Qed.

Lemma sort_in_place d (ss : list string) :
  NoDup (ListDict.keys d) ->
  ListDict.keys d = map Some ss ->
  exists od,
    ListDictOps.rebuild d (map Some (sort_strings ss)) ListDict.empty = Ok od
    /\ ListDict.keys od = map Some (sort_strings ss)
    /\ forall k, ListDict.home_get k od = ListDict.home_get k d.
Proof.
  intros ND Hk.
  assert (Hperm : Permutation (map Some (sort_strings ss)) (ListDict.keys d)).
  { rewrite Hk. apply Permutation_map. apply sort_strings_perm. }
  destruct (@rebuild_spec d (map Some (sort_strings ss)) ListDict.empty)
    as (od & Hr & Hko & Hg).
  - intros k Hin. apply contains_In.
    exact (Permutation_in _ Hperm Hin).
  - simpl. exact (Permutation_NoDup (Permutation_sym Hperm) ND).
  - exists od. split; [exact Hr|]. split; [exact Hko|].
    intro k. rewrite Hg.
    destruct (existsb (pykey_eqb k) (map Some (sort_strings ss))) eqn:E;
      [reflexivity|].
    simpl. symmetry. apply home_get_absent.
    destruct (ListDict.contains k d) eqn:C; [|reflexivity].
    apply contains_In in C.
    apply (Permutation_in _ (Permutation_sym Hperm)) in C.
    assert (existsb (pykey_eqb k) (map Some (sort_strings ss)) = true).
    { apply existsb_exists. exists k. split; [exact C | apply pykey_eqb_refl]. }
    congruence.
Qed.

End Rebuild.

(** X10.  [ListDict.sort] with string keys.  The sorted dictionary holds the
    same keys in strictly ascending order, each with the value it had, and
    as many entries; with [inplace] it replaces the collection and nothing
    is returned, without it the collection is unchanged and the sorted
    dictionary is returned; sorting a sorted collection changes nothing. *)
Theorem sort_orders_keys {V : Type} (d : ListDict.t V) (ss : list string) :
  NoDup (ListDict.keys d) ->
  ListDict.keys d = map Some ss ->
  exists (od : ListDict.t V) (sorted : list string),
    ListDictOps.sort d true = Ok (od, None)
    /\ ListDictOps.sort d false = Ok (d, Some od)
    /\ ListDict.keys od = map Some sorted
    /\ ascending sorted
    /\ Permutation sorted ss
    /\ ListDict.len od = ListDict.len d
    /\ (forall k, ListDict.home_get k od = ListDict.home_get k d)
    /\ ListDictOps.sort od true = Ok (od, None).
Proof.
  intros ND Hk.
  destruct (@sort_in_place V d ss ND Hk) as (od & Hr & Hko & Hg).
  assert (NDs : NoDup ss).
  { rewrite Hk in ND. exact (NoDup_map_inv _ _ ND). }
  assert (Hasc : ascending (sort_strings ss)).
  { apply le_NoDup_ascending; [apply sort_strings_le|].
    exact (Permutation_NoDup (Permutation_sym (sort_strings_perm ss)) NDs). }
  assert (NDo : NoDup (ListDict.keys od)).
  { apply (rebuild_NoDup _ _ _ Hr). constructor. }
  exists od, (sort_strings ss).
  split; [|split; [|split; [exact Hko|split; [exact Hasc|split;
    [apply sort_strings_perm|split; [|split; [exact Hg|]]]]]]].
  - unfold ListDictOps.sort. rewrite Hk, py_sorted_strings. cbn [bind].
    rewrite Hr. reflexivity.
  - unfold ListDictOps.sort. rewrite Hk, py_sorted_strings. cbn [bind].
    rewrite Hr. reflexivity.
  - unfold ListDict.len.
    rewrite <- (length_map fst od), <- (length_map fst d).
    fold (ListDict.keys od). fold (ListDict.keys d).
    rewrite Hko, Hk, !length_map.
    apply Permutation_length, sort_strings_perm.
  - destruct (@sort_in_place V od (sort_strings ss) NDo Hko)
      as (od2 & Hr2 & Hko2 & Hg2).
    unfold ListDictOps.sort. rewrite Hko, py_sorted_strings. cbn [bind].
    rewrite Hr2. cbn [bind].
    rewrite (sort_strings_ascending Hasc) in Hko2.
    rewrite (@items_ext V od2 od); [reflexivity | congruence | |exact Hg2].
    rewrite Hko2, <- Hko. exact NDo.
Qed.

Lemma sort_orders_keys_witness :
  let d := [(Some "b", 2%nat); (Some "c", 3%nat); (Some "a", 1%nat)] in
  exists od sorted,
    ListDictOps.sort d true = Ok (od, None)
    /\ ListDictOps.sort d false = Ok (d, Some od)
    /\ ListDict.keys od = map Some sorted
    /\ ascending sorted
    /\ Permutation sorted ["b"; "c"; "a"]
    /\ ListDict.len od = ListDict.len d
    /\ (forall k, ListDict.home_get k od = ListDict.home_get k d)
    /\ ListDictOps.sort od true = Ok (od, None).
Proof.
  intro d.
  assert (ND : NoDup (ListDict.keys d)).
  { repeat constructor; simpl; intuition discriminate. }
  exact (@sort_orders_keys nat d ["b"; "c"; "a"] ND eq_refl).
Defined.

(** X11.  [ListDict.sort] with a [None] key.  In a collection of two or more
    entries, a [None] key cannot be compared with the string keys and
    [sort] raises [TypeError], in place or not. *)
Theorem sort_rejects_null_key {V : Type} (d : ListDict.t V) (inplace : bool) :
  In None (ListDict.keys d) ->
  (2 <= ListDict.len d)%nat ->
  ListDictOps.sort d inplace = Raise TypeError.
Proof.
  intros Hin Hlen. unfold ListDictOps.sort.
  rewrite py_sorted_none; [reflexivity | exact Hin|].
  unfold ListDict.keys, ListDict.len in *. now rewrite length_map.
Qed.

Lemma sort_rejects_null_key_witness :
  ListDictOps.sort [(Some "b", 2%nat); (None, 1%nat)] true = Raise TypeError.
Proof.
  apply (@sort_rejects_null_key nat); [right; left; reflexivity | simpl; lia].
Defined.

(* ================================================================= *)
(** ** [ListDict.update] *)
Section Update.
Context {V : Type}.
Implicit Types (d o : ListDict.t V) (k : pykey).

Lemma home_get_In d k (v : V) :
  NoDup (ListDict.keys d) -> In (k, v) d -> ListDict.home_get k d = Ok v.
Proof.
  intros ND Hin. apply In_nth_error in Hin. destruct Hin as (n & Hn).
  exact (home_get_at d n ND Hn).
Qed.

Lemma update_from_keys_items o (l : list (pykey * V)) : forall d,
  (forall k v, In (k, v) l ->
     ListDict.__getitem__ o (ListDict.index_of_pykey k) = Ok v) ->
  ListDictOps.update_from_keys o (ListDict.keys l) d = Ok (ListDict.extend d l).
Proof.
  induction l as [|[k v] l IH]; intros d Hl; [reflexivity|].
  simpl. rewrite (Hl k v (or_introl eq_refl)). cbn [bind].
  rewrite extend_cons. apply IH. intros k' v' Hin. apply Hl. now right.
Qed.

Lemma update_from_keys_null o (ks : list pykey) : forall d,
  (forall k, In k ks -> ListDict.contains k o = true) ->
  In None ks ->
  ListDictOps.update_from_keys o ks d = Raise TypeError.
Proof.
  induction ks as [|[s|] ks IH]; intros d Hc Hin; [destruct Hin| |reflexivity].
  destruct Hin as [Hin | Hin]; [discriminate|].
  destruct (contains_home_get (Some s) o (Hc _ (or_introl eq_refl))) as (v & Hv).
  simpl. unfold try_except. rewrite Hv. cbn [bind].
  apply IH; [|exact Hin]. intros k Hk. apply Hc. now right.
Qed.

End Update.

(** X12.  [ListDict.update] from a [ListDict] or a dictionary with string
    keys.  The result is the one [extend] gives: the keys of the collection
    in their order followed by the new keys of the operand in theirs, a key
    of the operand carrying the operand's value and any other key its old
    value. *)
Theorem update_merges_like_extend {V : Type} (d o : ListDict.t V)
  (ss : list string) :
  NoDup (ListDict.keys o) ->
  ListDict.keys o = map Some ss ->
  ListDictOps.update d (ListDictOps.ArgListDict o) = Ok (ListDict.extend d o)
  /\ ListDictOps.update d (ListDictOps.ArgDict o) = Ok (ListDict.extend d o)
  /\ ListDict.keys (ListDict.extend d o)
     = ListDict.keys d
       ++ filter (fun k => negb (ListDict.contains k d)) (ListDict.keys o)
  /\ forall k,
       ListDict.home_get k (ListDict.extend d o)
       = if ListDict.contains k o then ListDict.home_get k o
         else ListDict.home_get k d.
Proof.
  intros ND Hk. split; [|split; [reflexivity|split]].
  - unfold ListDictOps.update. apply update_from_keys_items.
    intros k v Hin.
    assert (Hs : exists s, k = Some s).
    { apply (in_map fst) in Hin. fold (ListDict.keys o) in Hin.
      rewrite Hk in Hin. apply in_map_iff in Hin.
      destruct Hin as (s & Hs & _). now exists s. }
    destruct Hs as (s & ->). cbn [ListDict.index_of_pykey].
    rewrite getitem_str. now apply home_get_In.
  - now apply extend_keys.
  - intro k. now apply extend_get.
Qed.

Lemma update_merges_like_extend_witness :
  let d := [(Some "a", 1%nat); (Some "b", 2%nat)] in
  let o := [(Some "b", 20%nat); (Some "c", 30%nat)] in
  ListDictOps.update d (ListDictOps.ArgListDict o)
  = Ok [(Some "a", 1%nat); (Some "b", 20%nat); (Some "c", 30%nat)].
Proof.
  intros d o.
  assert (ND : NoDup (ListDict.keys o)).
  { repeat constructor; simpl; intuition discriminate. }
  exact (proj1 (@update_merges_like_extend nat d o ["b"; "c"] ND eq_refl)).
Defined.

(** X13.  [ListDict.update], failures.  An operand that is neither a
    [ListDict] nor a dictionary raises [TypeError]; so does a [ListDict]
    operand with a [None] key, which is read back through
    [other[key]]; a dictionary operand is merged whatever its keys. *)
Theorem update_failures {V : Type} (d : ListDict.t V) :
  (forall type_name,
      ListDictOps.update d (ListDictOps.ArgOther type_name) = Raise TypeError)
  /\ (forall o,
        In None (ListDict.keys o) ->
        ListDictOps.update d (ListDictOps.ArgListDict o) = Raise TypeError)
  /\ (forall o,
        ListDictOps.update d (ListDictOps.ArgDict o) = Ok (ListDict.extend d o)).
Proof.
  split; [reflexivity|split; [|reflexivity]].
  intros o Hin. unfold ListDictOps.update.
  apply update_from_keys_null; [|exact Hin].
  intros k Hk. now apply contains_In.
Qed.

Lemma update_failures_witness :
  ListDictOps.update [(Some "a", 1%nat)]
    (ListDictOps.ArgListDict [(Some "b", 2%nat); (None, 3%nat)])
  = Raise TypeError.
Proof.
  destruct (@update_failures nat [(Some "a", 1%nat)]) as (_ & H & _).
  apply H. right. left. reflexivity.
Defined.

(* ================================================================= *)
(** ** [Station]: looking up, removing and indexing runs *)
Lemma list_index_nth (v : pykey) (xs : list pykey) (n : nat) :
  list_index v xs = Some n -> nth_error xs n = Some v.
Proof.
  revert n. induction xs as [|x xs IH]; intros n H; [discriminate|].
  simpl in H. destruct (pykey_eqb x v) eqn:E.
  - injection H as <-. apply pykey_eqb_eq in E. now subst.
  - destruct (list_index v xs) as [m|]; [|discriminate].
    injection H as <-. simpl. now apply IH.
Qed.

Lemma nth_list_index (v : pykey) (xs : list pykey) (n : nat) :
  NoDup xs -> nth_error xs n = Some v -> list_index v xs = Some n.
Proof.
  revert n. induction xs as [|x xs IH]; intros n ND H.
  - destruct n; discriminate.
  - inversion ND as [|? ? Hnotin ND']; subst.
    destruct n as [|n]; simpl in *.
    + injection H as ->. now rewrite pykey_eqb_refl.
    + destruct (pykey_eqb x v) eqn:E.
      * apply pykey_eqb_eq in E. subst. exfalso. apply Hnotin.
        exact (nth_error_In _ _ H).
      * now rewrite (IH n ND' H).
Qed.

Lemma set_runs_same (s : Station.t) : Station.set_runs (Station.runs s) s = s.
Proof. now destruct s. Qed.

Lemma get_run_found (s : Station.t) (k : string) (r : Run.t) :
  ListDict.home_get (Some k) (Station.runs s) = Ok r ->
  Station.get_run s (Some k) = Ok (Some r, []).
Proof.
  intro Hg. unfold Station.get_run, Station.has_run, Station.run_list.
  rewrite (home_get_contains _ _ Hg). cbn [ListDict.index_of_pykey].
  rewrite getitem_str, Hg. reflexivity.
Qed.

Lemma get_run_missing (s : Station.t) (k : string) :
  ListDict.contains (Some k) (Station.runs s) = false ->
  Station.get_run s (Some k) = Ok (None, [not_in_runs k]).
Proof.
  intro Hc. unfold Station.get_run. rewrite has_run_contains, Hc. reflexivity.
Qed.

(** X14.  [Station.get_run] with a string id.  A stored run is returned
    without diagnostics; an id that is not stored gives [None] and one
    warning; the call never raises. *)
Theorem get_run_found_or_warned (s : Station.t) (k : string) :
  (forall r,
      ListDict.home_get (Some k) (Station.runs s) = Ok r ->
      Station.get_run s (Some k) = Ok (Some r, []))
  /\ (Station.has_run s (Some k) = false ->
      Station.get_run s (Some k) = Ok (None, [not_in_runs k]))
  /\ exists found log, Station.get_run s (Some k) = Ok (found, log).
Proof.
  split; [intros r; apply get_run_found|].
  split; [rewrite has_run_contains; apply get_run_missing|].
  destruct (ListDict.contains (Some k) (Station.runs s)) eqn:C.
  - destruct (contains_home_get _ _ C) as (r & Hr).
    exists (Some r), []. now apply get_run_found.
  - exists None, [not_in_runs k]. now apply get_run_missing.
Qed.

Lemma get_run_found_or_warned_witness :
  Station.get_run sample_station (Some "b")
  = Ok (Some (sample_run "b" "2020-01-03T00:00:00+00:00"
                             "2020-01-04T00:00:00+00:00"), [])
  /\ Station.get_run sample_station (Some "z") = Ok (None, [not_in_runs "z"]).
Proof.
  destruct (get_run_found_or_warned sample_station "b") as (H1 & _).
  destruct (get_run_found_or_warned sample_station "z") as (_ & H2 & _).
  split; [apply H1; reflexivity | apply H2; reflexivity].
Defined.

(** X15.  A run stored under a null id.  Once a station holds a run whose
    id is [None], looking that id up, removing it and adding another run
    without an id all raise [TypeError] (the id is found in the run list,
    then used as an index into the collection). *)
Theorem null_run_id_raises (Base_update : Run.t -> Run.t -> Run.t)
  (s : Station.t) :
  Station.has_run s None = true ->
  Station.get_run s None = Raise TypeError
  /\ Station.remove_run s None = Raise TypeError
  /\ forall r, Run.id r = None ->
       Station.add_run Base_update s r = Raise TypeError.
Proof.
  intro H. unfold Station.get_run, Station.remove_run, Station.add_run.
  rewrite H. split; [reflexivity|split; [reflexivity|]].
  intros r ->. now rewrite H.
Qed.

Lemma null_run_id_raises_witness :
  exists s,
    Station.add_run Base_update_overwrite Station.new Run.new = Ok (s, [])
    /\ Station.get_run s None = Raise TypeError
    /\ Station.remove_run s None = Raise TypeError
    /\ Station.add_run Base_update_overwrite s Run.new = Raise TypeError.
Proof.
  exists (Station.set_runs [(None, Run.new)] Station.new).
  split; [reflexivity|].
  destruct (@null_run_id_raises Base_update_overwrite
              (Station.set_runs [(None, Run.new)] Station.new) eq_refl)
    as (H1 & H2 & H3).
  split; [exact H1|split; [exact H2|exact (H3 Run.new eq_refl)]].
Defined.

Lemma has_run_set_runs (s : Station.t) (d : ListDict.t Run.t) (k : pykey) :
  Station.has_run (Station.set_runs d s) k = ListDict.contains k d.
Proof. now rewrite has_run_contains. Qed.

Lemma get_run_home_get (s : Station.t) (k : string) :
  Station.get_run s (Some k)
  = match ListDict.home_get (Some k) (Station.runs s) with
    | Ok r => Ok (Some r, [])
    | Raise _ => Ok (None, [not_in_runs k])
    end.
Proof.
  destruct (ListDict.home_get (Some k) (Station.runs s)) as [r|e] eqn:E.
  - now apply get_run_found.
  - apply get_run_missing.
    destruct (ListDict.contains (Some k) (Station.runs s)) eqn:C;
      [|reflexivity].
    destruct (contains_home_get _ _ C) as (r & Hr). congruence.
Qed.

(** X16.  [Station.remove_run] with a string id.  A stored run is removed
    without diagnostics: the id is no longer found, the station holds one
    run less and every other id gives the run it gave before.  An id that
    is not stored leaves the station as it is and logs one warning. *)
Theorem remove_run_by_id (s : Station.t) (k : string) :
  (forall (n : nat) (r : Run.t),
      NoDup (Station.run_list s) ->
      nth_error (ListDict.items (Station.runs s)) n = Some (Some k, r) ->
      let s' := Station.set_runs
                  (firstn n (Station.runs s) ++ skipn (S n) (Station.runs s))
                  s in
      Station.remove_run s (Some k) = Ok (s', [])
      /\ Station.has_run s' (Some k) = false
      /\ S (Station.__len__ s') = Station.__len__ s
      /\ forall k', k' <> k ->
           Station.get_run s' (Some k') = Station.get_run s (Some k'))
  /\ (Station.has_run s (Some k) = false ->
      Station.remove_run s (Some k) = Ok (s, [not_to_remove k])).
Proof.
  split.
  - intros n r ND Hn s'. unfold ListDict.items, Station.run_list in *.
    destruct (@removed_at _ (Station.runs s) n (Some k) r ND Hn)
      as (H1 & H2 & H3).
    split; [|split; [|split]].
    + unfold Station.remove_run.
      assert (Hh : Station.has_run s (Some k) = true).
      { rewrite has_run_contains. apply contains_In.
        exact (nth_error_In _ _ (nth_error_keys _ _ Hn)). }
      rewrite Hh. cbn [ListDict.index_of_pykey ListDict.remove].
      rewrite (@home_del_at _ (Station.runs s) n (Some k) r ND Hn).
      reflexivity.
    + unfold s'. rewrite has_run_set_runs. exact H1.
    + exact H2.
    + intros k' Hk'. rewrite !get_run_home_get. unfold s'.
      cbn [Station.runs Station.set_runs]. rewrite H3; [reflexivity|].
      apply pykey_eqb_neq. congruence.
  - intro Hh. unfold Station.remove_run. now rewrite Hh.
Qed.

Lemma remove_run_by_id_witness :
  Station.remove_run sample_station (Some "a")
  = Ok (Station.set_runs
          [(Some "b", sample_run "b" "2020-01-03T00:00:00+00:00"
                                     "2020-01-04T00:00:00+00:00")]
          sample_station, [])
  /\ Station.remove_run sample_station (Some "z")
     = Ok (sample_station, [not_to_remove "z"]).
Proof.
  destruct (remove_run_by_id sample_station "a") as (H1 & _).
  destruct (remove_run_by_id sample_station "z") as (_ & H2).
  split.
  - assert (ND : NoDup (Station.run_list sample_station)).
    { repeat constructor; simpl; intuition discriminate. }
    exact (proj1 (H1 0%nat _ ND eq_refl)).
  - apply H2. reflexivity.
Defined.

(** X17.  [Station.add_run], [get_run] and [remove_run] together.  Adding a
    run under a new string id logs nothing; the run is then found by
    [has_run], returned by [get_run], stored at the last position (as
    [run_index] and the lookup by position agree), and the other ids give
    what they gave; removing it again restores the station. *)
Theorem add_get_remove_round_trip (Base_update : Run.t -> Run.t -> Run.t)
  (s : Station.t) (r : Run.t) (k : string) :
  NoDup (Station.run_list s) ->
  Run.id r = Some k ->
  Station.has_run s (Some k) = false ->
  exists s',
    Station.add_run Base_update s r = Ok (s', [])
    /\ Station.has_run s' (Some k) = true
    /\ Station.get_run s' (Some k) = Ok (Some r, [])
    /\ Station.run_index s' (Some k) = Some (Station.__len__ s)
    /\ ListDict.__getitem__ (Station.runs s')
         (ListDict.IInt (Z.of_nat (Station.__len__ s))) = Ok r
    /\ (forall k', k' <> k ->
          Station.get_run s' (Some k') = Station.get_run s (Some k'))
    /\ Station.remove_run s' (Some k) = Ok (s, []).
Proof.
  intros ND Hid Hh.
  assert (Hc : ListDict.contains (Some k) (Station.runs s) = false)
    by (now rewrite <- has_run_contains).
  set (d' := Station.runs s ++ [(Some k, r)]).
  assert (Hnth : nth_error d' (ListDict.len (Station.runs s)) = Some (Some k, r)).
  { unfold d', ListDict.len. rewrite nth_error_app2, Nat.sub_diag by lia.
    reflexivity. }
  assert (Hd : ListDict.home_set (Some k) r (Station.runs s) = d')
    by (exact (home_set_absent _ r _ Hc)).
  assert (ND' : NoDup (ListDict.keys d')).
  { rewrite <- Hd. now apply home_set_NoDup. }
  assert (Hget : ListDict.home_get (Some k) d' = Ok r)
    by (exact (home_get_at d' _ ND' Hnth)).
  exists (Station.set_runs d' s).
  split; [|split; [|split; [|split; [|split; [|split]]]]].
  - rewrite (add_run_new Base_update) by (now rewrite Hid). now rewrite Hid.
  - rewrite has_run_set_runs. apply contains_In.
    exact (nth_error_In _ _ (nth_error_keys _ _ Hnth)).
  - now apply get_run_found.
  - unfold Station.run_index. rewrite has_run_set_runs.
    assert (Hin : ListDict.contains (Some k) d' = true).
    { apply contains_In. exact (nth_error_In _ _ (nth_error_keys _ _ Hnth)). }
    rewrite Hin. apply nth_list_index; [exact ND'|].
    exact (nth_error_keys _ _ Hnth).
  - unfold Station.__len__. cbn [Station.runs Station.set_runs].
    unfold ListDict.__getitem__.
    assert (Hk : ListDict._get_key_from_index d'
                   (Z.of_nat (ListDict.len (Station.runs s))) = Ok (Some k)).
    { apply key_from_index_nth. split; [lia|]. rewrite Nat2Z.id.
      exact (nth_error_keys _ _ Hnth). }
    rewrite Hk. exact Hget.
  - intros k' Hk'. rewrite !get_run_home_get.
    cbn [Station.runs Station.set_runs].
    rewrite <- Hd, home_get_set_other; [reflexivity|].
    apply pykey_eqb_neq. congruence.
  - unfold Station.remove_run. rewrite has_run_set_runs.
    assert (Hin : ListDict.contains (Some k) d' = true).
    { apply contains_In. exact (nth_error_In _ _ (nth_error_keys _ _ Hnth)). }
    rewrite Hin. cbn [ListDict.index_of_pykey ListDict.remove Station.runs
                      Station.set_runs].
    rewrite (@home_del_at _ d' _ (Some k) r ND' Hnth). cbn [bind].
    unfold d', ListDict.len.
    rewrite firstn_app, firstn_all, Nat.sub_diag. cbn [firstn].
    rewrite skipn_all2 by (rewrite length_app; simpl; lia).
    rewrite !app_nil_r.
    destruct s; reflexivity.
Qed.

Lemma add_get_remove_round_trip_witness :
  let r := sample_run "c" "2020-01-05T00:00:00+00:00"
                          "2020-01-06T00:00:00+00:00" in
  exists s',
    Station.add_run Base_update_overwrite sample_station r = Ok (s', [])
    /\ Station.get_run s' (Some "c") = Ok (Some r, [])
    /\ Station.remove_run s' (Some "c") = Ok (sample_station, []).
Proof.
  intro r.
  assert (ND : NoDup (Station.run_list sample_station)).
  { repeat constructor; simpl; intuition discriminate. }
  destruct (@add_get_remove_round_trip Base_update_overwrite sample_station r
              "c" ND eq_refl eq_refl) as (s' & H1 & _ & H3 & _ & _ & _ & H7).
  exists s'. split; [exact H1|split; [exact H3|exact H7]].
Defined.

(** X18.  [Station.run_index].  In a station with unique run ids,
    [run_index] is the position of the id in the run list, the same
    position [_get_index_from_key] gives, and the run at that position is
    the one [get_run] returns; it is [None] exactly when [has_run] is
    false. *)
Theorem run_index_is_position (s : Station.t) (k : string) (n : nat) :
  NoDup (Station.run_list s) ->
  (Station.run_index s (Some k) = Some n
   <-> nth_error (Station.run_list s) n = Some (Some k))
  /\ (Station.run_index s (Some k) = Some n ->
      ListDict._get_index_from_key (Station.runs s) (Some k) = Ok n
      /\ exists r,
           Station.get_run s (Some k) = Ok (Some r, [])
           /\ ListDict.__getitem__ (Station.runs s)
                (ListDict.IInt (Z.of_nat n)) = Ok r)
  /\ (Station.run_index s (Some k) = None
      <-> Station.has_run s (Some k) = false).
Proof.
  intro ND.
  assert (Hiff : Station.run_index s (Some k) = Some n
                 <-> nth_error (Station.run_list s) n = Some (Some k)).
  { unfold Station.run_index. split.
    - destruct (Station.has_run s (Some k)); [|discriminate].
      apply list_index_nth.
    - intro Hn.
      assert (Hh : Station.has_run s (Some k) = true).
      { rewrite has_run_contains. apply contains_In.
        exact (nth_error_In _ _ Hn). }
      rewrite Hh. now apply nth_list_index. }
  split; [exact Hiff|split].
  - intro Hi. apply Hiff in Hi. unfold Station.run_list in *.
    split.
    + unfold ListDict._get_index_from_key.
      exact (@nth_index_from (Some k) (ListDict.keys (Station.runs s)) 0 n
               ND Hi).
    + unfold ListDict.keys in Hi. rewrite nth_error_map in Hi.
      destruct (nth_error (Station.runs s) n) as [[k0 r]|] eqn:E;
        [|discriminate].
      simpl in Hi. injection Hi as ->.
      exists r. split.
      * apply get_run_found. exact (home_get_at _ _ ND E).
      * unfold ListDict.__getitem__.
        assert (Hk : ListDict._get_key_from_index (Station.runs s)
                       (Z.of_nat n) = Ok (Some k)).
        { apply key_from_index_nth. split; [lia|]. rewrite Nat2Z.id.
          exact (nth_error_keys _ _ E). }
        rewrite Hk. exact (home_get_at _ _ ND E).
  - unfold Station.run_index. split.
    + destruct (Station.has_run s (Some k)) eqn:Hh; [|reflexivity].
      intro Hn. exfalso.
      rewrite has_run_contains in Hh. apply contains_In in Hh.
      apply In_nth_error in Hh. destruct Hh as (m & Hm).
      unfold Station.run_list in *.
      rewrite (@nth_list_index (Some k) _ m ND Hm) in Hn. discriminate.
    + now intros ->.
Qed.

Lemma run_index_is_position_witness :
  Station.run_index sample_station (Some "b") = Some 1%nat
  /\ ListDict._get_index_from_key (Station.runs sample_station) (Some "b")
     = Ok 1%nat.
Proof.
  assert (ND : NoDup (Station.run_list sample_station)).
  { repeat constructor; simpl; intuition discriminate. }
  destruct (@run_index_is_position sample_station "b" 1 ND) as (H1 & H2 & _).
  assert (Hi : Station.run_index sample_station (Some "b") = Some 1%nat)
    by (apply H1; reflexivity).
  split; [exact Hi | exact (proj1 (H2 Hi))].
Defined.

(* ================================================================= *)
(** ** [Station]: the [runs] setter *)
Section RunsSetter.
Context {D : Type}.
Variable Run_from_dict : D -> result Run.t.

Lemma append_run (runs : ListDict.t Run.t) (r : Run.t) :
  ListDict.append runs r = Ok (ListDict.home_set (Run.id r) r runs).
Proof. now rewrite append_as_home_set. Qed.

Lemma scan_runs_closed (l : list StationOps.entry) :
  dicts_convert Run_from_dict l ->
  forall ii runs fails,
  exists fails',
    StationOps.scan_runs Run_from_dict ii l runs fails
    = (ListDict.extend runs (map keyed (runs_given Run_from_dict l)),
       fails ++ fails', None)
    /\ List.length fails' = refused l.
Proof.
  induction l as [|e l IH]; intros Hd ii runs fails.
  - exists []. simpl. now rewrite app_nil_r.
  - inversion Hd as [|? ? He Hd']; subst.
    destruct e as [r|d|ty].
    + destruct (IH Hd' (S ii) (ListDict.home_set (Run.id r) r runs) fails)
        as (fs & Hs & Hl).
      exists fs. split; [|exact Hl].
      cbn [StationOps.scan_runs]. rewrite append_run. exact Hs.
    + destruct He as (r & Hr).
      destruct (IH Hd' (S ii) (ListDict.home_set (Run.id r) r runs) fails)
        as (fs & Hs & Hl).
      exists fs. split; [|exact Hl].
      cbn [StationOps.scan_runs runs_given flat_map]. rewrite Hr.
      cbn [bind]. rewrite append_run. exact Hs.
    + destruct (IH Hd' (S ii) runs (fails ++ [StationOps.not_run ii ty]))
        as (fs & Hs & Hl).
      exists (StationOps.not_run ii ty :: fs). split.
      * cbn [StationOps.scan_runs]. rewrite Hs. now rewrite <- app_assoc.
      * unfold refused in *. simpl. now rewrite Hl.
Qed.

Lemma refused_positive (l : list (StationOps.entry (D := D))) :
  (0 < refused l)%nat <-> exists ty, In (StationOps.NotRun ty) l.
Proof.
  unfold refused. induction l as [|e l IH]; simpl.
  - split; [lia | intros (ty & [])].
  - destruct e as [r|d|ty]; simpl.
    + rewrite IH. split; intros (ty & H); exists ty;
        [now right | destruct H as [H|H]; [discriminate | exact H]].
    + rewrite IH. split; intros (ty & H); exists ty;
        [now right | destruct H as [H|H]; [discriminate | exact H]].
    + split; [intros _; exists ty; now left | lia].
Qed.

Lemma runs_setter_list (s : Station.t) (l : list StationOps.entry) :
  dicts_convert Run_from_dict l ->
  exists log,
    StationOps.runs_setter Run_from_dict s (StationOps.OfList l)
    = (Station.set_runs
         (ListDictOps.of_items (map keyed (runs_given Run_from_dict l))) s,
       if (0 <? refused l)%nat then Some TypeError else None,
       log)
    /\ List.length log = refused l
    /\ Forall (fun rec => level rec = ERROR) log.
Proof.
  intro Hd.
  destruct (scan_runs_closed Hd 0 ListDict.empty []) as (fs & Hs & Hl).
  exists (map (mkLog ERROR) fs).
  unfold StationOps.runs_setter. rewrite Hs. cbn [app].
  rewrite Hl, length_map. split; [reflexivity|]. split; [exact Hl|].
  apply Forall_forall. intros rec Hin. apply in_map_iff in Hin.
  destruct Hin as (m & <- & _). reflexivity.
Qed.

End RunsSetter.

(** X19.  The [runs] setter of a station.  Given a list (or the values of a
    dictionary, whose keys are not used), the station's runs are replaced
    by the runs among the entries, keyed by their own ids, also when the
    assignment ends in [TypeError], which it does exactly when some entry
    is neither a run nor a dictionary; each such entry is logged as an
    error.  A value of another type raises [TypeError] and leaves the
    station as it is. *)
Theorem runs_setter_replaces_runs {D : Type}
  (Run_from_dict : D -> result Run.t) (s : Station.t)
  (l : list StationOps.entry) :
  dicts_convert Run_from_dict l ->
  exists log,
    StationOps.runs_setter Run_from_dict s (StationOps.OfList l)
    = (Station.set_runs
         (ListDictOps.of_items (map keyed (runs_given Run_from_dict l))) s,
       if (0 <? refused l)%nat then Some TypeError else None,
       log)
    /\ List.length log = refused l
    /\ Forall (fun rec => level rec = ERROR) log
    /\ ((0 < refused l)%nat <-> exists ty, In (StationOps.NotRun ty) l)
    /\ (forall kv : list (pykey * StationOps.entry),
          map snd kv = l ->
          StationOps.runs_setter Run_from_dict s (StationOps.OfDict kv)
          = StationOps.runs_setter Run_from_dict s (StationOps.OfList l))
    /\ forall ty,
         exists msg,
           StationOps.runs_setter Run_from_dict s (StationOps.OfOther ty)
           = (s, Some TypeError, [mkLog ERROR msg]).
Proof.
  intro Hd. destruct (runs_setter_list s Hd) as (log & H1 & H2 & H3).
  exists log. split; [exact H1|split; [exact H2|split; [exact H3|]]].
  split; [apply refused_positive|]. split.
  - intros kv <-. reflexivity.
  - intro ty. eexists. reflexivity.
Qed.

Lemma runs_setter_replaces_runs_witness :
  let from_dict := fun _ : unit => Ok Run.new in
  exists log,
    StationOps.runs_setter from_dict sample_station
      (StationOps.OfList [StationOps.NotRun "<class 'int'>"])
    = (Station.set_runs ListDict.empty sample_station, Some TypeError, log)
    /\ List.length log = 1%nat.
Proof.
  intro from_dict.
  assert (Hd : dicts_convert from_dict [StationOps.NotRun "<class 'int'>"])
    by (repeat constructor).
  destruct (@runs_setter_replaces_runs unit from_dict sample_station _ Hd)
    as (log & H1 & H2 & _).
  exists log. split; [exact H1 | exact H2].
Defined.

(* ================================================================= *)
(** ** [Run]: the [channels] setter *)
Lemma scan_channels_closed (l : list RunOps.item) :
  forall ii channels fails,
  exists fails',
    RunOps.scan_channels ii l channels fails
    = (channels ++ channels_given l, fails ++ fails')
    /\ List.length fails' = refused_items l.
Proof.
  induction l as [|e l IH]; intros ii channels fails.
  - exists []. simpl. now rewrite !app_nil_r.
  - destruct e as [c|ty].
    + destruct (IH (S ii) (channels ++ [c]) fails) as (fs & Hs & Hl).
      exists fs. split; [|exact Hl].
      cbn [RunOps.scan_channels]. rewrite Hs. simpl.
      now rewrite <- app_assoc.
    + destruct (IH (S ii) channels (fails ++ [RunOps.not_channel ii ty]))
        as (fs & Hs & Hl).
      exists (RunOps.not_channel ii ty :: fs). split.
      * cbn [RunOps.scan_channels]. rewrite Hs. now rewrite <- app_assoc.
      * unfold refused_items in *. simpl. now rewrite Hl.
Qed.

(** X20.  The [channels] setter of a run.  When every item is a channel, the
    run's channels become the items given, in their order; when some item
    is not, the setter raises [TypeError], logs one error per such item
    and leaves the channels as they were.  A value that is not iterable
    raises [TypeError] and changes nothing. *)
Theorem channels_setter_all_or_nothing (r : Run.t) (l : list RunOps.item) :
  exists log,
    RunOps.channels_setter r (RunOps.Iterable l)
    = (if (0 <? refused_items l)%nat then r
       else Run.set_channels (channels_given l) r,
       if (0 <? refused_items l)%nat then Some TypeError else None,
       log)
    /\ List.length log = refused_items l
    /\ Forall (fun rec => level rec = ERROR) log
    /\ forall ty,
         exists msg,
           RunOps.channels_setter r (RunOps.NotIterable ty)
           = (r, Some TypeError, [mkLog ERROR msg]).
Proof.
  destruct (scan_channels_closed l 0 [] []) as (fs & Hs & Hl).
  exists (map (mkLog ERROR) fs).
  unfold RunOps.channels_setter. rewrite Hs. cbn [app]. rewrite Hl.
  split; [now destruct (0 <? refused_items l)%nat|].
  split; [now rewrite length_map|]. split.
  - apply Forall_forall. intros rec Hin. apply in_map_iff in Hin.
    destruct Hin as (m & <- & _). reflexivity.
  - intro ty. eexists. reflexivity.
Qed.

(* ================================================================= *)
(** ** [Run]: channel lookups *)
Section ChannelLookup.
Implicit Types (r : Run.t) (c : Channel.t) (l : list Channel.t) (k : pykey).

Lemma dict_of_other l k : forall acc,
  ~ In k (map Channel.component l) ->
  ListDict.home_get k (dict_of l acc) = ListDict.home_get k acc.
Proof.
  induction l as [|c l IH]; intros acc Hn; [reflexivity|].
  simpl in *. unfold dict_of in *. simpl. rewrite IH by tauto.
  apply home_get_set_other. apply pykey_eqb_neq. intro E. apply Hn.
  left. now symmetry.
Qed.

Lemma dict_of_last l1 c l2 : forall acc,
  ~ In (Channel.component c) (map Channel.component l2) ->
  ListDict.home_get (Channel.component c) (dict_of (l1 ++ c :: l2) acc) = Ok c.
Proof.
  intros acc Hn. unfold dict_of. rewrite fold_left_app. simpl.
  fold (dict_of l2 (ListDict.home_set (Channel.component c) c
                      (fold_left (fun acc c => ListDict.home_set
                                    (Channel.component c) c acc) l1 acc))).
  rewrite dict_of_other by exact Hn. apply home_get_set_same.
Qed.

Lemma dict_of_In l k c : forall acc,
  ListDict.home_get k (dict_of l acc) = Ok c ->
  (In c l /\ Channel.component c = k) \/ ListDict.home_get k acc = Ok c.
Proof.
  induction l as [|c0 l IH]; intros acc H; [now right|].
  unfold dict_of in *. simpl in H. apply IH in H.
  destruct H as [[Hin Hk] | H]; [left; split; [now right | exact Hk]|].
  destruct (pykey_eqb k (Channel.component c0)) eqn:E.
  - apply pykey_eqb_eq in E. subst k. rewrite home_get_set_same in H.
    injection H as <-. left. split; [now left | reflexivity].
  - rewrite home_get_set_other in H by exact E. now right.
Qed.

Lemma has_channel_In r k :
  Run.has_channel r k = true <-> In k (Run.channels_recorded_all r).
Proof.
  unfold Run.has_channel. rewrite existsb_exists. split.
  - intros (x & Hx & E). apply pykey_eqb_eq in E. now subst.
  - intro Hin. exists k. split; [exact Hin | apply pykey_eqb_refl].
Qed.

Lemma get_channel_last r l1 c l2 :
  Run.channels r = l1 ++ c :: l2 ->
  ~ In (Channel.component c) (map Channel.component l2) ->
  Run.get_channel r (Channel.component c) = Some c.
Proof.
  intros Hr Hn. unfold Run.get_channel.
  assert (Hh : Run.has_channel r (Channel.component c) = true).
  { apply has_channel_In. unfold Run.channels_recorded_all. rewrite Hr.
    rewrite map_app. apply in_or_app. right. now left. }
  rewrite Hh. unfold Run.channels_dict. rewrite Hr.
  fold (dict_of (l1 ++ c :: l2) []). now rewrite dict_of_last.
Qed.

Lemma list_index_first (k : pykey) (xs ys : list pykey) :
  ~ In k xs -> list_index k (xs ++ k :: ys) = Some (List.length xs).
Proof.
  induction xs as [|x xs IH]; intro Hn; simpl.
  - now rewrite pykey_eqb_refl.
  - destruct (pykey_eqb x k) eqn:E.
    + apply pykey_eqb_eq in E. subst. exfalso. apply Hn. now left.
    + rewrite IH; [reflexivity|]. intro H. apply Hn. now right.
Qed.

Lemma channel_index_first r l1 c l2 :
  Run.channels r = l1 ++ c :: l2 ->
  ~ In (Channel.component c) (map Channel.component l1) ->
  Run.channel_index r (Channel.component c) = Some (List.length l1).
Proof.
  intros Hr Hn. rewrite channel_index_eq. unfold Run.channels_recorded_all.
  rewrite Hr, map_app. simpl. rewrite list_index_first by exact Hn.
  now rewrite length_map.
Qed.

Lemma get_channel_iff r k c :
  NoDup (Run.channels_recorded_all r) ->
  Run.get_channel r k = Some c <-> In c (Run.channels r) /\ Channel.component c = k.
Proof.
  intro ND. split.
  - unfold Run.get_channel.
    destruct (Run.has_channel r k); [|discriminate].
    destruct (ListDict.home_get k (Run.channels_dict r)) as [c'|e] eqn:E;
      [|discriminate].
    intros [= ->]. unfold Run.channels_dict in E.
    fold (dict_of (Run.channels r) []) in E. apply dict_of_In in E.
    destruct E as [E | E]; [exact E | discriminate].
  - intros [Hin <-]. apply in_split in Hin. destruct Hin as (l1 & l2 & Hr).
    apply (@get_channel_last r l1 c l2 Hr).
    unfold Run.channels_recorded_all in ND. rewrite Hr, map_app in ND.
    simpl in ND. apply NoDup_remove_2 in ND. intro H. apply ND.
    apply in_or_app. now right.
Qed.

Lemma dict_of_found l k : forall acc,
  In k (map Channel.component l) ->
  exists c, ListDict.home_get k (dict_of l acc) = Ok c.
Proof.
  induction l as [|c0 l IH]; intros acc Hin; [destruct Hin|].
  unfold dict_of. simpl.
  fold (dict_of l (ListDict.home_set (Channel.component c0) c0 acc)).
  destruct (existsb (pykey_eqb k) (map Channel.component l)) eqn:E.
  - apply IH. apply existsb_exists in E. destruct E as (x & Hx & Ex).
    apply pykey_eqb_eq in Ex. now subst.
  - assert (Hn : ~ In k (map Channel.component l)).
    { intro H. assert (existsb (pykey_eqb k) (map Channel.component l) = true).
      { apply existsb_exists. exists k. split; [exact H|apply pykey_eqb_refl]. }
      congruence. }
    rewrite dict_of_other by exact Hn.
    destruct Hin as [<- | Hin]; [|contradiction].
    exists c0. apply home_get_set_same.
Qed.

Lemma get_channel_none r k :
  Run.get_channel r k = None <-> ~ In k (Run.channels_recorded_all r).
Proof.
  unfold Run.get_channel. split.
  - intros Hg Hin. pose proof Hin as Hh. apply has_channel_In in Hh.
    rewrite Hh in Hg.
    destruct (@dict_of_found (Run.channels r) k [] Hin) as (c & Hc).
    unfold Run.channels_dict in Hg. fold (dict_of (Run.channels r) []) in Hg.
    rewrite Hc in Hg. discriminate.
  - intro Hn. destruct (Run.has_channel r k) eqn:Hh; [|reflexivity].
    apply has_channel_In in Hh. contradiction.
Qed.

End ChannelLookup.

(** X21.  [Run.channel_index] and [Run.get_channel] with a repeated
    component.  [channel_index] gives the position of the first channel
    with the component, [get_channel] returns the last one. *)
Theorem channel_lookup_first_and_last (r : Run.t) (l1 l2 : list Channel.t)
  (c : Channel.t) :
  Run.channels r = l1 ++ c :: l2 ->
  (~ In (Channel.component c) (map Channel.component l1) ->
   Run.channel_index r (Channel.component c) = Some (List.length l1))
  /\ (~ In (Channel.component c) (map Channel.component l2) ->
      Run.get_channel r (Channel.component c) = Some c).
Proof.
  intro Hr. split; intro Hn.
  - now apply (@channel_index_first r l1 c l2).
  - now apply (@get_channel_last r l1 c l2).
Qed.

Lemma channel_lookup_first_and_last_witness :
  let first := sample_channel Channel.Electric "ex" in
  let last := Channel.set_dipole_length (Some 50%Q)
                (sample_channel Channel.Electric "ex") in
  let r := Run.set_channels [first; last] Run.new in
  Run.channel_index r (Some "ex") = Some 0%nat
  /\ Run.get_channel r (Some "ex") = Some last.
Proof.
  intros first last r. split.
  - apply (proj1 (@channel_lookup_first_and_last r [] [last] first eq_refl)).
    intros [].
  - apply (proj2 (@channel_lookup_first_and_last r [first] [] last eq_refl)).
    intros [].
Defined.

Section AddThenGet.
Implicit Types (r : Run.t) (c : Channel.t) (l : list Channel.t) (k : pykey).

Lemma list_set_In l (i : nat) c x :
  In x (list_set l i c) -> x = c \/ In x l.
Proof.
  revert i. induction l as [|y l IH]; intros i H; [destruct H|].
  destruct i as [|i]; simpl in H.
  - destruct H as [<- | H]; [now left | right; now right].
  - destruct H as [<- | H]; [right; now left|].
    destruct (IH i H) as [-> | Hin]; [now left | right; now right].
Qed.

Lemma list_set_keeps l (i : nat) c x :
  In x l -> nth_error l i <> Some x -> In x (list_set l i c).
Proof.
  revert i. induction l as [|y l IH]; intros i Hin Hn; [destruct Hin|].
  destruct i as [|i]; simpl in *.
  - destruct Hin as [-> | Hin]; [congruence | now right].
  - destruct Hin as [-> | Hin]; [now left | right; now apply IH].
Qed.

Lemma add_channel_components r c :
  Run.channels_recorded_all (fst (Run.add_channel r c))
  = if Run.has_channel r (Channel.component c)
    then Run.channels_recorded_all r
    else Run.channels_recorded_all r ++ [Channel.component c].
Proof.
  unfold Run.add_channel, Run.channel_index.
  destruct (Run.has_channel r (Channel.component c)) eqn:Hh.
  - destruct (list_index (Channel.component c) (Run.channels_recorded_all r))
      as [i|] eqn:E.
    + simpl. unfold Run.channels_recorded_all in *. simpl.
      exact (proj1 (list_set_at_index _ _ E)).
    + exfalso. apply has_channel_In in Hh.
      apply In_nth_error in Hh. destruct Hh as (n & Hn).
      clear -E Hn. revert n Hn E.
      induction (Run.channels_recorded_all r) as [|x xs IH]; intros n Hn E.
      * destruct n; discriminate.
      * simpl in E. destruct (pykey_eqb x (Channel.component c)) eqn:Ex;
          [discriminate|].
        destruct n as [|n]; simpl in Hn.
        -- injection Hn as ->. now rewrite pykey_eqb_refl in Ex.
        -- destruct (list_index (Channel.component c) xs) eqn:E';
             [discriminate|]. exact (IH n Hn eq_refl).
  - simpl. unfold Run.channels_recorded_all. simpl. now rewrite map_app.
Qed.

Lemma add_channel_NoDup r c :
  NoDup (Run.channels_recorded_all r) ->
  NoDup (Run.channels_recorded_all (fst (Run.add_channel r c))).
Proof.
  intro ND. rewrite add_channel_components.
  destruct (Run.has_channel r (Channel.component c)) eqn:Hh; [exact ND|].
  apply NoDup_rev in ND. rewrite <- (rev_involutive (_ ++ [_])).
  apply NoDup_rev. rewrite rev_app_distr. simpl. constructor; [|exact ND].
  rewrite <- in_rev. intro Hin. apply has_channel_In in Hin. congruence.
Qed.

Lemma add_channel_others r c x :
  Channel.component x <> Channel.component c ->
  In x (Run.channels (fst (Run.add_channel r c))) <-> In x (Run.channels r).
Proof.
  intro Hne. unfold Run.add_channel.
  destruct (Run.channel_index r (Channel.component c)) as [i|] eqn:E; simpl.
  - split.
    + intro H. apply list_set_In in H. destruct H as [-> | H];
        [congruence | exact H].
    + intro H. apply list_set_keeps; [exact H|].
      intro Hn. rewrite channel_index_eq in E. apply list_index_nth in E.
      unfold Run.channels_recorded_all in E. rewrite nth_error_map, Hn in E.
      simpl in E. congruence.
  - rewrite in_app_iff. simpl. split; [|tauto].
    intros [H | [<- | []]]; [exact H | congruence].
Qed.

Lemma add_channel_get r c :
  NoDup (Run.channels_recorded_all r) ->
  Run.get_channel (fst (Run.add_channel r c)) (Channel.component c) = Some c
  /\ forall k, k <> Channel.component c ->
       Run.get_channel (fst (Run.add_channel r c)) k = Run.get_channel r k.
Proof.
  intro ND. pose proof (@add_channel_NoDup r c ND) as ND'. split.
  - apply get_channel_iff; [exact ND'|]. split; [|reflexivity].
    apply add_channel_stores.
  - intros k Hk.
    destruct (Run.get_channel r k) as [x|] eqn:E.
    + apply get_channel_iff in E; [|exact ND]. destruct E as [Hin Hx].
      apply get_channel_iff; [exact ND'|]. split; [|exact Hx].
      apply add_channel_others; [congruence | exact Hin].
    + apply get_channel_none in E. apply get_channel_none.
      rewrite add_channel_components.
      destruct (Run.has_channel r (Channel.component c)); [exact E|].
      rewrite in_app_iff. simpl. intros [H | [H | []]];
        [contradiction | congruence].
Qed.

End AddThenGet.

(** X22.  [Run.add_channel] then [Run.get_channel].  In a run whose
    components are unique, the channel added is the one found under its
    component, the components stay unique, and every other component
    gives the channel it gave before. *)
Theorem add_channel_then_get (r : Run.t) (c : Channel.t) :
  NoDup (Run.channels_recorded_all r) ->
  let r' := fst (Run.add_channel r c) in
  Run.get_channel r' (Channel.component c) = Some c
  /\ Run.has_channel r' (Channel.component c) = true
  /\ NoDup (Run.channels_recorded_all r')
  /\ forall k, k <> Channel.component c ->
       Run.get_channel r' k = Run.get_channel r k.
Proof.
  intros ND r'. destruct (@add_channel_get r c ND) as (H1 & H2).
  split; [exact H1|]. split; [|split; [now apply add_channel_NoDup | exact H2]].
  apply has_channel_In. unfold Run.channels_recorded_all.
  apply in_map. apply add_channel_stores.
Qed.

Lemma add_channel_then_get_witness :
  let c := Channel.set_dipole_length (Some 50%Q)
             (sample_channel Channel.Electric "ex") in
  Run.get_channel (fst (Run.add_channel (five_channel_run 1) c)) (Some "ex")
  = Some c.
Proof.
  intro c.
  assert (ND : NoDup (Run.channels_recorded_all (five_channel_run 1))).
  { repeat constructor; simpl; intuition discriminate. }
  exact (proj1 (@add_channel_then_get (five_channel_run 1) c ND)).
Defined.

Lemma accessor_name_lower (a : Run.accessor) :
  lower (Run.accessor_name a) = Run.accessor_name a.
Proof. destruct a; reflexivity. Qed.

Lemma accessor_name_inj (a b : Run.accessor) :
  Run.accessor_name a = Run.accessor_name b -> a = b.
Proof. destruct a, b; simpl; intro H; try reflexivity; discriminate. Qed.

(** X23.  A named accessor of a run, written then read.  In a run whose
    components are unique, assigning a channel of the accessor's class
    whose component is the accessor's name succeeds, the accessor then
    returns that channel, and the other accessors return what they
    returned before. *)
Theorem setter_then_getter (a : Run.accessor) (r : Run.t) (value : Channel.t) :
  NoDup (Run.channels_recorded_all r) ->
  Channel.class value = Run.accessor_class a ->
  Channel.component value = Some (Run.accessor_name a) ->
  exists r',
    Run.setter a r value = Ok r'
    /\ Run.getter a r' = Some value
    /\ NoDup (Run.channels_recorded_all r')
    /\ forall b, b <> a -> Run.getter b r' = Run.getter b r.
Proof.
  intros ND Hc Hk.
  destruct (@setter_accepts_named a r value _ Hc Hk (accessor_name_lower a))
    as (Hs & _).
  destruct (@add_channel_get r value ND) as (H1 & H2).
  exists (fst (Run.add_channel r value)).
  split; [exact Hs|]. split; [|split; [now apply add_channel_NoDup|]].
  - unfold Run.getter. rewrite <- Hk. exact H1.
  - intros b Hb. unfold Run.getter. apply H2. rewrite Hk.
    intros [= E]. apply Hb. now apply accessor_name_inj.
Qed.

Lemma setter_then_getter_witness :
  let value := Channel.set_dipole_length (Some 50%Q)
                 (sample_channel Channel.Electric "ey") in
  exists r',
    Run.setter Run.ey (five_channel_run 1) value = Ok r'
    /\ Run.getter Run.ey r' = Some value.
Proof.
  intro value.
  assert (ND : NoDup (Run.channels_recorded_all (five_channel_run 1))).
  { repeat constructor; simpl; intuition discriminate. }
  destruct (@setter_then_getter Run.ey (five_channel_run 1) value ND
              eq_refl eq_refl) as (r' & H1 & H2 & _).
  exists r'. split; [exact H1 | exact H2].
Defined.

(* ================================================================= *)
(** ** [Run]: the sorted component lists *)
Lemma components_by_class (l : list Channel.t) (ss : list string) :
  map Channel.component l = map Some ss ->
  exists le lm la,
    map Channel.component
      (filter (fun ch => Channel.cls_eqb (Channel.class ch) Channel.Electric) l)
    = map Some le
    /\ map Channel.component
         (filter (fun ch => Channel.cls_eqb (Channel.class ch) Channel.Magnetic) l)
       = map Some lm
    /\ map Channel.component
         (filter (fun ch => Channel.cls_eqb (Channel.class ch) Channel.Auxiliary) l)
       = map Some la
    /\ Permutation (le ++ lm ++ la) ss.
Proof.
  revert ss. induction l as [|c l IH]; intros [|s ss] H; try discriminate.
  - exists [], [], []. repeat split; constructor.
  - simpl in H. injection H as Hc Hl.
    destruct (IH ss Hl) as (le & lm & la & He & Hm & Ha & Hp).
    simpl. destruct (Channel.class c); simpl; rewrite Hc, He, Hm, Ha.
    + exists (s :: le), lm, la. repeat split. simpl. now constructor.
    + exists le, (s :: lm), la. repeat split.
      rewrite <- Hp. symmetry. apply Permutation_middle.
    + exists le, lm, (s :: la). repeat split.
      rewrite <- Hp, !app_assoc. symmetry. apply Permutation_middle.
Qed.

(** X24.  [channels_recorded_electric], [_magnetic] and [_auxiliary].  When
    every channel of the run has a component, each of the three lists is
    in ascending order, and together they hold the components of
    [channels_recorded_all], each as often as it occurs there. *)
Theorem channels_recorded_by_class (r : Run.t) (ss : list string) :
  Run.channels_recorded_all r = map Some ss ->
  exists le lm la,
    RunOps.channels_recorded_electric r = Ok (map Some le)
    /\ RunOps.channels_recorded_magnetic r = Ok (map Some lm)
    /\ RunOps.channels_recorded_auxiliary r = Ok (map Some la)
    /\ non_descending le /\ non_descending lm /\ non_descending la
    /\ Permutation (le ++ lm ++ la) ss.
Proof.
  intro H. destruct (@components_by_class (Run.channels r) ss H)
    as (le & lm & la & He & Hm & Ha & Hp).
  exists (sort_strings le), (sort_strings lm), (sort_strings la).
  unfold RunOps.channels_recorded_electric, RunOps.channels_recorded_magnetic,
    RunOps.channels_recorded_auxiliary, RunOps.components_of.
  rewrite He, Hm, Ha, !py_sorted_strings.
  repeat split; try apply sort_strings_le.
  rewrite <- Hp. repeat apply Permutation_app; apply sort_strings_perm.
Qed.

Lemma channels_recorded_by_class_witness :
  exists le lm la,
    RunOps.channels_recorded_electric (five_channel_run 1) = Ok (map Some le)
    /\ RunOps.channels_recorded_magnetic (five_channel_run 1)
       = Ok (map Some lm)
    /\ RunOps.channels_recorded_auxiliary (five_channel_run 1)
       = Ok (map Some la)
    /\ non_descending le /\ non_descending lm /\ non_descending la
    /\ Permutation (le ++ lm ++ la) ["hx"; "hy"; "hz"; "ex"; "ey"].
Proof.
  exact (@channels_recorded_by_class (five_channel_run 1)
           ["hx"; "hy"; "hz"; "ex"; "ey"] eq_refl).
Defined.

(** X25.  [channels_recorded_electric], [_magnetic] and [_auxiliary] with an
    unset component.  When two or more channels of a class are held and
    one of them has no component, the list of that class raises
    [TypeError]. *)
Theorem channels_recorded_unset_component (r : Run.t) (k : Channel.cls) :
  In None (RunOps.components_of k r) ->
  (2 <= List.length (RunOps.components_of k r))%nat ->
  match k with
  | Channel.Electric => RunOps.channels_recorded_electric r
  | Channel.Magnetic => RunOps.channels_recorded_magnetic r
  | Channel.Auxiliary => RunOps.channels_recorded_auxiliary r
  end = Raise TypeError.
Proof.
  intros Hin Hlen.
  destruct k; unfold RunOps.channels_recorded_electric,
    RunOps.channels_recorded_magnetic, RunOps.channels_recorded_auxiliary;
    now apply py_sorted_none.
Qed.

Lemma channels_recorded_unset_component_witness :
  RunOps.channels_recorded_electric
    (Run.set_channels [sample_channel Channel.Electric "ex";
                       Channel.new Channel.Electric] Run.new)
  = Raise TypeError.
Proof.
  apply (@channels_recorded_unset_component _ Channel.Electric).
  - right. left. reflexivity.
  - simpl. lia.
Defined.

(* ================================================================= *)
(** ** [EMTFXML.write]: the derived lists *)
(** X26.  [EMTFXML.write] rebuilds the two derived lists.  What the lists
    held before has no effect on the result, the other fields modelled
    here are left as they are, a second [write] changes nothing, and the lists hold at most
    three estimates and two data types. *)
Theorem write_rebuilds_lists (e : EMTFXML.t) (old_estimates : list Estimate.t)
  (old_data_types : list DataType.t) :
  exists e',
    EMTFXML.write e = Ok e'
    /\ EMTFXML.write
         (EMTFXML.set_estimates_list old_estimates
            (EMTFXML.set_data_types_list old_data_types e)) = Ok e'
    /\ EMTFXML.write e' = Ok e'
    /\ e' = EMTFXML.set_data_types_list (EMTFXML.data_types_list e')
              (EMTFXML.set_estimates_list (EMTFXML.estimates_list e') e)
    /\ (List.length (EMTFXML.estimates_list e') <= 3)%nat
    /\ (List.length (EMTFXML.data_types_list e') <= 2)%nat.
Proof.
  destruct (write_form e) as (l1 & l2 & Hw).
  destruct (write_eq e) as (e1 & Hw1 & Hd1 & He1 & Ht1).
  rewrite Hw in Hw1. injection Hw1 as <-.
  cbn [EMTFXML.estimates_list EMTFXML.data_types_list
       EMTFXML.set_data_types_list EMTFXML.set_estimates_list] in He1, Ht1.
  set (e2 := EMTFXML.set_estimates_list old_estimates
               (EMTFXML.set_data_types_list old_data_types e)).
  destruct (write_form e2) as (m1 & m2 & Hw2).
  destruct (write_eq e2) as (e3 & Hw3 & _ & He3 & Ht3).
  rewrite Hw2 in Hw3. injection Hw3 as <-.
  cbn [EMTFXML.estimates_list EMTFXML.data_types_list
       EMTFXML.set_data_types_list EMTFXML.set_estimates_list] in He3, Ht3.
  set (e' := EMTFXML.set_data_types_list l2 (EMTFXML.set_estimates_list l1 e)).
  destruct (write_form e') as (n1 & n2 & Hw4).
  destruct (write_eq e') as (e5 & Hw5 & _ & He5 & Ht5).
  rewrite Hw4 in Hw5. injection Hw5 as <-.
  cbn [EMTFXML.estimates_list EMTFXML.data_types_list
       EMTFXML.set_data_types_list EMTFXML.set_estimates_list] in He5, Ht5.
  assert (Hd2 : EMTFXML.data e2 = EMTFXML.data e) by reflexivity.
  assert (Hd' : EMTFXML.data e' = EMTFXML.data e) by reflexivity.
  rewrite Hd2 in He3, Ht3. rewrite Hd' in He5, Ht5.
  exists e'. split; [exact Hw|]. split; [|split; [|split; [|split]]].
  - rewrite Hw2. f_equal. rewrite He3, Ht3, <- He1, <- Ht1. reflexivity.
  - rewrite Hw4. f_equal. rewrite He5, Ht5, <- He1, <- Ht1. reflexivity.
  - reflexivity.
  - unfold e'. cbn [EMTFXML.estimates_list EMTFXML.set_data_types_list
                    EMTFXML.set_estimates_list].
    rewrite He1.
    repeat match goal with |- context [if ?b then _ else _] => destruct b end;
      simpl; lia.
  - unfold e'. cbn [EMTFXML.data_types_list EMTFXML.set_data_types_list
                    EMTFXML.set_estimates_list].
    rewrite Ht1.
    repeat match goal with |- context [if ?b then _ else _] => destruct b end;
      simpl; lia.
Qed.

(* ================================================================= *)
(** ** [EMTFXML]: reading a document *)
(** X27.  The end of [EMTFXML.read].  Without a period axis it raises
    [AttributeError], with an empty one [ValueError]; otherwise the period
    range is set to two values of the axis, the lower one below or equal
    to every period and the upper one above or equal to every period. *)
Theorem read_sets_period_range (e : EMTFXML.t) :
  (Data.period (EMTFXML.data e) = None ->
   EMTFXML.read e = Raise AttributeError)
  /\ (Data.period (EMTFXML.data e) = Some [] ->
      EMTFXML.read e = Raise ValueError)
  /\ forall p ps,
       Data.period (EMTFXML.data e) = Some (p :: ps) ->
       exists mn mx,
         EMTFXML.read e = Ok (EMTFXML.set_period_range (Some mn) (Some mx) e)
         /\ In mn (p :: ps) /\ In mx (p :: ps)
         /\ forall x, In x (p :: ps) -> (mn <= x)%Q /\ (x <= mx)%Q.
Proof.
  unfold EMTFXML.read. split; [|split].
  - now intros ->.
  - now intros ->.
  - intros p ps ->. cbn [bind array_min array_max].
    destruct (fold_min_spec ps p) as (Hmin & Hle).
    destruct (fold_max_spec ps p) as (Hmax & Hge).
    eexists. eexists. split; [reflexivity|].
    split; [exact Hmin|]. split; [exact Hmax|].
    intros x Hx. split; [now apply Hle | now apply Hge].
Qed.

Lemma read_sets_period_range_witness :
  let e := EMTFXML.set_data
             (Data.set_period (Some [3#1; 1#1; 2#1]) Data.new) EMTFXML.new in
  exists mn mx,
    EMTFXML.read e = Ok (EMTFXML.set_period_range (Some mn) (Some mx) e)
    /\ In mn [3#1; 1#1; 2#1] /\ In mx [3#1; 1#1; 2#1]
    /\ forall x, In x [3#1; 1#1; 2#1] -> (mn <= x)%Q /\ (x <= mx)%Q.
Proof.
  intro e.
  destruct (read_sets_period_range e) as (_ & _ & H).
  exact (H (3#1) [1#1; 2#1] eq_refl).
Defined.

(** X28.  Field-note records without a sampling rate.  The [station_metadata]
    getter builds runs from the records whose sampling rate is neither
    zero nor [None] only: the others could as well be absent, and a
    document holding no other record gives a station without runs. *)
Theorem unsampled_records_are_skipped
  (Base_update : Run.t -> Run.t -> Run.t)
  (get_attr_from_name : EMTFXML.t -> string -> option string)
  (e : EMTFXML.t) :
  (forall fns s,
      EMTFXML.field_notes_to_runs Base_update e fns s
      = EMTFXML.field_notes_to_runs Base_update e
          (filter (fun fn => negb (in_zero_or_none
                                     (FieldNotesRun.sampling_rate fn))) fns) s)
  /\ (forall sub,
        EMTFXML.sub_type e = Some sub ->
        Forall (fun fn => in_zero_or_none (FieldNotesRun.sampling_rate fn)
                          = true) (EMTFXML.field_notes_run_list e) ->
        exists s,
          EMTFXML.station_metadata_getter Base_update get_attr_from_name e
          = Ok s
          /\ Station.runs s = ListDict.empty
          /\ Station.id s = EMTFXML.site_id e).
Proof.
  assert (H1 : forall fns s,
      EMTFXML.field_notes_to_runs Base_update e fns s
      = EMTFXML.field_notes_to_runs Base_update e
          (filter (fun fn => negb (in_zero_or_none
                                     (FieldNotesRun.sampling_rate fn))) fns) s).
  { induction fns as [|fn fns IH]; intro s; [reflexivity|].
    simpl. destruct (in_zero_or_none (FieldNotesRun.sampling_rate fn)) eqn:E;
      simpl.
    - apply IH.
    - rewrite E.
      destruct (EMTFXML.field_notes_to_run e fn) as [r|err]; [|reflexivity].
      cbn [bind].
      destruct (Station.add_run Base_update s r) as [added|err];
        [|reflexivity].
      cbn [bind]. apply IH. }
  split; [exact H1|].
  intros sub Hsub Hall. unfold EMTFXML.station_metadata_getter.
  rewrite Hsub. cbn [bind]. rewrite H1.
  assert (Hf : filter (fun fn => negb (in_zero_or_none
                                         (FieldNotesRun.sampling_rate fn)))
                 (EMTFXML.field_notes_run_list e) = []).
  { induction Hall as [|fn fns Hfn _ IH]; [reflexivity|].
    simpl. now rewrite Hfn. }
  rewrite Hf. eexists. split; [reflexivity|]. split; reflexivity.
Qed.

Lemma unsampled_records_are_skipped_witness :
  let fn := FieldNotesRun.mk (Some "a") (Some 0%Q) EmptyString EmptyString
              Instrument.default
              [] [] in
  let e := EMTFXML.set_field_notes_run_list [fn]
             (EMTFXML.set_sub_type (Some "MT_TF") EMTFXML.new) in
  exists s,
    EMTFXML.station_metadata_getter Base_update_overwrite no_attr_get e = Ok s
    /\ Station.runs s = ListDict.empty.
Proof.
  intros fn e.
  destruct (unsampled_records_are_skipped Base_update_overwrite no_attr_get e)
    as (_ & H).
  destruct (H "MT_TF" eq_refl) as (s & Hs & Hr & _).
  - repeat constructor.
  - exists s. split; [exact Hs | exact Hr].
Defined.

(* ================================================================= *)
(** ** [EMTFXML]: electrodes and magnetometers *)
(** X29.  The electrodes of an electric channel, written then read.  The
    dipole record of [ex] holds the positive electrode at ["n"] and the
    negative one at ["s"] (["e"] and ["w"] for [ey]).  Read back, each
    electrode keeps its id, and both get the type and the manufacturer of
    the positive electrode: those of the negative one are not kept. *)
Theorem electrodes_round_trip (a : Run.accessor) (ch : Channel.t) :
  In a [Run.ex; Run.ey] ->
  Channel.class ch = Channel.Electric ->
  exists dp lay,
    EMTFXML.electric_records a (Some ch) = Ok (dp, lay)
    /\ Dipole.name dp = Some (capitalize (Run.accessor_name a))
    /\ map XmlElectrode.location (Dipole.electrode dp)
       = match a with
         | Run.ex => [Some "n"; Some "s"]
         | _ => [Some "e"; Some "w"]
         end
    /\ forall c,
         exists c',
           EMTFXML.assign_electrodes dp (Dipole.electrode dp) c = Ok c'
           /\ Electrode.id (Channel.positive c')
              = Electrode.id (Channel.positive ch)
           /\ Electrode.id (Channel.negative c')
              = Electrode.id (Channel.negative ch)
           /\ Electrode.type (Channel.positive c')
              = Electrode.type (Channel.positive ch)
           /\ Electrode.manufacturer (Channel.positive c')
              = Electrode.manufacturer (Channel.positive ch)
           /\ Electrode.type (Channel.negative c')
              = Electrode.type (Channel.positive ch)
           /\ Electrode.manufacturer (Channel.negative c')
              = Electrode.manufacturer (Channel.positive ch).
Proof.
  intros Ha Hc.
  unfold EMTFXML.electric_records, Channel.get_dipole_length,
    Channel.get_positive, Channel.get_negative.
  rewrite Hc. cbn [bind].
  destruct Ha as [<- | [<- | []]]; eexists; eexists;
    (split; [reflexivity|]); (split; [reflexivity|]);
    (split; [reflexivity|]); intro c; eexists;
    (split; [reflexivity|]); repeat split.
Qed.

Lemma electrodes_round_trip_witness :
  let ch := Channel.set_negative
              (Electrode.mk (Some "2") (Some "acme") (Some "Pb-PbCl2")
                 None None None None None None)
              (Channel.set_positive
                 (Electrode.mk (Some "1") (Some "zonge") (Some "Ag-AgCl")
                    None None None None None None)
                 (sample_channel Channel.Electric "ex")) in
  exists dp lay c',
    EMTFXML.electric_records Run.ex (Some ch) = Ok (dp, lay)
    /\ EMTFXML.assign_electrodes dp (Dipole.electrode dp)
         (Channel.new Channel.Electric) = Ok c'
    /\ Electrode.id (Channel.negative c') = Some "2"
    /\ Electrode.type (Channel.negative c') = Some "Ag-AgCl"
    /\ Electrode.manufacturer (Channel.negative c') = Some "zonge".
Proof.
  intro ch.
  destruct (@electrodes_round_trip Run.ex ch (or_introl eq_refl) eq_refl)
    as (dp & lay & H1 & _ & _ & H4).
  destruct (H4 (Channel.new Channel.Electric))
    as (c' & Hc & _ & Hn & _ & _ & Ht & Hm).
  exists dp, lay, c'. split; [exact H1|]. split; [exact Hc|].
  split; [exact Hn|]. split; [exact Ht | exact Hm].
Defined.

(** X30.  A single fluxgate magnetometer.  When the [hx] channel of a run
    has a sensor named NIMS or LEMI of type fluxgate, the setter writes one
    magnetometer record and one site-layout record for the run and does
    not look at [hy] and [hz]; read back, a record with that one
    magnetometer gives the three channels hx, hy and hz, each with the
    sensor of [hx]. *)
Theorem fluxgate_is_one_magnetometer (r : Run.t) (ch : Channel.t)
  (st : EMTFXML.scan) :
  Run.getter Run.hx r = Some ch ->
  Channel.class ch = Channel.Magnetic ->
  opt_str_in (Instrument.name (Channel.sensor ch)) ["NIMS"; "LEMI"] = true ->
  opt_str_in (Instrument.type (Channel.sensor ch)) ["fluxgate"] = true ->
  exists mag lay,
    EMTFXML.magnetic_loop r [Run.hx; Run.hy; Run.hz] st
    = Ok (EMTFXML.mkScan
            (FieldNotesRun.set_magnetometer
               (FieldNotesRun.magnetometer (EMTFXML.s_fn st) ++ [mag])
               (EMTFXML.s_fn st))
            (EMTFXML.set_input_channels
               (EMTFXML.input_channels (EMTFXML.s_emtf st) ++ [lay])
               (EMTFXML.s_emtf st))
            (EMTFXML.s_log st))
    /\ Layout.name lay = Some "Hx"
    /\ forall fn r0,
         FieldNotesRun.magnetometer fn = [mag] ->
         Run.channels r0 = [] ->
         Run.channels (EMTFXML.add_magnetic_channels fn r0)
         = map (fun comp =>
                  Channel.set_sensor (Channel.sensor ch)
                    (Channel.set_component (Some comp)
                       (Channel.new Channel.Magnetic)))
             ["hx"; "hy"; "hz"].
Proof.
  intros Hg Hc Hn Ht.
  cbn [EMTFXML.magnetic_loop]. rewrite Hg.
  unfold EMTFXML.magnetic_records, EMTFXML.single_sensor_test,
    Channel.get_sensor.
  rewrite Hc. cbn [bind try_except]. rewrite Hn, Ht.
  cbn [andb Run.accessor_name str_in existsb String.eqb Ascii.eqb
       Bool.eqb orb EMTFXML.s_fn EMTFXML.s_emtf EMTFXML.s_log].
  eexists. eexists. split; [reflexivity|]. split; [reflexivity|].
  intros fn r0 Hm Hr. unfold EMTFXML.add_magnetic_channels. rewrite Hm.
  destruct r0 as [rid rate tp dl chs]. simpl in Hr. subst chs.
  destruct (Channel.sensor ch) as [sid sname sman stype].
  reflexivity.
Qed.

Lemma fluxgate_is_one_magnetometer_witness :
  let hx := sample_magnetic "hx" "NIMS" "fluxgate" in
  let r := Run.set_channels
             [hx; sample_magnetic "hy" "NIMS" "fluxgate";
              sample_magnetic "hz" "NIMS" "fluxgate"] Run.new in
  let fn := FieldNotesRun.mk None None EmptyString EmptyString
              Instrument.default [] [] in
  exists mag lay,
    EMTFXML.magnetic_loop r [Run.hx; Run.hy; Run.hz]
      (EMTFXML.mkScan fn EMTFXML.new [])
    = Ok (EMTFXML.mkScan (FieldNotesRun.set_magnetometer [mag] fn)
            (EMTFXML.set_input_channels [lay] EMTFXML.new) []).
Proof.
  intros hx r fn.
  destruct (@fluxgate_is_one_magnetometer r hx
              (EMTFXML.mkScan fn EMTFXML.new []) eq_refl eq_refl eq_refl
              eq_refl) as (mag & lay & H & _).
  exists mag, lay. exact H.
Defined.
